(** * WorkshopAI browser client: event channel, graph canvas, node interface
      forms and agent variables.

    A shallow embedding of the client scripts: [socket.js],
    [preset/preset.js], [preset/shapes.js], the agents script
    ([addAgentsHandlers]), the side panels of [common.js] and the
    registrations of the page's main script.  Handlers become functions on explicit state
    records; what a handler sends on the socket, the one-shot listeners it
    registers and the notifications it raises are returned as a list of
    effects.  JavaScript numbers are kept behind the interface [JsNumber],
    instantiated by IEEE-754 binary64 (what the browser computes with) and
    by exact rationals. *)

From Stdlib Require Import PrimFloat QArith ZArith Lia Lqa.
From stdpp Require Import gmap strings list.

Set Warnings "-register-all,-inexact-float,-clear-no-such-hyp".

(** ** JavaScript numbers *)

(** The arithmetic the scripts use on numbers: [+ - * /], the comparisons
    [>=], [<=], [>], [Math.max], and integer literals. *)
Class JsNumber (num : Type) := {
  nadd : num → num → num;
  nsub : num → num → num;
  nmul : num → num → num;
  ndiv : num → num → num;
  ngeb : num → num → bool;
  nleb : num → num → bool;
  ngtb : num → num → bool;
  nmax : num → num → num;
  of_Z : Z → num
}.

Declare Scope js_scope.
Delimit Scope js_scope with js.
Infix "+" := nadd : js_scope.
Infix "-" := nsub : js_scope.
Infix "*" := nmul : js_scope.
Infix "/" := ndiv : js_scope.
Infix ">=?" := ngeb (at level 70) : js_scope.
Infix "<=?" := nleb (at level 70) : js_scope.
Infix ">?" := ngtb (at level 70) : js_scope.

(** A decimal literal [m/10] such as [0.9] or [1.1]: the number nearest to
    the quotient, which is what a correctly rounded division of the two
    integers returns. *)
Definition tenths {num : Type} `{JsNumber num} (m : Z) : num := (of_Z m / of_Z 10)%js.

(** *** binary64 *)

Fixpoint float_of_pos (p : positive) : float :=
  match p with
  | xH => 1%float
  | xO q => (2 * float_of_pos q)%float
  | xI q => (2 * float_of_pos q + 1)%float
  end.

Definition float_of_Z (z : Z) : float :=
  match z with
  | Z0 => 0%float
  | Zpos p => float_of_pos p
  | Zneg p => (- float_of_pos p)%float
  end.

(** [Math.max]: NaN if either argument is NaN, else the larger one. *)
Definition float_max (a b : float) : float :=
  if PrimFloat.is_nan a then a
  else if PrimFloat.is_nan b then b
  else if PrimFloat.ltb a b then b else a.

#[export] Instance float_JsNumber : JsNumber float := {
  nadd := PrimFloat.add;
  nsub := PrimFloat.sub;
  nmul := PrimFloat.mul;
  ndiv := PrimFloat.div;
  ngeb a b := PrimFloat.leb b a;
  nleb a b := PrimFloat.leb a b;
  ngtb a b := PrimFloat.ltb b a;
  nmax := float_max;
  of_Z := float_of_Z
}.

(** *** exact rationals *)

#[export] Instance Q_JsNumber : JsNumber Q := {
  nadd := Qplus;
  nsub := Qminus;
  nmul := Qmult;
  ndiv := Qdiv;
  ngeb a b := Qle_bool b a;
  nleb a b := Qle_bool a b;
  ngtb a b := negb (Qle_bool a b);
  nmax a b := if Qle_bool a b then b else a;
  of_Z := inject_Z
}.

(** ** JavaScript values carried by events and stored in node records *)

(** Objects used as maps are association lists here and finite maps in the
    node records; their keys are ordinary property names (the special
    property [__proto__] is outside the model). *)

Inductive JsVal :=
  | VUndefined
  | VNull
  | VBool (b : bool)
  | VNum (x : float)
  | VStr (s : string)
  | VArr (xs : list JsVal)
  | VObj (props : list (string * JsVal)).

Fixpoint assoc (k : string) (ps : list (string * JsVal)) : option JsVal :=
  match ps with
  | [] => None
  | (k', v) :: rest => if String.eqb k' k then Some v else assoc k rest
  end.

(** [v.k]: [None] stands for the TypeError raised on [undefined] and
    [null]; a missing property reads as [undefined]. *)
Definition get_prop (v : JsVal) (k : string) : option JsVal :=
  match v with
  | VUndefined | VNull => None
  | VObj ps => Some (default VUndefined (assoc k ps))
  | _ => Some VUndefined
  end.

(** [v === 'text'] *)
Definition strict_eq_str (v : JsVal) (text : string) : bool :=
  match v with
  | VStr s => String.eqb s text
  | _ => false
  end.

(** The string itself when [if (s)] takes the branch. *)
Definition truthy_id (o : option string) : option string :=
  match o with
  | Some s => if String.eqb s "" then None else Some s
  | None => None
  end.

(** Truthiness of a value ([if (v)], [v && ...], [!v]). *)
Definition truthy (v : JsVal) : bool :=
  match v with
  | VUndefined | VNull => false
  | VBool b => b
  | VNum x => negb (PrimFloat.eqb x 0 || PrimFloat.is_nan x)
  | VStr s => negb (String.eqb s "")
  | VArr _ | VObj _ => true
  end.

(** ** socket.js: the event channel *)

Module socket.

Inductive PromiseState :=
  | Pending
  | Fulfilled (v : JsVal)
  | Rejected (reason : JsVal).

(** A promise with the number of times its [resolve] function ran. *)
Record Promise := {
  state : PromiseState;
  resolve_calls : nat
}.

Inductive Callback :=
  | ResolvePromise (p : nat)
  | Handler (h : string).

Record Listener := {
  l_event : string;
  l_once : bool;
  l_fn : Callback
}.

Record Socket := {
  listeners : list Listener;
  promises : list Promise;
  outbox : list (string * JsVal);
  handled : list (string * JsVal)
}.

Definition init : Socket :=
  {| listeners := []; promises := []; outbox := []; handled := [] |}.

(** [resolve(v)] of promise [p]: only the first call settles it. *)
Definition settle (v : JsVal) (pr : Promise) : Promise :=
  {| state := match state pr with Pending => Fulfilled v | st => st end;
     resolve_calls := S (resolve_calls pr) |}.

Definition resolve (p : nat) (v : JsVal) (s : Socket) : Socket :=
  {| listeners := listeners s;
     promises := alter (settle v) p (promises s);
     outbox := outbox s;
     handled := handled s |}.

Definition invoke (v : JsVal) (s : Socket) (l : Listener) : Socket :=
  match l_fn l with
  | ResolvePromise p => resolve p v s
  | Handler h =>
      {| listeners := listeners s;
         promises := promises s;
         outbox := outbox s;
         handled := handled s ++ [(h, v)] |}
  end.

(** [socket.emit(event, payload)] *)
Definition emit (event : string) (payload : JsVal) (s : Socket) : Socket :=
  {| listeners := listeners s;
     promises := promises s;
     outbox := outbox s ++ [(event, payload)];
     handled := handled s |}.

(** [socket.on(event, h)] *)
Definition on (event : string) (h : string) (s : Socket) : Socket :=
  {| listeners := listeners s ++ [{| l_event := event; l_once := false; l_fn := Handler h |}];
     promises := promises s;
     outbox := outbox s;
     handled := handled s |}.

(** [socket.once(event, fn)] *)
Definition once (event : string) (fn : Callback) (s : Socket) : Socket :=
  {| listeners := listeners s ++ [{| l_event := event; l_once := true; l_fn := fn |}];
     promises := promises s;
     outbox := outbox s;
     handled := handled s |}.

(** [new Promise((resolve) => ...)]: the new promise's index. *)
Definition new_promise (s : Socket) : nat * Socket :=
  (length (promises s),
   {| listeners := listeners s;
      promises := promises s ++ [{| state := Pending; resolve_calls := 0 |}];
      outbox := outbox s;
      handled := handled s |}).

(** [waitForEvent(eventName)] *)
Definition waitForEvent (eventName : string) (s : Socket) : nat * Socket :=
  let '(p, s1) := new_promise s in
  (p, once eventName (ResolvePromise p) s1).

(** An event named [event] arrives from the engine: every listener
    registered for it is called with the payload, in registration order,
    and the one-shot ones are unregistered. *)
Definition dispatch (event : string) (v : JsVal) (s : Socket) : Socket :=
  let called := List.filter (λ l, String.eqb (l_event l) event) (listeners s) in
  let kept :=
    List.filter (λ l, negb (String.eqb (l_event l) event && l_once l)) (listeners s) in
  foldl (invoke v)
    {| listeners := kept; promises := promises s;
       outbox := outbox s; handled := handled s |}
    called.

(** What can happen on the channel, one step at a time. *)
Inductive Action :=
  | Emit (event : string) (payload : JsVal)
  | On (event : string) (h : string)
  | Wait (event : string)
  | Incoming (event : string) (payload : JsVal).

Definition step (s : Socket) (a : Action) : Socket :=
  match a with
  | Emit e v => emit e v s
  | On e h => on e h s
  | Wait e => snd (waitForEvent e s)
  | Incoming e v => dispatch e v s
  end.

Definition run (tr : list Action) (s : Socket) : Socket := foldl step s tr.

(** The payload of the first arrival of [event] in a trace. *)
Fixpoint next_occurrence (event : string) (tr : list Action) : option JsVal :=
  match tr with
  | [] => None
  | Incoming e v :: rest =>
      if String.eqb e event then Some v else next_occurrence event rest
  | _ :: rest => next_occurrence event rest
  end.

(** Would the listener call [resolve] of promise [p]? *)
Definition targets (p : nat) (l : Listener) : bool :=
  match l_fn l with
  | ResolvePromise q => Nat.eqb q p
  | Handler _ => false
  end.

(** Is a listener of promise [p] still registered? *)
Definition awaiting (p : nat) (s : Socket) : bool :=
  existsb (targets p) (listeners s).

(** How many registered listeners would call [resolve] of promise [p]. *)
Definition ntargets (p : nat) (ls : list Listener) : nat :=
  length (List.filter (targets p) ls).

(** Every listener of promise [p] is a one-shot listener of [event]. *)
Definition listens_once (p : nat) (event : string) (ls : list Listener) : Prop :=
  Forall (λ l, targets p l = true → l_event l = event ∧ l_once l = true) ls.

(** Listeners only refer to promises that exist. *)
Definition fresh (s : Socket) : Prop :=
  Forall (λ l, ∀ q, l_fn l = ResolvePromise q → q < length (promises s)) (listeners s).

Definition arrived (event : string) (tr : list Action) : bool :=
  match next_occurrence event tr with
  | Some _ => true
  | None => false
  end.

(** What the promise returned by [waitForEvent event] holds after the
    trace [tr]. *)
Definition expected (event : string) (tr : list Action) : Promise :=
  match next_occurrence event tr with
  | Some v => {| state := Fulfilled v; resolve_calls := 1 |}
  | None => {| state := Pending; resolve_calls := 0 |}
  end.

End socket.

(** ** preset/shapes.js and preset/preset.js: the graph canvas *)

Module board.
Section WithNumbers.
Context {num : Type} `{JsNumber num}.

(** *** The graph model (JointJS cells) *)

Record Point := { px : num; py : num }.
Record Size := { width : num; height : num }.

(** [joint.shapes.custom.*] *)
Inductive Shape := NodeWithButton | Window | Note.

(** An element of the graph: its JointJS cell [id], the attributes the
    scripts read and write, and the state of the embedded interface form
    ([interfaceForm/display], [/width], [/height], [/html]).  The cell id
    also stands for the identity of the object ([===], [includes]): every
    object gets an id of its own when it is created, so the two agree until
    [graph.fromJSON] builds new objects under the ids of a saved layout. *)
Record Element := {
  id : string;
  shape : Shape;
  customId : option string;
  position : Point;
  size : Size;
  originalSize : Size;
  expandedSize : Size;
  interfaceVisible : bool;
  formDisplay : bool;
  formWidth : option num;
  formHeight : option num;
  formHtml : option string
}.

Record Link := { source : string; target : string }.

Record Graph := { elements : list Element; links : list Link }.

Inductive Cell :=
  | CellElement (e : Element)
  | CellLink (l : Link).

Definition DEFAULT_NODE_WIDTH : num := of_Z 150.
Definition DEFAULT_NODE_HEIGHT : num := of_Z 70.

(** [a === b] on elements. *)
Definition same (a b : Element) : bool := String.eqb (id a) (id b).

(** [element.position(x, y)] *)
Definition set_position (p : Point) (e : Element) : Element :=
  {| id := id e; shape := shape e; customId := customId e;
     position := p; size := size e;
     originalSize := originalSize e; expandedSize := expandedSize e;
     interfaceVisible := interfaceVisible e; formDisplay := formDisplay e;
     formWidth := formWidth e; formHeight := formHeight e; formHtml := formHtml e |}.

(** [element.resize(w, h)] *)
Definition resize (w h : num) (e : Element) : Element :=
  {| id := id e; shape := shape e; customId := customId e;
     position := position e; size := {| width := w; height := h |};
     originalSize := originalSize e; expandedSize := expandedSize e;
     interfaceVisible := interfaceVisible e; formDisplay := formDisplay e;
     formWidth := formWidth e; formHeight := formHeight e; formHtml := formHtml e |}.

(** [node.set('expandedSize', s)] *)
Definition set_expandedSize (s : Size) (e : Element) : Element :=
  {| id := id e; shape := shape e; customId := customId e;
     position := position e; size := size e;
     originalSize := originalSize e; expandedSize := s;
     interfaceVisible := interfaceVisible e; formDisplay := formDisplay e;
     formWidth := formWidth e; formHeight := formHeight e; formHtml := formHtml e |}.

(** [node.set('customId', c)] *)
Definition set_customId (c : option string) (e : Element) : Element :=
  {| id := id e; shape := shape e; customId := c;
     position := position e; size := size e;
     originalSize := originalSize e; expandedSize := expandedSize e;
     interfaceVisible := interfaceVisible e; formDisplay := formDisplay e;
     formWidth := formWidth e; formHeight := formHeight e; formHtml := formHtml e |}.

(** [node.attr('interfaceForm/height', h)] *)
Definition set_formHeight (h : num) (e : Element) : Element :=
  {| id := id e; shape := shape e; customId := customId e;
     position := position e; size := size e;
     originalSize := originalSize e; expandedSize := expandedSize e;
     interfaceVisible := interfaceVisible e; formDisplay := formDisplay e;
     formWidth := formWidth e; formHeight := Some h; formHtml := formHtml e |}.

(** [setInterfaceHTML(element, html)] *)
Definition setInterfaceHTML (html : string) (e : Element) : Element :=
  {| id := id e; shape := shape e; customId := customId e;
     position := position e; size := size e;
     originalSize := originalSize e; expandedSize := expandedSize e;
     interfaceVisible := interfaceVisible e; formDisplay := formDisplay e;
     formWidth := formWidth e; formHeight := formHeight e; formHtml := Some html |}.

(** The element whose cell id is [i] ([elementView.model], a reference
    kept by a handler). *)
Definition element_by_id (i : string) (g : Graph) : option Element :=
  List.find (λ e, String.eqb (id e) i) (elements g).

(** A write through a reference to the element with cell id [i]. *)
Definition update_element (i : string) (f : Element → Element) (g : Graph) : Graph :=
  {| elements := map (λ e, if String.eqb (id e) i then f e else e) (elements g);
     links := links g |}.

(** [graph.addCell(node)] *)
Definition addCell (e : Element) (g : Graph) : Graph :=
  {| elements := elements g ++ [e]; links := links g |}.

(** [link.addTo(graph)] *)
Definition addTo (l : Link) (g : Graph) : Graph :=
  {| elements := elements g; links := links g ++ [l] |}.

Definition attached (i : string) (l : Link) : bool :=
  String.eqb (source l) i || String.eqb (target l) i.

(** [element.remove()]: the element leaves the graph with the links
    connected to it. *)
Definition remove (e : Element) (g : Graph) : Graph :=
  {| elements := List.filter (λ e', negb (same e' e)) (elements g);
     links := List.filter (λ l, negb (attached (id e) l)) (links g) |}.

(** [graph.clear()] *)
Definition clear (g : Graph) : Graph := {| elements := []; links := [] |}.

(** *** shapes.js *)

(** The test of [getLink]'s [find]: the link joins [source] and [target]
    in one orientation or the other. *)
Definition joins (a b : Element) (link : Link) : bool :=
  (String.eqb (source link) (id a) && String.eqb (target link) (id b))
  || (String.eqb (source link) (id b) && String.eqb (target link) (id a)).

(** [getLink(graph, source, target)]: [None] is the [null] returned when a
    link between the two already exists. *)
Definition getLink (g : Graph) (a b : Element) : option Link :=
  match List.find (joins a b) (links g) with
  | Some existingLink => None
  | None => Some {| source := id a; target := id b |}
  end.

(** [isNodeInsideWindow(node, window)] *)
Definition isNodeInsideWindow (node window : Element) : bool :=
  (px (position node) >=? px (position window))%js
  && (py (position node) >=? py (position window))%js
  && (px (position node) + width (size node)
        <=? px (position window) + width (size window))%js
  && (py (position node) + height (size node)
        <=? py (position window) + height (size window))%js.

(** [toggleNodeInterface(node, paper)]; the stacking order changed by
    [toFront] and the redraw of the view are not part of the model. *)
Definition toggleNodeInterface (node : Element) : Element :=
  if interfaceVisible node then
    {| id := id node; shape := shape node; customId := customId node;
       position := position node;
       size := originalSize node;
       originalSize := originalSize node; expandedSize := expandedSize node;
       interfaceVisible := false;
       formDisplay := false;
       formWidth := formWidth node; formHeight := formHeight node;
       formHtml := formHtml node |}
  else
    let currentExpandedSize := expandedSize node in
    let headerHeight := of_Z 20 in
    {| id := id node; shape := shape node; customId := customId node;
       position := position node;
       size := currentExpandedSize;
       originalSize := originalSize node; expandedSize := expandedSize node;
       interfaceVisible := true;
       formDisplay := true;
       formWidth := Some (width currentExpandedSize);
       formHeight := Some (height currentExpandedSize - headerHeight)%js;
       formHtml := formHtml node |}.

(** *** preset.js: zoom *)

(** [paper.scale()] and [paper.translate()] *)
Record Paper := { sx : num; sy : num; tx : num; ty : num }.

(** The [wheel] handler of the paper container. *)
Definition wheel (deltaY offsetX offsetY : num) (paper : Paper) : Paper :=
  let oldScale := sx paper in
  let newScale :=
    if (deltaY >? of_Z 0)%js then (oldScale * tenths 9)%js
    else (oldScale * tenths 11)%js in
  let fx := ((offsetX - tx paper) / oldScale)%js in
  let fy := ((offsetY - ty paper) / oldScale)%js in
  let newTx := (offsetX - fx * newScale)%js in
  let newTy := (offsetY - fy * newScale)%js in
  {| sx := newScale; sy := newScale; tx := newTx; ty := newTy |}.

(** [getNode(paper, name)] placed in a paper container of the given
    client size; [i] is the cell id JointJS gives the new element. *)
Definition getNode (i : string) (paperWidth paperHeight : num) (paper : Paper) : Element :=
  let centerX := ((paperWidth / of_Z 2 - tx paper) / sx paper)%js in
  let centerY := ((paperHeight / of_Z 2 - ty paper) / sx paper)%js in
  {| id := i; shape := NodeWithButton; customId := None;
     position := {| px := (centerX - DEFAULT_NODE_WIDTH / of_Z 2)%js;
                    py := (centerY - DEFAULT_NODE_HEIGHT / of_Z 2)%js |};
     size := {| width := DEFAULT_NODE_WIDTH; height := DEFAULT_NODE_HEIGHT |};
     originalSize := {| width := DEFAULT_NODE_WIDTH; height := DEFAULT_NODE_HEIGHT |};
     expandedSize := {| width := of_Z 300; height := of_Z 250 |};
     interfaceVisible := false;
     formDisplay := false;
     formWidth := None; formHeight := None; formHtml := None |}.

(** *** preset.js: drag and resize of elements *)

(** An entry of [initialNodePositions]: a captured node (by reference) and
    its offset from the window's origin at pointer-down. *)
Record NodeOffset := { node : string; offsetX : num; offsetY : num }.

(** The variables shared by the pointer handlers; [None] is [null] or
    not yet assigned. *)
Record Drag := {
  isResizing : bool;
  isDragging : bool;
  resizeStartSize : option Size;
  resizeStartPosition : option Point;
  dragStartPosition : option Point;
  resizeStartElementPosition : option Point;
  nodesInsideWindow : list string;
  initialNodePositions : list NodeOffset
}.

Definition drag_idle : Drag :=
  {| isResizing := false; isDragging := false;
     resizeStartSize := None; resizeStartPosition := None;
     dragStartPosition := None; resizeStartElementPosition := None;
     nodesInsideWindow := []; initialNodePositions := [] |}.

Definition resizable (e : Element) : bool :=
  match shape e with
  | Window | Note => true
  | NodeWithButton => false
  end.

Definition is_window (e : Element) : bool :=
  match shape e with
  | Window => true
  | _ => false
  end.

(** The nodes a window captures at pointer-down:
    [graph.getElements().filter(node => node !== element &&
    isNodeInsideWindow(node, element))]. *)
Definition captured (g : Graph) (element : Element) : list Element :=
  List.filter (λ node, negb (same node element) && isNodeInsideWindow node element)
    (elements g).

Definition offset_from (elementX elementY : num) (n : Element) : NodeOffset :=
  {| node := id n;
     offsetX := (px (position n) - elementX)%js;
     offsetY := (py (position n) - elementY)%js |}.

(** [x >= elementX + width - 10 && y >= elementY + height - 10]: the
    pointer is on the resize handle, the bottom-right corner. *)
Definition on_resize_handle (x y : num) (element : Element) : bool :=
  (x >=? px (position element) + width (size element) - of_Z 10)%js
  && (y >=? py (position element) + height (size element) - of_Z 10)%js.

(** What a pointer handler receives: [evt.clientX], [evt.clientY] and the
    paper-local point [(x, y)]. *)
Record Pointer := { clientX : num; clientY : num; localX : num; localY : num }.

(** [paper.on('element:pointerdown', (elementView, evt, x, y) => ...)];
    [i] is the cell id of [elementView.model]. *)
Definition pointerdown (i : string) (evt : Pointer) (g : Graph) (d : Drag) : Drag :=
  match element_by_id i g with
  | None => d
  | Some element =>
      let x := localX evt in
      let y := localY evt in
      let elementX := px (position element) in
      let elementY := py (position element) in
      if resizable element then
        let w := width (size element) in
        let h := height (size element) in
        if on_resize_handle x y element then
          {| isResizing := true; isDragging := isDragging d;
             resizeStartSize := Some {| width := w; height := h |};
             resizeStartPosition := Some {| px := clientX evt; py := clientY evt |};
             dragStartPosition := dragStartPosition d;
             resizeStartElementPosition := Some {| px := elementX; py := elementY |};
             nodesInsideWindow := nodesInsideWindow d;
             initialNodePositions := initialNodePositions d |}
        else
          let start := {| px := (x - elementX)%js; py := (y - elementY)%js |} in
          if is_window element then
            let inside := captured g element in
            {| isResizing := isResizing d; isDragging := true;
               resizeStartSize := resizeStartSize d;
               resizeStartPosition := resizeStartPosition d;
               dragStartPosition := Some start;
               resizeStartElementPosition := resizeStartElementPosition d;
               nodesInsideWindow := map id inside;
               initialNodePositions := map (offset_from elementX elementY) inside |}
          else
            {| isResizing := isResizing d; isDragging := true;
               resizeStartSize := resizeStartSize d;
               resizeStartPosition := resizeStartPosition d;
               dragStartPosition := Some start;
               resizeStartElementPosition := resizeStartElementPosition d;
               nodesInsideWindow := nodesInsideWindow d;
               initialNodePositions := initialNodePositions d |}
      else
        {| isResizing := isResizing d; isDragging := true;
           resizeStartSize := resizeStartSize d;
           resizeStartPosition := resizeStartPosition d;
           dragStartPosition := Some {| px := (x - elementX)%js; py := (y - elementY)%js |};
           resizeStartElementPosition := resizeStartElementPosition d;
           nodesInsideWindow := nodesInsideWindow d;
           initialNodePositions := initialNodePositions d |}
  end.

(** [initialNodePositions.forEach(({node, offsetX, offsetY}) =>
    node.position(newX + offsetX, newY + offsetY))] *)
Definition reposition (newX newY : num) (g : Graph) (o : NodeOffset) : Graph :=
  update_element (node o)
    (set_position {| px := (newX + offsetX o)%js; py := (newY + offsetY o)%js |}) g.

(** [paper.on('element:pointermove', (elementView, evt, x, y) => ...)].
    Reading a start value that is [null] throws, which leaves the graph as
    it is. *)
Definition pointermove (i : string) (evt : Pointer) (d : Drag) (g : Graph) : Graph :=
  match element_by_id i g with
  | None => g
  | Some element =>
      let x := localX evt in
      let y := localY evt in
      if isResizing d && resizable element then
        match resizeStartPosition d, resizeStartSize d, resizeStartElementPosition d with
        | Some p0, Some s0, Some e0 =>
            let dx := (clientX evt - px p0)%js in
            let dy := (clientY evt - py p0)%js in
            let newWidth := nmax (of_Z 50) (width s0 + dx)%js in
            let newHeight := nmax (of_Z 50) (height s0 + dy)%js in
            update_element i (set_position e0)
              (update_element i (resize newWidth newHeight) g)
        | _, _, _ => g
        end
      else if isDragging d then
        match dragStartPosition d with
        | Some start =>
            let newX := (x - px start)%js in
            let newY := (y - py start)%js in
            if is_window element then
              foldl (reposition newX newY)
                (update_element i (set_position {| px := newX; py := newY |}) g)
                (initialNodePositions d)
            else
              update_element i (set_position {| px := newX; py := newY |}) g
        | None => g
        end
      else g
  end.

(** [paper.on('element:pointerup', ...)] *)
Definition pointerup (d : Drag) : Drag := drag_idle.

(** The successive pointer-move events of one gesture on the element with
    cell id [i]. *)
Definition pointermoves (i : string) (d : Drag) (g : Graph) (moves : list Pointer) : Graph :=
  foldl (λ g' evt, pointermove i evt d g') g moves.

Definition position_of (i : string) (g : Graph) : option Point :=
  position <$> element_by_id i g.


(** *** preset.js: what a handler asks of the outside world *)

(** The fields of a [NODE_SAVE_REQUEST]; [None] is a property the spread
    leaves out, [ns_id = Some None] is [id: undefined]. *)
Record NodeSave := {
  ns_workflow_id : string;
  ns_name : JsVal;
  ns_interface : option JsVal;
  ns_node_type : option string;
  ns_node_subtype : option string;
  ns_handler : option string;
  ns_code : option string;
  ns_static_input : option (gmap string JsVal);
  ns_id : option (option string)
}.

(** The requests sent with [socket.emit(WorkflowEvent.X, payload)]. *)
Inductive Request :=
  | WORKFLOW_SAVE_REQUEST (wid : string) (layout : Graph)
  | NODE_SAVE_REQUEST (data : NodeSave)
  | NODE_DELETE_REQUEST (workflow_id : string) (nid : option string)
  | NODE_CONTENT_REQUEST (workflow_id : string) (nid : string)
  | NODE_GET_DYNAMIC_OPTIONS_REQUEST (workflow_id node_id options_source : string)
  | LINK_CREATE_REQUEST (workflow_id : string) (src tgt : option string).

(** The event name of each request, as [WorkflowEvent] gives it. *)
Definition request_event (r : Request) : string :=
  match r with
  | WORKFLOW_SAVE_REQUEST _ _ => "workflow_save_request"
  | NODE_SAVE_REQUEST _ => "node_save_request"
  | NODE_DELETE_REQUEST _ _ => "node_delete_request"
  | NODE_CONTENT_REQUEST _ _ => "node_request"
  | NODE_GET_DYNAMIC_OPTIONS_REQUEST _ _ _ => "node_get_dynamic_options_request"
  | LINK_CREATE_REQUEST _ _ _ => "link_create_request"
  end.

(** The callbacks handed to [fetchNodeData]. *)
Inductive NodeCallback := RenderInterface | SaveInterface.

(** The closures passed to [waitForEvent(...).then], with what they
    capture. *)
Inductive Continuation :=
  | KWorkflowSave
  | KNodeSave (node : Element) (is_new_node : bool)
  | KNodeDelete
  | KNodeContent (nodeId : string) (callback : NodeCallback)
  | KDynamicOptions (select_name : string) (optionsSource : string)
      (staticInputData : gmap string JsVal)
  | KLinkCreate (sourceNode targetNode : Element).

Inductive ToastLevel := success | warning | error.

(** [socket.emit], [waitForEvent(event).then(k)] and [toastr.level(text +
    detail)], in the order the handler performs them. *)
Inductive Effect :=
  | Emit (r : Request)
  | Await (event : string) (k : Continuation)
  | Toast (level : ToastLevel) (text : string) (detail : option JsVal).

Definition is_emit (e : Effect) : bool :=
  match e with
  | Emit _ => true
  | _ => false
  end.

(** [response.message === 'success']; [None] is the TypeError of reading a
    property of [null] or [undefined]. *)
Definition message_is_success (response : JsVal) : option bool :=
  (λ m, strict_eq_str m "success") <$> get_prop response "message".

(** *** preset.js: the context menu and its link and node actions *)

Record Menu := {
  selectedElements : list Element;
  selectedElement : option Cell;
  contextMenuShown : bool
}.

Definition menu_init : Menu :=
  {| selectedElements := []; selectedElement := None; contextMenuShown := false |}.

(** [contextMenu.hide()] *)
Definition hide (m : Menu) : Menu :=
  {| selectedElements := selectedElements m;
     selectedElement := selectedElement m;
     contextMenuShown := false |}.

(** [paper.on('cell:contextmenu', ...)] *)
Definition cell_contextmenu (c : Cell) (m : Menu) : Menu :=
  {| selectedElements := selectedElements m;
     selectedElement := Some c;
     contextMenuShown := true |}.

(** The [contextmenu] handler of the paper container, away from any cell. *)
Definition blank_contextmenu (m : Menu) : Menu :=
  {| selectedElements := selectedElements m;
     selectedElement := None;
     contextMenuShown := true |}.

(** [selectedElement && selectedElement instanceof
    joint.shapes.custom.NodeWithButton] *)
Definition selected_node (m : Menu) : option Element :=
  match selectedElement m with
  | Some (CellElement e) =>
      match shape e with
      | NodeWithButton => Some e
      | _ => None
      end
  | _ => None
  end.

(** [selectedElements.includes(selectedElement)]: identity of objects. *)
Definition includes (l : list Element) (e : Element) : bool := existsb (same e) l.

(** The click handler of [#board-create-link]; [workflowId] is
    [$('#workflow-selector').val()]. *)
Definition create_link_click (workflowId : option string) (m : Menu) : Menu * list Effect :=
  match selected_node m with
  | Some e =>
      if includes (selectedElements m) e then (hide m, [])
      else
        let pushed := selectedElements m ++ [e] in
        match pushed with
        | [sourceNode; targetNode] =>
            ({| selectedElements := [];
                selectedElement := selectedElement m;
                contextMenuShown := false |},
             match truthy_id workflowId with
             | Some w =>
                 [Emit (LINK_CREATE_REQUEST w (customId sourceNode) (customId targetNode));
                  Await "link_create" (KLinkCreate sourceNode targetNode)]
             | None => [Toast warning "Please select a workflow to create the link." None]
             end)
        | _ =>
            ({| selectedElements := pushed;
                selectedElement := selectedElement m;
                contextMenuShown := false |}, [])
        end
  | None => (hide m, [])
  end.

(** The callback of the [LINK_CREATE] response. *)
Definition link_create_response (sourceNode targetNode : Element) (response : JsVal)
    (g : Graph) : Graph * list Effect :=
  match message_is_success response with
  | Some true =>
      match getLink g sourceNode targetNode with
      | Some newLink => (addTo newLink g, [Toast success "Link created successfully" None])
      | None => (g, [])
      end
  | Some false =>
      (g, [Toast error "Error creating link: " (get_prop response "error")])
  | None => (g, [])
  end.

(** A link of the [WORKFLOW] response: the [customId]s of its ends. *)
Record WireLink := { wl_source : option string; wl_target : option string }.

Definition by_customId (c : option string) (g : Graph) : option Element :=
  List.find (λ el, bool_decide (customId el = c)) (elements g).

(** The [data.links.forEach] of [fetchWorkflowData], after
    [graph.fromJSON]. *)
Definition load_link (g : Graph) (link : WireLink) : Graph :=
  match by_customId (wl_source link) g, by_customId (wl_target link) g with
  | Some sourceNode, Some targetNode =>
      match getLink g sourceNode targetNode with
      | Some newLink => addTo newLink g
      | None => g
      end
  | _, _ => g
  end.

Definition load_links (layout : Graph) (ls : list WireLink) : Graph :=
  foldl load_link layout ls.

(** [deleteNode(nodeId)] *)
Definition deleteNode (workflowId : option string) (nodeId : option string) : list Effect :=
  match truthy_id workflowId with
  | Some w => [Emit (NODE_DELETE_REQUEST w nodeId); Await "node_delete" KNodeDelete]
  | None => [Toast warning "Please select a workflow to delete the node." None]
  end.

(** The click handler of [#board-delete-node]. *)
Definition delete_node_click (workflowId : option string) (m : Menu) (g : Graph)
    : Menu * Graph * list Effect :=
  match selected_node m with
  | Some e =>
      let nodeId := customId e in
      (hide m, remove e g, deleteNode workflowId nodeId)
  | None => (hide m, g, [])
  end.

(** The callback of the [NODE_DELETE] response. *)
Definition node_delete_response (response : JsVal) : list Effect :=
  match message_is_success response with
  | Some true => [Toast success "Node deleted" None]
  | Some false => [Toast error "Error deleting node: " (get_prop response "error")]
  | None => []
  end.

(** *** preset.js: the node interface form *)

(** A field of [interfaceSchema]: its [type] and its [default]
    ([None] when the definition has none). *)
Record FieldDef := {
  ftype : string;
  fdefault : option JsVal
}.

(** The [NODE_CONTENT] response: [nd_error] is [data.error] ([VUndefined]
    when absent); [nd_interface] and [nd_static_input] are [None] when the
    record has no such object. *)
Record NodeData := {
  nd_error : JsVal;
  nd_name : JsVal;
  nd_interface : option (gmap string FieldDef);
  nd_static_input : option (gmap string JsVal)
}.

(** [new FormData(formElement)]: the submitted (name, value) entries. *)
Definition FormData := list (string * string).

Fixpoint form_get (key : string) (formData : FormData) : option string :=
  match formData with
  | [] => None
  | (k, v) :: rest => if String.eqb k key then Some v else form_get key rest
  end.

Definition form_has (key : string) (formData : FormData) : bool :=
  match form_get key formData with
  | Some _ => true
  | None => false
  end.

(** The arguments of [saveNode({...})]. *)
Record SaveNode := {
  sn_node : Element;
  sn_node_type : option string;
  sn_node_subtype : option string;
  sn_handler : option string;
  sn_is_new_node : bool;
  sn_workflow_id : option string;
  sn_name : JsVal;
  sn_interfaceData : option JsVal;
  sn_code : option string;
  sn_static_input : option (gmap string JsVal)
}.

(** [saveNode({...})]: a sparse patch, each truthy argument one field. *)
Definition saveNode (selector : option string) (a : SaveNode) : list Effect :=
  let workflowId :=
    match truthy_id (sn_workflow_id a) with
    | Some w => Some w
    | None => selector
    end in
  match truthy_id workflowId with
  | Some w =>
      [Emit (NODE_SAVE_REQUEST
         {| ns_workflow_id := w;
            ns_name := sn_name a;
            ns_interface :=
              match sn_interfaceData a with
              | Some i => if truthy i then Some i else None
              | None => None
              end;
            ns_node_type := truthy_id (sn_node_type a);
            ns_node_subtype := truthy_id (sn_node_subtype a);
            ns_handler := truthy_id (sn_handler a);
            ns_code := truthy_id (sn_code a);
            ns_static_input := sn_static_input a;
            ns_id := if sn_is_new_node a then None else Some (customId (sn_node a)) |});
       Await "node_save" (KNodeSave (sn_node a) (sn_is_new_node a))]
  | None => [Toast warning "Please select a workflow to save the node." None]
  end.

(** The value [saveNodeInterface_Embedded] gives to [key]. *)
Definition saved_value (formData : FormData) (originalStaticInput : gmap string JsVal)
    (key : string) (definition : FieldDef) : JsVal :=
  if String.eqb (ftype definition) "checkbox" then VBool (form_has key formData)
  else
    match form_get key formData with
    | Some v => VStr v
    | None =>
        match originalStaticInput !! key with
        | Some previous => previous
        | None =>
            match fdefault definition with
            | Some d => d
            | None => VNull
            end
        end
    end.

(** The loop [for (const key in interfaceData)] building [newStaticInput]. *)
Definition newStaticInput (formData : FormData) (originalStaticInput : gmap string JsVal)
    (interfaceData : gmap string FieldDef) : gmap string JsVal :=
  map_fold
    (λ key definition acc,
       <[key := saved_value formData originalStaticInput key definition]> acc)
    ∅ interfaceData.

(** What the lookups of [saveNodeInterface_Embedded] find in the page: no
    view of the node, no foreignObject content, no form, or the form with
    its entries. *)
Inductive FormLookup :=
  | NoNodeView
  | NoContainer
  | NoForm
  | FoundForm (formData : FormData).

(** [saveNodeInterface_Embedded(node, nodeData, interfaceData)] *)
Definition saveNodeInterface_Embedded (selector : option string) (form : FormLookup)
    (node : Element) (nodeData : NodeData) (interfaceData : gmap string FieldDef)
    : list Effect :=
  match form with
  | NoNodeView => [Toast error "Could not save: Node view not found." None]
  | NoContainer => [Toast error "Could not save: Interface container not found." None]
  | NoForm => [Toast error "Could not save: Interface form not found." None]
  | FoundForm formData =>
      let originalStaticInput := default ∅ (nd_static_input nodeData) in
      saveNode selector
        {| sn_node := node;
           sn_node_type := None; sn_node_subtype := None; sn_handler := None;
           sn_is_new_node := false;
           sn_workflow_id := None;
           sn_name := nd_name nodeData;
           sn_interfaceData := None;
           sn_code := None;
           sn_static_input :=
             Some (newStaticInput formData originalStaticInput interfaceData) |}
  end.

(** [fetchNodeData(nodeId, callback)] *)
Definition fetchNodeData (selector : option string) (nodeId : string)
    (callback : NodeCallback) : list Effect :=
  match truthy_id selector with
  | Some w =>
      [Emit (NODE_CONTENT_REQUEST w nodeId);
       Await "node" (KNodeContent nodeId callback)]
  | None => [Toast warning "Please select a workflow to fetch the node data." None]
  end.

(** [window.handleSaveEmbeddedInterface(nodeId)] *)
Definition handleSaveEmbeddedInterface (selector : option string) (nodeId : string)
    (g : Graph) : list Effect :=
  match by_customId (Some nodeId) g with
  | Some _ => fetchNodeData selector nodeId SaveInterface
  | None => [Toast error "Node not found for saving interface." None]
  end.

(** The callback [handleSaveEmbeddedInterface] gives to [fetchNodeData]. *)
Definition save_callback (selector : option string) (form : FormLookup)
    (fetchedNode : Element) (data : option NodeData) : list Effect :=
  match data with
  | Some d =>
      if truthy (nd_error d) then
        [Toast error "Error fetching node data for save: " (Some (nd_error d))]
      else
        match nd_interface d with
        | Some interface => saveNodeInterface_Embedded selector form fetchedNode d interface
        | None => saveNodeInterface_Embedded selector form fetchedNode d ∅
        end
  | None => [Toast error "Error fetching node data for save: " None]
  end.

(** *** preset.js: select fields with dynamic options *)

(** An [<option>]: [new Option(text, value)]. *)
Record SelectOption := { opt_text : JsVal; opt_value : JsVal }.

(** A [<select>] of the embedded form: its [name], its
    [data-options-source], its options, the value last passed to [.val()],
    and whether select2 was set up on it. *)
Record Select := {
  sel_name : string;
  sel_options_source : option string;
  sel_options : list SelectOption;
  sel_val : option JsVal;
  sel_select2 : bool
}.

Definition loading_option : SelectOption :=
  {| opt_text := VStr "Loading..."; opt_value := VStr "" |}.

Definition error_option : SelectOption :=
  {| opt_text := VStr "Error loading"; opt_value := VStr "" |}.

(** [$select.empty().append(option)] *)
Definition replace_options (os : list SelectOption) (sel : Select) : Select :=
  {| sel_name := sel_name sel;
     sel_options_source := sel_options_source sel;
     sel_options := os;
     sel_val := sel_val sel;
     sel_select2 := sel_select2 sel |}.

(** [$select.val(v)] where the persisted input has the field. *)
Definition restore_val (staticInputData : gmap string JsVal) (sel : Select) : Select :=
  match staticInputData !! sel_name sel with
  | Some v =>
      {| sel_name := sel_name sel;
         sel_options_source := sel_options_source sel;
         sel_options := sel_options sel;
         sel_val := Some v;
         sel_select2 := sel_select2 sel |}
  | None => sel
  end.

(** [$select.select2({...})] unless already set up. *)
Definition with_select2 (sel : Select) : Select :=
  {| sel_name := sel_name sel;
     sel_options_source := sel_options_source sel;
     sel_options := sel_options sel;
     sel_val := sel_val sel;
     sel_select2 := true |}.

(** One item of [response.options]: [typeof option === 'object' ?
    option.value : option]; reading a property of [null] throws. *)
Definition option_of (o : JsVal) : option SelectOption :=
  match o with
  | VNull => None
  | VObj ps =>
      Some {| opt_text := default VUndefined (assoc "text" ps);
              opt_value := default VUndefined (assoc "value" ps) |}
  | VArr _ => Some {| opt_text := VUndefined; opt_value := VUndefined |}
  | v => Some {| opt_text := v; opt_value := v |}
  end.

(** [response.options.forEach(...)]: [None] when it throws. *)
Definition options_of (response : JsVal) : option (list SelectOption) :=
  match get_prop response "options" with
  | Some (VArr items) => mapM option_of items
  | _ => None
  end.

(** [response.message === 'success' && response.options_source ===
    optionsSource]; [None] when reading [response] throws. *)
Definition options_ok (optionsSource : string) (response : JsVal) : option bool :=
  match get_prop response "message", get_prop response "options_source" with
  | Some m, Some src => Some (strict_eq_str m "success" && strict_eq_str src optionsSource)
  | _, _ => None
  end.

(** The [.then] callback of the dynamic-options response on the select it
    captured; [None] when it throws. *)
Definition dynamic_options_then (optionsSource : string)
    (staticInputData : gmap string JsVal) (response : JsVal) (sel : Select)
    : option (Select * list Effect) :=
  match options_ok optionsSource response with
  | Some true =>
      match options_of response with
      | Some os =>
          Some (with_select2 (restore_val staticInputData (replace_options os sel)), [])
      | None => None
      end
  | Some false =>
      Some (replace_options [error_option] sel,
            [Toast error ("Error loading options for " ++ optionsSource ++ ": ")
               (match get_prop response "error" with
                | Some e => if truthy e then Some e else Some (VStr "Unknown error")
                | None => None
                end)])
  | None => None
  end.

(** The [.catch] callback. *)
Definition dynamic_options_catch (optionsSource : string) (sel : Select)
    : Select * list Effect :=
  (replace_options [error_option] sel,
   [Toast error ("Timeout or error loading options for " ++ optionsSource) None]).

(** [waitForEvent(NODE_GET_DYNAMIC_OPTIONS).then(...).catch(...)] once the
    response has arrived. *)
Definition dynamic_options_response (optionsSource : string)
    (staticInputData : gmap string JsVal) (response : JsVal) (sel : Select)
    : Select * list Effect :=
  match dynamic_options_then optionsSource staticInputData response sel with
  | Some r => r
  | None => dynamic_options_catch optionsSource sel
  end.

(** The body of [$(foDiv).find('select').each(...)] in
    [initializeNodeInterfaceSelects_Embedded]. *)
Definition initialize_select (workflowId : option string) (nodeId : option string)
    (staticInputData : gmap string JsVal) (sel : Select) : Select * list Effect :=
  match truthy_id (sel_options_source sel) with
  | None =>
      if sel_select2 sel then (sel, [])
      else (restore_val staticInputData (with_select2 sel), [])
  | Some optionsSource =>
      match truthy_id workflowId, truthy_id nodeId with
      | Some w, Some n =>
          (replace_options [loading_option] sel,
           [Emit (NODE_GET_DYNAMIC_OPTIONS_REQUEST w n optionsSource);
            Await "node_get_dynamic_options"
              (KDynamicOptions (sel_name sel) optionsSource staticInputData)])
      | _, _ =>
          (replace_options [error_option] sel,
           [Toast warning "Workflow or Node ID missing, cannot load dynamic options." None])
      end
  end.

(** [initializeNodeInterfaceSelects_Embedded(nodeElement, workflowId, nodeId,
    staticInputData)] on the selects of the node's form. *)
Definition initializeNodeInterfaceSelects_Embedded (workflowId nodeId : option string)
    (staticInputData : gmap string JsVal) (selects : list Select)
    : list Select * list Effect :=
  (map (λ sel, fst (initialize_select workflowId nodeId staticInputData sel)) selects,
   concat (map (λ sel, snd (initialize_select workflowId nodeId staticInputData sel)) selects)).

(** *** preset.js: showing the interface of a node *)

(** What [renderNodeInterface] finds in the page for the node: no view, a
    view whose foreignObject has no content, or the content div with its
    [scrollHeight] and the selects of the form. *)
Inductive NodeView :=
  | ViewMissing
  | ViewNoContent
  | ViewContent (scrollHeight : num) (selects : list Select).

(** [node.get('customId') || node.id] *)
Definition display_id (node : Element) : string :=
  match truthy_id (customId node) with
  | Some c => c
  | None => id node
  end.

(** The measuring block of [renderNodeInterface]. *)
Definition fit_to_content (contentScrollHeight : num) (node : Element) : Element :=
  let headerHeight := of_Z 20 in
  let padding := of_Z 20 in
  let newExpandedHeight := (contentScrollHeight + headerHeight + padding)%js in
  let currentExpandedWidth := width (expandedSize node) in
  set_formHeight (newExpandedHeight - headerHeight)%js
    (resize currentExpandedWidth newExpandedHeight
       (set_expandedSize
          {| width := currentExpandedWidth; height := newExpandedHeight |} node)).

(** A successful render of the record's markup [html] over content of
    height [contentScrollHeight]. *)
Definition rendered (node : Element) (r : string * num) : Element :=
  fit_to_content (snd r) (setInterfaceHTML (fst r) node).

(** [renderNodeInterface(node, nodeData)]; [html] is the markup
    [generateNodeInterfaceHTMLString] returns for the record. *)
Definition renderNodeInterface (selector : option string) (html : string)
    (view : NodeView) (node : Element) (nodeData : option NodeData)
    : Element * list Select * list Effect :=
  let failed detail :=
    (setInterfaceHTML "<p>Error loading interface.</p>" node, [],
     [Toast error "Error fetching node data for rendering: " detail]) in
  match nodeData with
  | Some d =>
      if truthy (nd_error d) then failed (Some (nd_error d))
      else
        let node1 := setInterfaceHTML html node in
        match view with
        | ViewContent contentScrollHeight selects =>
            let '(selects', effects) :=
              initializeNodeInterfaceSelects_Embedded selector (Some (display_id node))
                (default ∅ (nd_static_input d)) selects in
            (fit_to_content contentScrollHeight node1, selects', effects)
        | _ => (node1, [], [])
        end
  | None => failed (Some (VStr "Unknown error"))
  end.

(** The callback of the [NODE_CONTENT] response registered by
    [fetchNodeData(nodeId, ...)] for rendering: the node is looked up by
    [customId] when the response arrives. *)
Definition node_content_render (selector : option string) (html : string)
    (view : NodeView) (nodeId : string) (data : option NodeData) (g : Graph)
    : Graph * list Select * list Effect :=
  match by_customId (Some nodeId) g with
  | Some node =>
      let '(node', selects, effects) := renderNodeInterface selector html view node data in
      (update_element (id node) (λ _, node') g, selects, effects)
  | None => (g, [], [])
  end.

(** [paper.on('element:eyeButton:pointerdown', ...)] on the node with cell
    id [i]. *)
Definition eye_button (selector : option string) (i : string) (g : Graph)
    : Graph * list Effect :=
  match element_by_id i g with
  | None => (g, [])
  | Some node =>
      let g1 := update_element i toggleNodeInterface g in
      if interfaceVisible (toggleNodeInterface node) then
        match truthy_id (customId node) with
        | Some nodeId => (g1, fetchNodeData selector nodeId RenderInterface)
        | None =>
            (update_element i
               (setInterfaceHTML "<p>Node not saved. Cannot display interface.</p>") g1,
             [Toast warning "Node has no ID yet. Cannot display interface." None])
        end
      else (g1, [])
  end.

(** *** preset.js: the remaining graph actions *)

Definition same_shape (s1 s2 : Shape) : bool :=
  match s1, s2 with
  | NodeWithButton, NodeWithButton | Window, Window | Note, Note => true
  | _, _ => false
  end.

(** The click handlers of [#board-delete-window] and [#board-delete-note]. *)
Definition delete_shape_click (which : Shape) (m : Menu) (g : Graph) : Menu * Graph :=
  match selectedElement m with
  | Some (CellElement e) =>
      if same_shape (shape e) which then (hide m, remove e g) else (hide m, g)
  | _ => (hide m, g)
  end.

(** The callback of the [NODE_SAVE] response in [saveNode]; [newId] is
    [response.id].  [saveWorkflow()] then sends the layout. *)
Definition node_save_response (selector : option string) (node : Element)
    (is_new_node : bool) (response : JsVal) (g : Graph) : Graph * list Effect :=
  match message_is_success response with
  | Some true =>
      if is_new_node then
        let newId :=
          match get_prop response "id" with
          | Some (VStr c) => Some c
          | _ => None
          end in
        let g' := addCell (set_customId newId node) g in
        (g',
         match truthy_id selector with
         | Some w =>
             [Emit (WORKFLOW_SAVE_REQUEST w g'); Await "workflow_save" KWorkflowSave;
              Toast success "Node saved" None]
         | None =>
             [Toast warning "Please select a workflow to save." None;
              Toast success "Node saved" None]
         end)
      else (g, [Toast success "Node saved" None])
  | Some false => (g, [Toast error "Error saving node: " (get_prop response "error")])
  | None => (g, [])
  end.

(** The callback of the [WORKFLOW] response in [fetchWorkflowData]:
    [graph.fromJSON(data.graph)], then the links of [data.links]. *)
Definition workflow_response (layout : Graph) (ls : list WireLink) : Graph :=
  load_links layout ls.

(** *** The canvas as a whole *)

Record Board := {
  graph : Graph;
  menu : Menu;
  drag : Drag;
  paper : Paper
}.

Definition board_init (p : Paper) : Board :=
  {| graph := {| elements := []; links := [] |};
     menu := menu_init; drag := drag_idle; paper := p |}.

(** What happens on the canvas: gestures, menu actions, and the responses
    that run a callback on the graph. *)
Inductive BoardEvent :=
  | CellContextMenu (c : Cell)
  | BlankContextMenu
  | DocumentClick
  | CreateLinkClick (workflowId : option string)
  | LinkCreateResponse (sourceNode targetNode : Element) (response : JsVal)
  | DeleteNodeClick (workflowId : option string)
  | DeleteShapeClick (which : Shape)
  | ClearNodes
  | ShapeAdded (e : Element)
  | NodeSaveResponse (selector : option string) (node : Element) (is_new_node : bool)
      (response : JsVal)
  | WorkflowResponse (layout : Graph) (ls : list WireLink)
  | EyeButton (selector : option string) (i : string)
  | NodeContentResponse (selector : option string) (html : string) (view : NodeView)
      (nodeId : string) (data : option NodeData)
  | PointerDown (i : string) (evt : Pointer)
  | PointerMove (i : string) (evt : Pointer)
  | PointerUp
  | Wheel (deltaY offsetX offsetY : num).

Definition with_graph (g : Graph) (b : Board) : Board :=
  {| graph := g; menu := menu b; drag := drag b; paper := paper b |}.

Definition with_menu (m : Menu) (b : Board) : Board :=
  {| graph := graph b; menu := m; drag := drag b; paper := paper b |}.

Definition with_drag (d : Drag) (b : Board) : Board :=
  {| graph := graph b; menu := menu b; drag := d; paper := paper b |}.

Definition board_step (b : Board) (ev : BoardEvent) : Board :=
  match ev with
  | CellContextMenu c => with_menu (cell_contextmenu c (menu b)) b
  | BlankContextMenu => with_menu (blank_contextmenu (menu b)) b
  | DocumentClick => with_menu (hide (menu b)) b
  | CreateLinkClick w => with_menu (fst (create_link_click w (menu b))) b
  | LinkCreateResponse s t r => with_graph (fst (link_create_response s t r (graph b))) b
  | DeleteNodeClick w =>
      let '(m, g, _) := delete_node_click w (menu b) (graph b) in
      with_menu m (with_graph g b)
  | DeleteShapeClick which =>
      let '(m, g) := delete_shape_click which (menu b) (graph b) in
      with_menu m (with_graph g b)
  | ClearNodes => with_menu (hide (menu b)) (with_graph (clear (graph b)) b)
  | ShapeAdded e => with_menu (hide (menu b)) (with_graph (addCell e (graph b)) b)
  | NodeSaveResponse w n is_new r =>
      with_graph (fst (node_save_response w n is_new r (graph b))) b
  | WorkflowResponse layout ls => with_graph (workflow_response layout ls) b
  | EyeButton w i => with_graph (fst (eye_button w i (graph b))) b
  | NodeContentResponse w html view nodeId data =>
      with_graph (fst (fst (node_content_render w html view nodeId data (graph b)))) b
  | PointerDown i evt => with_drag (pointerdown i evt (graph b) (drag b)) b
  | PointerMove i evt => with_graph (pointermove i evt (drag b) (graph b)) b
  | PointerUp => with_drag (pointerup (drag b)) b
  | Wheel dY oX oY =>
      {| graph := graph b; menu := menu b; drag := drag b;
         paper := wheel dY oX oY (paper b) |}
  end.

Definition board_run (evs : list BoardEvent) (b : Board) : Board := foldl board_step b evs.

(** At most one link joins any two elements, whatever the orientation. *)
Definition single_links (g : Graph) : Prop :=
  ∀ a b : Element, length (List.filter (joins a b) (links g)) ≤ 1.

(** The layouts the engine returns are as this client saved them. *)
Definition saved_layout (ev : BoardEvent) : Prop :=
  match ev with
  | WorkflowResponse layout _ => single_links layout
  | _ => True
  end.


(** Is there a link between the two elements? *)
Definition linked (g : Graph) (a b : Element) : bool := existsb (joins a b) (links g).

End WithNumbers.

Arguments Point : clear implicits.
Arguments Size : clear implicits.
Arguments Element : clear implicits.
Arguments Graph : clear implicits.
Arguments Cell : clear implicits.
Arguments Paper : clear implicits.
Arguments NodeOffset : clear implicits.
Arguments Drag : clear implicits.
Arguments Pointer : clear implicits.
Arguments NodeSave : clear implicits.
Arguments Request : clear implicits.
Arguments Continuation : clear implicits.
Arguments Effect : clear implicits.
Arguments Menu : clear implicits.
Arguments SaveNode : clear implicits.
Arguments NodeView : clear implicits.
Arguments Board : clear implicits.
Arguments BoardEvent : clear implicits.

End board.

(** ** The agents script: the variables of an agent *)

Module agents.

(** [AgentEvent] *)
Definition AGENT_REQUEST : string := "agent_request".
Definition AGENT : string := "agent".
Definition AGENT_NEW_VAR_REQUEST : string := "agent_new_var_request".
Definition AGENT_IMPORT_VARS_REQUEST : string := "agent_import_vars_request".
Definition AGENT_DELETE_VAR_REQUEST : string := "agent_delete_var_request".
Definition AGENT_NEW_VAR : string := "agent_new_var".
Definition AGENT_IMPORT_VARS : string := "agent_import_vars".
Definition AGENT_DELETE_VAR : string := "agent_delete_var".

(** The closures passed to [waitForEvent(...).then]. *)
Inductive Continuation :=
  | KFetchVariables
  | KImported
  | KEdited
  | KDeleted.

Inductive ToastLevel := success | warning | error.

Inductive Effect :=
  | Emit (event : string) (payload : JsVal)
  | Await (event : string) (k : Continuation)
  | Toast (level : ToastLevel) (text : string) (detail : option JsVal).

(** [fetchAgentVariables()]; [chosenAgentId] is the module's variable,
    [null] until an agent is opened in the editor. *)
Definition fetchAgentVariables (chosenAgentId : JsVal) : list Effect :=
  if truthy chosenAgentId then
    [Emit AGENT_REQUEST (VObj [("id", chosenAgentId)]); Await AGENT KFetchVariables]
  else [Toast warning "No agent selected to fetch variables." None].

(** [reader.onload] of [importVariables()]: [parsed] is
    [JSON.parse(e.target.result)], [None] when it throws. *)
Definition importVariables_onload (chosenAgentId : JsVal) (parsed : option JsVal)
    : list Effect :=
  match parsed with
  | Some variables =>
      if truthy chosenAgentId then
        [Emit AGENT_IMPORT_VARS_REQUEST
           (VObj [("id", chosenAgentId); ("variables", variables)]);
         Await AGENT_IMPORT_VARS KImported]
      else [Toast warning "No agent selected for importing variables." None]
  | None => [Toast error "Invalid JSON file." None]
  end.

(** The [callback] of the modal opened by [editVariable(variableName,
    variableValue)]; [newValue] is the text of the textarea. *)
Definition editVariable_callback (chosenAgentId : JsVal) (variableName newValue : string)
    : list Effect :=
  if truthy chosenAgentId then
    let updatedVars := VObj [(variableName, VStr newValue)] in
    [Emit AGENT_IMPORT_VARS_REQUEST
       (VObj [("id", chosenAgentId); ("variables", updatedVars)]);
     Await AGENT_IMPORT_VARS KEdited]
  else [Toast warning "No agent selected for editing variables." None].

(** [deleteVariable(variableName)] *)
Definition deleteVariable (chosenAgentId : JsVal) (variableName : string) : list Effect :=
  if truthy chosenAgentId then
    [Emit AGENT_DELETE_VAR_REQUEST
       (VObj [("id", chosenAgentId); ("var_name", VStr variableName)]);
     Await AGENT_DELETE_VAR KDeleted]
  else [Toast warning "No agent selected for deleting variables." None].

(** The callbacks of the [AGENT_IMPORT_VARS] and [AGENT_DELETE_VAR]
    responses; reading [response.message] of [null] throws, which leaves
    nothing done. *)
Definition resume (chosenAgentId : JsVal) (k : Continuation) (response : JsVal)
    : list Effect :=
  let outcome done failed :=
    match get_prop response "message" with
    | Some m =>
        if strict_eq_str m "success" then
          Toast success done None :: fetchAgentVariables chosenAgentId
        else [Toast error failed (get_prop response "error")]
    | None => []
    end in
  match k with
  | KImported => outcome "Variables imported successfully." "Error importing variables: "
  | KEdited => outcome "Variable updated successfully." "Error updating variable: "
  | KDeleted => outcome "Variable deleted successfully." "Error deleting variable: "
  | KFetchVariables => []
  end.

(** What a list of effects puts on the channel: the requests sent and the
    response events waited for. *)
Definition sent (es : list Effect) : list (string * JsVal) :=
  omap (λ e, match e with Emit ev v => Some (ev, v) | _ => None end) es.

Definition awaited (es : list Effect) : list string :=
  omap (λ e, match e with Await ev _ => Some ev | _ => None end) es.

End agents.

(** ** Sample data, in binary64 *)

Module sample.
Import board.

Definition paper0 : Paper float :=
  {| sx := 1%float; sy := 1%float; tx := 0%float; ty := 0%float |}.

(** The same paper in exact arithmetic. *)
Definition paper0_exact : Paper Q := {| sx := 1%Q; sy := 1%Q; tx := 0%Q; ty := 0%Q |}.

(** A node as [#board-add-node] creates and saves it: [getNode], the click
    position, the [customId] of the save response. *)
Definition new_node (cell : string) (c : option string) (x y : float) : Element float :=
  set_customId c
    (set_position {| px := x; py := y |} (getNode cell 800%float 600%float paper0)).

Definition n1 : Element float := new_node "cell-1" (Some "n1") 100%float 100%float.
Definition n2 : Element float := new_node "cell-2" (Some "n2") 400%float 100%float.

(** A node whose record never got an id. *)
Definition unsaved : Element float := new_node "cell-3" None 100%float 300%float.

Definition g12 : Graph float := {| elements := [n1; n2]; links := [] |}.

Definition g12_linked : Graph float :=
  {| elements := [n1; n2]; links := [{| source := "cell-1"; target := "cell-2" |}] |}.

Definition g_unsaved : Graph float := {| elements := [n1; unsaved]; links := [] |}.

Definition menu_on (e : Element float) : Menu float :=
  cell_contextmenu (CellElement e) menu_init.

Definition ok_response : JsVal := VObj [("message", VStr "success")].

(** A select filled from the source ["models"], and a failed response. *)
Definition select_model : Select :=
  {| sel_name := "model";
     sel_options_source := Some "models";
     sel_options := [{| opt_text := VStr "small"; opt_value := VStr "s" |};
                     {| opt_text := VStr "large"; opt_value := VStr "l" |}];
     sel_val := Some (VStr "s");
     sel_select2 := true |}.

Definition failed_response : JsVal :=
  VObj [("message", VStr "error"); ("error", VStr "no such source")].

(** A schema with the keys a, b, c; the form submits a and b only. *)
Definition schema_abc : gmap string FieldDef :=
  {[ "a" := {| ftype := "text"; fdefault := None |};
     "b" := {| ftype := "number"; fdefault := Some (VNum 1%float) |};
     "c" := {| ftype := "select"; fdefault := Some (VStr "x") |} ]}.

Definition form_ab : FormData := [("a", "hello"); ("b", "2")].

Definition persisted_c : gmap string JsVal := {[ "c" := VStr "y" ]}.

(** Two nodes are added, then two link-create responses arrive for the
    same pair, one in each orientation. *)
Definition link_twice : list (BoardEvent float) :=
  [ShapeAdded n1; ShapeAdded n2;
   LinkCreateResponse n1 n2 ok_response;
   LinkCreateResponse n2 n1 ok_response].

(** A window or a note as [#board-add-window] and [#board-add-note] put
    it on the canvas; the attributes of the interface form are unused on
    these shapes. *)
Definition shape_at {num : Type} (cell : string) (s : Shape) (x y w h : num) : Element num :=
  {| id := cell; shape := s; customId := None;
     position := {| px := x; py := y |};
     size := {| width := w; height := h |};
     originalSize := {| width := w; height := h |};
     expandedSize := {| width := w; height := h |};
     interfaceVisible := false; formDisplay := false;
     formWidth := None; formHeight := None; formHtml := None |}.

(** In exact arithmetic: a window at (50, 50) of size 200 x 150, a node
    inside it at offset (10, 5), a node outside it at offset (-3, 8). *)
Definition win : Element Q := shape_at "win" Window 50%Q 50%Q 200%Q 150%Q.
Definition inside : Element Q := shape_at "in" NodeWithButton 60%Q 55%Q 150%Q 70%Q.
Definition outside : Element Q := shape_at "out" NodeWithButton 47%Q 58%Q 150%Q 70%Q.
Definition g_win : Graph Q := {| elements := [win; inside; outside]; links := [] |}.

Definition at_point {num : Type} (x y : num) : Pointer num :=
  {| clientX := x; clientY := y; localX := x; localY := y |}.

(** The same scene in binary64. *)
Definition fwin : Element float := shape_at "win" Window 50%float 50%float 200%float 150%float.
Definition finside : Element float :=
  shape_at "in" NodeWithButton 60%float 55%float 150%float 70%float.
Definition foutside : Element float :=
  shape_at "out" NodeWithButton 47%float 58%float 150%float 70%float.
Definition fg_win : Graph float := {| elements := [fwin; finside; foutside]; links := [] |}.

(** The record of node n1 as the engine returns it: one text field. *)
Definition n1_data : NodeData :=
  {| nd_error := VUndefined; nd_name := VStr "first";
     nd_interface := Some {[ "a" := {| ftype := "text"; fdefault := None |} ]};
     nd_static_input := Some ∅ |}.


Definition late_render : list (BoardEvent float) :=
  [NodeSaveResponse (Some "w1") (new_node "cell-1" None 100%float 100%float) true
     (VObj [("message", VStr "success"); ("id", VStr "n1")]);
   EyeButton (Some "w1") "cell-1";
   EyeButton (Some "w1") "cell-1";
   NodeContentResponse (Some "w1") "<form></form>" (ViewContent 0%float []) "n1"
     (Some n1_data)].

Definition n1_late : Element float :=
  default n1 (element_by_id "cell-1" (graph (board_run late_render (board_init paper0)))).

End sample.

(** ** preset/preset.js: panning, the items of the context menu, new nodes
       and the code editor *)

Module canvas.
Import board.

(** *** The items of the context menu *)

(** The entries of [#board-context-menu], named by their element ids. *)
Inductive Item :=
  | board_create_link
  | board_delete_link
  | board_delete_node
  | board_rename_window
  | board_delete_note
  | board_delete_window
  | board_add_node
  | board_add_window
  | board_add_note
  | board_clear_nodes.

Definition item_index (i : Item) : nat :=
  match i with
  | board_create_link => 0
  | board_delete_link => 1
  | board_delete_node => 2
  | board_rename_window => 3
  | board_delete_note => 4
  | board_delete_window => 5
  | board_add_node => 6
  | board_add_window => 7
  | board_add_note => 8
  | board_clear_nodes => 9
  end.

Definition item_eqb (i j : Item) : bool := Nat.eqb (item_index i) (item_index j).

(** Which entries are displayed. *)
Definition Items := Item → bool.

(** [$('#a, #b, ...').show()] and [.hide()] *)
Definition show_items (l : list Item) (v : Items) : Items :=
  λ i, if existsb (item_eqb i) l then true else v i.

Definition hide_items (l : list Item) (v : Items) : Items :=
  λ i, if existsb (item_eqb i) l then false else v i.

(** The entries whose click handler tests [selectedElement] before it
    acts. *)
Definition guarded (i : Item) : bool :=
  match i with
  | board_create_link | board_delete_link | board_delete_node
  | board_rename_window | board_delete_note | board_delete_window => true
  | board_add_node | board_add_window | board_add_note | board_clear_nodes => false
  end.

(** *** New nodes: fill colour and pencil button *)

(** The [switch (type)] of the add-node dialog. *)
Definition fillColor (type : string) : string :=
  if String.eqb type "trigger" then "lightgreen"
  else if String.eqb type "resource" then "lightblue"
  else if String.eqb type "action" then "lightcoral"
  else if String.eqb type "generator" then "lightgoldenrodyellow"
  else "lightgray".

(** Is the pencil button displayed on the node the dialog creates?  It is
    displayed by default and hidden [if (type !== 'custom' && type !==
    'trigger')]. *)
Definition pencil_when_added (type : string) : bool :=
  negb (negb (String.eqb type "custom") && negb (String.eqb type "trigger")).

(** Is the pencil button displayed after [fetchWorkflowData] went over the
    elements of the loaded layout?  [fill] is the node's [body/fill]. *)
Definition pencil_when_loaded (fill : string) : bool :=
  negb (negb (String.eqb fill "lightgray") && negb (String.eqb fill "lightgreen")).

(** [node_payload.handler]: set [if (subtype !== 'custom' && subtype !==
    'trigger')]; [None] is [undefined]. *)
Definition handler_of (subtype : option string) : option string :=
  match subtype with
  | Some s =>
      if negb (String.eqb s "custom") && negb (String.eqb s "trigger") then Some s else None
  | None => None
  end.

(** The types the [switch] of the add-node dialog names. *)
Definition node_types : list string :=
  ["trigger"; "resource"; "action"; "generator"; "custom"].

Section WithNumbers.
Context {num : Type} `{JsNumber num}.

(** *** Panning the paper *)

(** [isPanning], [startPoint] and [paperOrigin].  The latter is [None]
    until a pan starts: the object it holds before has no [tx] and no
    [ty], and is never read, [isPanning] being set together with it. *)
Record Pan := {
  isPanning : bool;
  startPoint : Point num;
  paperOrigin : option (Point num)
}.

Definition pan_init : Pan :=
  {| isPanning := false;
     startPoint := {| px := of_Z 0; py := of_Z 0 |};
     paperOrigin := None |}.

(** The [mousedown] handler of the paper container; [on_blank] is
    [!paper.findView(e.target)]. *)
Definition mousedown (on_blank : bool) (pageX pageY : num) (paper : Paper num) (p : Pan)
    : Pan :=
  if on_blank then
    {| isPanning := true;
       startPoint := {| px := pageX; py := pageY |};
       paperOrigin := Some {| px := tx paper; py := ty paper |} |}
  else p.

(** The [mousemove] handler of the document. *)
Definition mousemove (pageX pageY : num) (p : Pan) (paper : Paper num) : Paper num :=
  if isPanning p then
    match paperOrigin p with
    | Some o =>
        let dx := (pageX - px (startPoint p))%js in
        let dy := (pageY - py (startPoint p))%js in
        {| sx := sx paper; sy := sy paper;
           tx := (px o + dx)%js; ty := (py o + dy)%js |}
    | None => paper
    end
  else paper.

(** The [mouseup] handler of the document. *)
Definition mouseup (p : Pan) : Pan :=
  {| isPanning := false; startPoint := startPoint p; paperOrigin := paperOrigin p |}.

(** The successive [mousemove] events of one gesture, by page point. *)
Definition mousemoves (p : Pan) (paper : Paper num) (moves : list (num * num)) : Paper num :=
  foldl (λ paper' m, mousemove (fst m) (snd m) p paper') paper moves.

(** *** The context menu *)

(** The [contextmenu] handler of the paper container, away from any
    cell. *)
Definition blank_items (v : Items) : Items :=
  show_items [board_add_node; board_add_window; board_add_note; board_clear_nodes]
    (hide_items [board_create_link; board_delete_link; board_delete_node;
                 board_rename_window; board_delete_note; board_delete_window] v).

(** [paper.on('cell:contextmenu', ...)]: the chain of [instanceof]
    tests. *)
Definition cell_items (c : Cell num) (v : Items) : Items :=
  match c with
  | CellLink _ =>
      show_items [board_delete_link]
        (hide_items [board_create_link; board_add_node; board_add_window;
                     board_clear_nodes; board_delete_node; board_rename_window;
                     board_add_note; board_delete_window; board_delete_note] v)
  | CellElement e =>
      match shape e with
      | NodeWithButton =>
          hide_items [board_delete_link; board_add_node; board_add_window;
                      board_clear_nodes; board_rename_window; board_add_note;
                      board_delete_window; board_delete_note]
            (show_items [board_create_link; board_delete_node] v)
      | Window =>
          hide_items [board_create_link; board_delete_link; board_delete_node;
                      board_add_window; board_clear_nodes; board_delete_note]
            (show_items [board_rename_window; board_add_node; board_add_note;
                         board_delete_window] v)
      | Note =>
          hide_items [board_create_link; board_delete_link; board_delete_node;
                      board_rename_window; board_add_node; board_add_window;
                      board_clear_nodes; board_delete_window; board_add_note]
            (show_items [board_delete_note] v)
      end
  end.

(** The test a click handler makes on [selectedElement] before it acts:
    [selectedElement && selectedElement instanceof ...]; the handlers of
    the four adding and clearing entries make none. *)
Definition item_enabled (i : Item) (m : Menu num) : bool :=
  match i with
  | board_create_link | board_delete_node =>
      match selected_node m with
      | Some _ => true
      | None => false
      end
  | board_delete_link =>
      match selectedElement m with
      | Some (CellLink _) => true
      | _ => false
      end
  | board_rename_window | board_delete_window =>
      match selectedElement m with
      | Some (CellElement e) => same_shape (shape e) Window
      | _ => false
      end
  | board_delete_note =>
      match selectedElement m with
      | Some (CellElement e) => same_shape (shape e) Note
      | _ => false
      end
  | board_add_node | board_add_window | board_add_note | board_clear_nodes => true
  end.

(** *** The add-node dialog *)

(** The [callback] of the add-node dialog: [name], [type] and [subtype]
    are the values of its three fields ([None] is [null]); [node] is
    [getNode(paper, name)] moved to the click position. *)
Definition add_node_callback (selector : option string) (node : Element num)
    (name type subtype : option string) : list (Effect num) :=
  match truthy_id name, truthy_id type with
  | Some n, Some t =>
      saveNode selector
        {| sn_node := node;
           sn_node_type := Some t;
           sn_node_subtype := subtype;
           sn_handler := handler_of subtype;
           sn_is_new_node := true;
           sn_workflow_id := None;
           sn_name := VStr n;
           sn_interfaceData := None;
           sn_code := None;
           sn_static_input := None |}
  | _, _ => [Toast warning "Please provide a name and type for the node." None]
  end.

(** *** The code editor *)

(** The click handlers registered on [#code-save] and the node being
    edited. *)
Record CodeEditor := {
  save_handlers : nat;
  currentEditingNode : option (Element num)
}.

Definition editor_closed : CodeEditor :=
  {| save_handlers := 0; currentEditingNode := None |}.

(** [openCodeEditor(elementView)]: the node becomes the one being edited
    and one more click handler is registered on [#code-save].  The second
    component is the [NODE_CONTENT_REQUEST] that [fetchNodeData] sends for
    the node's code: the workflow and the node's [customId], or [None]
    when no workflow is selected. *)
Definition openCodeEditor (selector : option string) (node : Element num)
    (ed : CodeEditor) : CodeEditor * option (string * option string) :=
  ({| save_handlers := S (save_handlers ed); currentEditingNode := Some node |},
   match truthy_id selector with
   | Some w => Some (w, customId node)
   | None => None
   end).

(** One click handler of [#code-save]: [label] is the node's
    [label/text], [content] is [editor.getValue()]. *)
Definition code_save_handler (selector : option string) (label content : string)
    (ed : CodeEditor) : list (Effect num) :=
  match currentEditingNode ed with
  | Some n =>
      saveNode selector
        {| sn_node := n;
           sn_node_type := None; sn_node_subtype := None; sn_handler := None;
           sn_is_new_node := false;
           sn_workflow_id := None;
           sn_name := VStr label;
           sn_interfaceData := None;
           sn_code := Some content;
           sn_static_input := None |}
  | None => []
  end.

(** A click on [#code-save]: every registered handler runs. *)
Definition code_save_click (selector : option string) (label content : string)
    (ed : CodeEditor) : list (Effect num) :=
  concat (replicate (save_handlers ed) (code_save_handler selector label content ed)).

(** The editor after the pencil buttons of the given nodes were clicked
    one after the other. *)
Definition opened (selector : option string) (nodes : list (Element num)) : CodeEditor :=
  foldl (λ ed n, fst (openCodeEditor selector n ed)) editor_closed nodes.

(** *** Requests and the responses waited for *)

(** Every [Emit] is followed at once by the [Await] of the event that
    answers it: [X_REQUEST] is named ['x_request'] where [X] is named
    ['x']. *)
Fixpoint paired (es : list (Effect num)) : bool :=
  match es with
  | [] => true
  | Toast _ _ _ :: rest => paired rest
  | Emit r :: Await event _ :: rest =>
      String.eqb (request_event r) (event ++ "_request") && paired rest
  | _ => false
  end.

(** *** Elements up to their position *)



(** *** New windows and notes *)

(** [getWindow(paper, name)] and [getNote(paper, text)] in a paper
    container of the given client size; the stacking order [z] and the
    attributes of the interface form, which these shapes do not use, are
    not part of the model. *)
Definition getWindow (i : string) (paperWidth paperHeight : num) (paper : Paper num)
    : Element num :=
  let centerX := ((paperWidth / of_Z 2 - tx paper) / sx paper)%js in
  let centerY := ((paperHeight / of_Z 2 - ty paper) / sx paper)%js in
  {| id := i; shape := Window; customId := None;
     position := {| px := (centerX - of_Z 100)%js; py := (centerY - of_Z 75)%js |};
     size := {| width := of_Z 200; height := of_Z 150 |};
     originalSize := {| width := of_Z 200; height := of_Z 150 |};
     expandedSize := {| width := of_Z 200; height := of_Z 150 |};
     interfaceVisible := false;
     formDisplay := false;
     formWidth := None; formHeight := None; formHtml := None |}.

Definition getNote (i : string) (paperWidth paperHeight : num) (paper : Paper num)
    : Element num :=
  let centerX := ((paperWidth / of_Z 2 - tx paper) / sx paper)%js in
  let centerY := ((paperHeight / of_Z 2 - ty paper) / sx paper)%js in
  {| id := i; shape := Note; customId := None;
     position := {| px := (centerX - of_Z 75)%js; py := (centerY - of_Z 50)%js |};
     size := {| width := of_Z 150; height := of_Z 100 |};
     originalSize := {| width := of_Z 150; height := of_Z 100 |};
     expandedSize := {| width := of_Z 150; height := of_Z 100 |};
     interfaceVisible := false;
     formDisplay := false;
     formWidth := None; formHeight := None; formHtml := None |}.

(** *** Deleting a link *)

(** The link object, told from the others by the elements it joins. *)
Definition link_eqb (a b : Link) : bool :=
  String.eqb (source a) (source b) && String.eqb (target a) (target b).

(** [link.remove()] *)
Definition remove_link (l : Link) (g : Graph num) : Graph num :=
  {| elements := elements g;
     links := List.filter (λ l', negb (link_eqb l' l)) (links g) |}.

(** [cell.remove()] *)
Definition remove_cell (c : Cell num) (g : Graph num) : Graph num :=
  match c with
  | CellElement e => remove e g
  | CellLink l => remove_link l g
  end.

(** What the link-delete action does to the outside world: the
    [LINK_DELETE_REQUEST] it sends, followed by the wait for
    [LINK_DELETE], and its notifications. *)
Inductive LinkDelete :=
  | LINK_DELETE_REQUEST (workflow_id : string) (src tgt : option string)
  | LinkToast (level : ToastLevel) (text : string) (detail : option JsVal).

(** The click handler of [#board-delete-link]. *)
Definition delete_link_click (workflowId : option string) (m : Menu num) (g : Graph num)
    : Menu num * list LinkDelete :=
  (hide m,
   match selectedElement m with
   | Some (CellLink l) =>
       match truthy_id workflowId with
       | Some w =>
           match element_by_id (source l) g, element_by_id (target l) g with
           | Some sourceElement, Some targetElement =>
               [LINK_DELETE_REQUEST w (customId sourceElement) (customId targetElement)]
           | _, _ => [LinkToast error "Source or target node not found." None]
           end
       | None => [LinkToast warning "Please select a workflow to delete the link." None]
       end
   | _ => []
   end).

(** The callback of the [LINK_DELETE] response: it removes
    [selectedElement], the variable, as it is when the response arrives;
    [null.remove()] throws, which leaves nothing done. *)
Definition link_delete_response (response : JsVal) (m : Menu num) (g : Graph num)
    : Graph num * list LinkDelete :=
  match message_is_success response with
  | Some true =>
      match selectedElement m with
      | Some c => (remove_cell c g, [LinkToast success "Link deleted successfully" None])
      | None => (g, [])
      end
  | Some false => (g, [LinkToast error "Error deleting link: " (get_prop response "error")])
  | None => (g, [])
  end.

(** *** Saving the embedded form: the callback of the response *)


(** *** Links that need no loading *)


End WithNumbers.

Arguments Pan : clear implicits.
Arguments CodeEditor : clear implicits.

End canvas.

(** ** preset/preset.js: the workflow selector *)

Module workflows.

(** An entry of [data.workflows]; the ids are strings, as the selector
    holds and returns them. *)
Record Workflow := { wf_id : string; wf_name : string }.

(** [#workflow-selector]: its options ([new Option(name, id)]) and what
    [.val()] returns, [None] being [null]. *)
Record Selector := { options : list Workflow; selected : option string }.

(** [workflows.some(wf => wf.id === i)] *)
Definition listed (i : string) (ws : list Workflow) : bool :=
  existsb (λ wf, String.eqb (wf_id wf) i) ws.

(** [selector.val(v)]: the option of that value becomes the selected one;
    when there is none, nothing is selected. *)
Definition val_set (v : string) (sel : Selector) : Selector :=
  {| options := options sel;
     selected := if listed v (options sel) then Some v else None |}.

(** [selector.empty()] followed by the [append]s: a drop-down list shows
    its first option until another one is selected. *)
Definition refill (ws : list Workflow) : Selector :=
  {| options := ws; selected := wf_id <$> head ws |}.

(** [updateWorkflowSelector(workflows)] *)
Definition updateWorkflowSelector (ws : list Workflow) (sel : Selector) : Selector :=
  match truthy_id (selected sel) with
  | Some currentWorkflowId =>
      if listed currentWorkflowId ws then val_set currentWorkflowId (refill ws)
      else refill ws
  | None => refill ws
  end.

(** The requests of the workflow management; a workflow is created by a
    [WORKFLOW_SAVE_REQUEST] with a name and the empty graph. *)
Inductive Request :=
  | WORKFLOW_LIST_REQUEST
  | WORKFLOW_REQUEST (id : string)
  | WORKFLOW_SAVE_REQUEST (name : string)
  | WORKFLOW_DELETE_REQUEST (id : string).

(** The closures passed to [waitForEvent(...).then], with what they
    capture. *)
Inductive Continuation :=
  | KList (currentWorkflowId : option string)
  | KWorkflow
  | KSavedEmpty
  | KAdded
  | KDeleted.

Inductive ToastLevel := success | warning | error.

Inductive Effect :=
  | Emit (r : Request)
  | Await (event : string) (k : Continuation)
  | Toast (level : ToastLevel) (text : string) (detail : option JsVal).

Definition sent (es : list Effect) : list Request :=
  omap (λ e, match e with Emit r => Some r | _ => None end) es.

(** [fetchWorkflowList()]: the selection is read when the request is
    sent. *)
Definition fetchWorkflowList (sel : Selector) : list Effect :=
  [Emit WORKFLOW_LIST_REQUEST; Await "workflow_list" (KList (selected sel))].

(** The part of [fetchWorkflowData(workflowId)] that runs at once. *)
Definition fetchWorkflowData (workflowId : string) : list Effect :=
  [Emit (WORKFLOW_REQUEST workflowId); Await "workflow" KWorkflow].

(** The [change] handler of the selector. *)
Definition change (sel : Selector) : list Effect :=
  match truthy_id (selected sel) with
  | Some selectedWorkflow => fetchWorkflowData selectedWorkflow
  | None => []
  end.

(** [saveEmptyWorkflow()] *)
Definition saveEmptyWorkflow : list Effect :=
  [Emit (WORKFLOW_SAVE_REQUEST "Default"); Await "workflow_save" KSavedEmpty].

(** The callback of the [WORKFLOW_LIST] response in [fetchWorkflowList]. *)
Definition list_response (currentWorkflowId : option string) (ws : list Workflow)
    (sel : Selector) : Selector * list Effect :=
  match ws with
  | [] => (sel, saveEmptyWorkflow)
  | first :: _ =>
      let sel1 := updateWorkflowSelector ws sel in
      let chosen :=
        match truthy_id currentWorkflowId with
        | Some c => if listed c ws then c else wf_id first
        | None => wf_id first
        end in
      let sel2 := val_set chosen sel1 in
      (sel2, change sel2)
  end.

(** The callback of the [WORKFLOW_SAVE] response in [saveEmptyWorkflow]. *)
Definition saved_empty_response (response : JsVal) (sel : Selector) : list Effect :=
  match board.message_is_success response with
  | Some true => fetchWorkflowList sel
  | Some false => [Toast error "Error saving workflow: " (get_prop response "error")]
  | None => []
  end.

(** The callback of the name dialog in [addWorkflow()]. *)
Definition addWorkflow_callback (workflowName : string) : list Effect :=
  if String.eqb workflowName "" then []
  else [Emit (WORKFLOW_SAVE_REQUEST workflowName); Await "workflow_save" KAdded].

(** [response.id] as [.val(...)] takes it: the id, or the empty string
    for a response without one. *)
Definition response_id (response : JsVal) : string :=
  match get_prop response "id" with
  | Some (VStr c) => c
  | _ => ""
  end.

(** The callback of the [WORKFLOW_SAVE] response in [addWorkflow()]. *)
Definition added_response (response : JsVal) (sel : Selector) : Selector * list Effect :=
  match board.message_is_success response with
  | Some true =>
      let listing := fetchWorkflowList sel in
      let sel1 := val_set (response_id response) sel in
      (sel1, listing ++ change sel1 ++ [Toast success "Workflow added" None])
  | Some false => (sel, [Toast error "Error adding workflow: " (get_prop response "error")])
  | None => (sel, [])
  end.

(** [deleteWorkflow()] *)
Definition deleteWorkflow (sel : Selector) : list Effect :=
  match truthy_id (selected sel) with
  | Some selectedWorkflow =>
      [Emit (WORKFLOW_DELETE_REQUEST selectedWorkflow); Await "workflow_delete" KDeleted]
  | None => [Toast warning "Please select a workflow to delete." None]
  end.

(** The callback of the [WORKFLOW_DELETE] response. *)
Definition deleted_response (response : JsVal) (sel : Selector) : list Effect :=
  match board.message_is_success response with
  | Some true => Toast success "Workflow deleted" None :: fetchWorkflowList sel
  | Some false => [Toast error "Error deleting workflow: " (get_prop response "error")]
  | None => []
  end.

End workflows.

(** ** common.js and the page's main script: the side panels *)

Module panels.

Definition menus : list string :=
  ["#preset-menu-container"; "#api-menu-container"; "#settings-menu-container";
   "#extra-menu-container"; "#persona-menu-container"; "#cards-menu-container";
   "#agents-menu-container"].

(** The state of the page: the panels that do not carry the class
    [hidden], by selector. *)
Definition Shown := gset string.

(** [$(menu).addClass('hidden')] *)
Definition addClass_hidden (menu : string) (shown : Shown) : Shown := shown ∖ {[ menu ]}.

(** [$(menu).toggleClass('hidden')] *)
Definition toggleClass_hidden (menu : string) (shown : Shown) : Shown :=
  if decide (menu ∈ shown) then shown ∖ {[ menu ]} else shown ∪ {[ menu ]}.

(** [toggleMenu(menuClass)] *)
Definition toggleMenu (menuClass : string) (shown : Shown) : Shown :=
  toggleClass_hidden menuClass
    (foldl (λ acc menu, if String.eqb menu menuClass then acc else addClass_hidden menu acc)
       shown menus).

(** [hideMenus()] *)
Definition hideMenus (shown : Shown) : Shown :=
  foldl (λ acc menu, addClass_hidden menu acc) shown menus.

(** A click on [#preset-button]: the handler of the main script toggles
    the panel, then the handler registered by [addPresetHandlers] asks for
    the list of workflows [if ($('#preset-menu-container').is(':visible'))]. *)
Definition preset_button_click (sel : workflows.Selector) (shown : Shown)
    : Shown * list workflows.Effect :=
  let shown' := toggleMenu "#preset-menu-container" shown in
  (shown',
   if decide ("#preset-menu-container" ∈ shown') then workflows.fetchWorkflowList sel
   else []).

End panels.

(** ** The agents script: the list of agents and further variable actions *)

Module roster.
Import agents.

Definition AGENT_START_REQUEST : string := "agent_start_request".
Definition AGENT_STOP_REQUEST : string := "agent_stop_request".
Definition AGENT_START : string := "agent_start".
Definition AGENT_STOP : string := "agent_stop".

(** An item of [#agents-list-sortable]: [data-agent-id], the name, and
    whether the icons [.agent-button-on] and [.agent-button-off] are
    displayed. *)
Record AgentItem := {
  agent_id : string;
  agent_name : string;
  button_on : bool;
  button_off : bool
}.

(** [$(AgentItem(id, name))]: the template has both icons. *)
Definition new_item (i name : string) : AgentItem :=
  {| agent_id := i; agent_name := name; button_on := true; button_off := true |}.

Definition hide_on (it : AgentItem) : AgentItem :=
  {| agent_id := agent_id it; agent_name := agent_name it;
     button_on := false; button_off := button_off it |}.

Definition hide_off (it : AgentItem) : AgentItem :=
  {| agent_id := agent_id it; agent_name := agent_name it;
     button_on := button_on it; button_off := false |}.

Definition show_on (it : AgentItem) : AgentItem :=
  {| agent_id := agent_id it; agent_name := agent_name it;
     button_on := true; button_off := button_off it |}.

Definition show_off (it : AgentItem) : AgentItem :=
  {| agent_id := agent_id it; agent_name := agent_name it;
     button_on := button_on it; button_off := true |}.

(** The closures passed to [waitForEvent(...).then]. *)
Inductive Continuation :=
  | KAdd (selectedAgentId selectedAgentName : string)
  | KStart (agentId : string)
  | KStop (agentId : string)
  | KVarAdded
  | KExport
  | KEditOpen (variableName : string).

Inductive Effect :=
  | Emit (event : string) (payload : JsVal)
  | Await (event : string) (k : Continuation)
  | Toast (level : ToastLevel) (text : string) (detail : option JsVal).

Definition sent (es : list Effect) : list (string * JsVal) :=
  omap (λ e, match e with Emit ev v => Some (ev, v) | _ => None end) es.

Definition toasts (es : list Effect) : list ToastLevel :=
  omap (λ e, match e with Toast l _ _ => Some l | _ => None end) es.

(** [$list.find(`li[data-agent-id="${selectedAgentId}"]`).length === 0] *)
Definition absent (i : string) (items : list AgentItem) : bool :=
  negb (existsb (λ it, String.eqb (agent_id it) i) items).

(** [addAgent()]: the value and the text of the selected option of
    [#agents-selector]. *)
Definition addAgent (selectedAgentId selectedAgentName : option string)
    (items : list AgentItem) : list Effect :=
  match truthy_id selectedAgentId, truthy_id selectedAgentName with
  | Some i, Some name =>
      if absent i items then
        [Emit AGENT_REQUEST (VObj [("id", VStr i)]); Await AGENT (KAdd i name)]
      else []
  | _, _ => [Toast warning "Please select an agent to add." None]
  end.

(** The callback of the [AGENT] response in [addAgent()]; reading
    [response.is_started] of [null] throws, which leaves the list as it
    is. *)
Definition add_response (selectedAgentId selectedAgentName : string) (response : JsVal)
    (items : list AgentItem) : list AgentItem :=
  match get_prop response "is_started" with
  | Some is_started =>
      let newItem := new_item selectedAgentId selectedAgentName in
      items ++ [if truthy is_started then hide_off newItem else hide_on newItem]
  | None => items
  end.

(** The click handlers of [.agent-button-off] and [.agent-button-on];
    the id is read back from [data-agent-id] (an id that is no numeral
    comes back as the string it is). *)
Definition start_click (it : AgentItem) : list Effect :=
  [Emit AGENT_START_REQUEST (VObj [("id", VStr (agent_id it))]);
   Await AGENT_START (KStart (agent_id it))].

Definition stop_click (it : AgentItem) : list Effect :=
  [Emit AGENT_STOP_REQUEST (VObj [("id", VStr (agent_id it))]);
   Await AGENT_STOP (KStop (agent_id it))].

(** The callbacks of the [AGENT_START] and [AGENT_STOP] responses on the
    item they captured. *)
Definition start_response (response : JsVal) (it : AgentItem) : AgentItem * list Effect :=
  match board.message_is_success response with
  | Some true => (show_on (hide_off it), [Toast success "Agent started successfully." None])
  | Some false => (it, [Toast error "Error starting agent: " (get_prop response "error")])
  | None => (it, [])
  end.

Definition stop_response (response : JsVal) (it : AgentItem) : AgentItem * list Effect :=
  match board.message_is_success response with
  | Some true => (show_off (hide_on it), [Toast success "Agent stopped successfully." None])
  | Some false => (it, [Toast error "Error stopping agent: " (get_prop response "error")])
  | None => (it, [])
  end.

(** The responses an item receives. *)
Inductive Outcome :=
  | StartResponse (response : JsVal)
  | StopResponse (response : JsVal).

Definition item_step (it : AgentItem) (o : Outcome) : AgentItem :=
  match o with
  | StartResponse r => fst (start_response r it)
  | StopResponse r => fst (stop_response r it)
  end.

(** Is the agent running, going by the responses: the last one that
    reports success decides; [started] holds before any does. *)
Definition reports_success (response : JsVal) : bool :=
  match get_prop response "message" with
  | Some m => strict_eq_str m "success"
  | None => false
  end.

Definition running (started : bool) (os : list Outcome) : bool :=
  foldl (λ b o,
           match o with
           | StartResponse r => if reports_success r then true else b
           | StopResponse r => if reports_success r then false else b
           end) started os.

(** The [callback] of the dialog opened by [addNewVariable()]: the values
    of the name field and of the type select. *)
Definition addNewVariable_callback (chosenAgentId : JsVal) (varName varType : option string)
    : list Effect :=
  match truthy_id varName, truthy_id varType with
  | Some n, Some t =>
      [Emit AGENT_NEW_VAR_REQUEST
         (VObj [("id", chosenAgentId); ("var_name", VStr n); ("var_type", VStr t)]);
       Await AGENT_NEW_VAR KVarAdded]
  | _, _ => [Toast warning "Please provide both variable name and type." None]
  end.

(** [exportVariables()] *)
Definition exportVariables (chosenAgentId : JsVal) : list Effect :=
  if truthy chosenAgentId then
    [Emit AGENT_REQUEST (VObj [("id", chosenAgentId)]); Await AGENT KExport]
  else [Toast warning "No agent selected for exporting variables." None].

(** The click handler of [.agent-var-button-edit]. *)
Definition edit_click (chosenAgentId : JsVal) (variableName : string) : list Effect :=
  if truthy chosenAgentId then
    [Emit AGENT_REQUEST (VObj [("id", chosenAgentId)]); Await AGENT (KEditOpen variableName)]
  else [Toast warning "No agent selected for editing variables." None].

End roster.

(** ** The main script: what a connection of the socket registers *)

Module page.
Import socket.

(** The events for which [addMessagesHandlers] installs a handler with
    [socket.on], in the order of the script; a handler is named after its
    event here. *)
Definition message_events : list string :=
  ["chat"; "message_received"; "message_start"; "message_delta";
   "streamed_message_received"; "edit_message"; "remove_message"].

Definition addMessagesHandlers (s : Socket) : Socket :=
  foldl (λ s' event, on event event s') s message_events.

(** The listener that [socket.on(event, ...)] registers. *)
Definition listener_on (event : string) : Listener :=
  {| l_event := event; l_once := false; l_fn := Handler event |}.

(** The interface script installs its two handlers when it is loaded. *)
Definition interface_events : list string := ["show_modal"; "show_toastr"].

Definition load_interface (s : Socket) : Socket :=
  foldl (λ s' event, on event event s') s interface_events.

(** The function the main script gives to [socket.on('connect', ...)], as
    far as the channel goes; the socket calls it at every connection. *)
Definition connect (s : Socket) : Socket := addMessagesHandlers s.

(** The channel once the scripts are loaded and the socket has connected
    [n] times. *)
Definition connected (n : nat) : Socket := Nat.iter n connect (load_interface init).

(** A click on [#preset-button] once the socket has connected [n] times:
    the click handlers run in the order of their registration, at each
    connection the one of the main script, then the one of
    [addPresetHandlers]. *)
Definition preset_button_clicks (n : nat) (sel : workflows.Selector) (shown : panels.Shown)
    : panels.Shown * list workflows.Effect :=
  Nat.iter n
    (λ st, let '(shown', effects) := panels.preset_button_click sel (fst st) in
           (shown', snd st ++ effects))
    (shown, []).

End page.

(* ================================================================== *)
(** * Properties *)

Example socket_first_arrival :
  let '(p, s) := socket.waitForEvent "node" socket.init in
  socket.promises (socket.run [socket.Incoming "node_save" VNull;
                               socket.Incoming "node" (VStr "a");
                               socket.Incoming "node" (VStr "b")] s) !! p
  = Some {| socket.state := socket.Fulfilled (VStr "a"); socket.resolve_calls := 1 |}.
Proof. reflexivity. Qed.

(** ** The event channel *)

Section SocketFacts.
Import socket.

Lemma invoke_listeners v s l : listeners (invoke v s l) = listeners s.
Proof. unfold invoke. destruct (l_fn l); reflexivity. Qed.

Lemma foldl_invoke_listeners v cs s :
  listeners (foldl (invoke v) s cs) = listeners s.
Proof.
  revert s. induction cs as [|l cs IH]; intros s; simpl; [reflexivity|].
  rewrite IH. apply invoke_listeners.
Qed.

Lemma invoke_length v s l :
  length (promises (invoke v s l)) = length (promises s).
Proof.
  unfold invoke. destruct (l_fn l); simpl; [|reflexivity].
  apply length_alter.
Qed.

Lemma foldl_invoke_length v cs s :
  length (promises (foldl (invoke v) s cs)) = length (promises s).
Proof.
  revert s. induction cs as [|l cs IH]; intros s; simpl; [reflexivity|].
  rewrite IH. apply invoke_length.
Qed.

Lemma invoke_promise v s l p :
  promises (invoke v s l) !! p
  = (if targets p l then settle v else id) <$> promises s !! p.
Proof.
  unfold invoke, targets. destruct (l_fn l) as [q|h]; simpl.
  - destruct (Nat.eqb_spec q p) as [->|Hne].
    + apply list_lookup_alter_eq.
    + rewrite list_lookup_alter_ne by done. by destruct (promises s !! p).
  - by destruct (promises s !! p).
Qed.

(** Calling a batch of listeners runs [resolve] of promise [p] once per
    listener of that promise in the batch. *)
Lemma foldl_invoke_promise v cs s p :
  promises (foldl (invoke v) s cs) !! p
  = Nat.iter (ntargets p cs) (settle v) <$> promises s !! p.
Proof.
  revert s. induction cs as [|l cs IH]; intros s; simpl.
  - by destruct (promises s !! p).
  - rewrite IH, invoke_promise. unfold ntargets. simpl.
    destruct (targets p l); simpl.
    + destruct (promises s !! p); simpl; [|done].
      by rewrite <- Nat.iter_succ_r.
    + by destruct (promises s !! p).
Qed.

Lemma ntargets_app p ls1 ls2 :
  ntargets p (ls1 ++ ls2) = ntargets p ls1 + ntargets p ls2.
Proof. unfold ntargets. by rewrite List.filter_app, length_app. Qed.

Lemma awaiting_ntargets p s :
  awaiting p s = negb (Nat.eqb (ntargets p (listeners s)) 0).
Proof.
  unfold awaiting, ntargets. induction (listeners s) as [|l ls IH]; simpl; [done|].
  destruct (targets p l); simpl; [done|apply IH].
Qed.

(** Listeners of promise [p], all one-shot listeners of [kind], under the
    two filters of [dispatch]. *)
Lemma called_same_event p kind ls :
  listens_once p kind ls →
  ntargets p (List.filter (λ l, String.eqb (l_event l) kind) ls) = ntargets p ls.
Proof.
  unfold ntargets. induction 1 as [|l ls Hl _ IH]; simpl; [done|].
  destruct (targets p l) eqn:Ht.
  - destruct (Hl eq_refl) as [-> _]. rewrite String.eqb_refl. simpl.
    rewrite Ht. simpl. by rewrite IH.
  - destruct (String.eqb (l_event l) kind); simpl; rewrite ?Ht; apply IH.
Qed.

Lemma kept_same_event p kind ls :
  listens_once p kind ls →
  ntargets p (List.filter (λ l, negb (String.eqb (l_event l) kind && l_once l)) ls) = 0.
Proof.
  unfold ntargets. induction 1 as [|l ls Hl _ IH]; simpl; [done|].
  destruct (targets p l) eqn:Ht.
  - destruct (Hl eq_refl) as [-> ->]. rewrite String.eqb_refl. simpl. apply IH.
  - destruct (negb _); simpl; rewrite ?Ht; apply IH.
Qed.

Lemma called_other_event p kind e ls :
  e ≠ kind → listens_once p kind ls →
  ntargets p (List.filter (λ l, String.eqb (l_event l) e) ls) = 0.
Proof.
  intros Hne. unfold ntargets. induction 1 as [|l ls Hl _ IH]; simpl; [done|].
  destruct (String.eqb_spec (l_event l) e) as [He|He]; simpl; [|apply IH].
  destruct (targets p l) eqn:Ht; simpl; [|apply IH].
  destruct (Hl eq_refl) as [Hk _]. congruence.
Qed.

Lemma kept_other_event p kind e ls :
  e ≠ kind → listens_once p kind ls →
  ntargets p (List.filter (λ l, negb (String.eqb (l_event l) e && l_once l)) ls)
  = ntargets p ls.
Proof.
  intros Hne. unfold ntargets. induction 1 as [|l ls Hl _ IH]; simpl; [done|].
  destruct (targets p l) eqn:Ht.
  - destruct (Hl eq_refl) as [Hk _].
    destruct (String.eqb_spec (l_event l) e) as [He|He]; [congruence|].
    simpl. rewrite Ht. simpl. by rewrite IH.
  - destruct (negb _); simpl; rewrite ?Ht; apply IH.
Qed.

Lemma listens_once_filter p kind f ls :
  listens_once p kind ls → listens_once p kind (List.filter f ls).
Proof.
  induction 1 as [|l ls Hl _ IH]; simpl; [constructor|].
  destruct (f l); [by constructor|done].
Qed.

Lemma listens_once_fresh p kind l ls :
  targets p l = false → listens_once p kind ls → listens_once p kind (ls ++ [l]).
Proof.
  intros Ht Hls. apply Forall_app. split; [done|].
  constructor; [|constructor]. congruence.
Qed.

Lemma ntargets_filter_le p f ls :
  ntargets p (List.filter f ls) ≤ ntargets p ls.
Proof.
  unfold ntargets. induction ls as [|l ls IH]; simpl; [done|].
  destruct (f l), (targets p l) eqn:Ht; simpl; rewrite ?Ht; simpl; lia.
Qed.

Lemma dispatch_length e v s :
  length (promises (dispatch e v s)) = length (promises s).
Proof. unfold dispatch. by rewrite foldl_invoke_length. Qed.

Lemma step_length_mono s a : length (promises s) ≤ length (promises (step s a)).
Proof.
  destruct a; simpl; try lia.
  - rewrite length_app. lia.
  - rewrite dispatch_length. lia.
Qed.

(** A settled promise whose listener is gone is never touched again. *)
Lemma run_settled tr : ∀ s p pr,
  p < length (promises s) →
  ntargets p (listeners s) = 0 →
  promises s !! p = Some pr →
  promises (run tr s) !! p = Some pr ∧ ntargets p (listeners (run tr s)) = 0.
Proof.
  induction tr as [|a tr IH]; intros s p pr Hlt Hnt Hpr; [done|].
  change (run (a :: tr) s) with (run tr (step s a)).
  apply IH.
  - pose proof (step_length_mono s a). lia.
  - destruct a; simpl; try done.
    + rewrite ntargets_app, Hnt. done.
    + rewrite ntargets_app, Hnt. unfold ntargets, targets. simpl.
      destruct (Nat.eqb_spec (length (promises s)) p); [lia|done].
    + unfold dispatch. rewrite foldl_invoke_listeners. simpl.
      pose proof (ntargets_filter_le p
        (λ l, negb (String.eqb (l_event l) event && l_once l)) (listeners s)). lia.
  - destruct a; simpl; try done.
    + by rewrite lookup_app_l.
    + unfold dispatch. rewrite foldl_invoke_promise. simpl.
      pose proof (ntargets_filter_le p
        (λ l, String.eqb (l_event l) event) (listeners s)) as Hle.
      replace (ntargets p _) with 0 by lia. by rewrite Hpr.
Qed.

(** A pending promise with exactly one one-shot listener of [kind] is
    settled by the first arrival of [kind], and by nothing else. *)
Lemma run_waiting tr : ∀ s p kind,
  p < length (promises s) →
  listens_once p kind (listeners s) →
  ntargets p (listeners s) = 1 →
  promises s !! p = Some {| state := Pending; resolve_calls := 0 |} →
  promises (run tr s) !! p = Some (expected kind tr)
  ∧ ntargets p (listeners (run tr s))
    = (if arrived kind tr then 0 else 1).
Proof.
  induction tr as [|a tr IH]; intros s p kind Hlt Hon Hnt Hpr; [done|].
  change (run (a :: tr) s) with (run tr (step s a)).
  destruct a as [e v|e h|e|e v].
  - apply IH; done.
  - apply IH; simpl; try done.
    + by apply listens_once_fresh.
    + rewrite ntargets_app, Hnt. done.
  - apply IH; simpl.
    + rewrite length_app. lia.
    + apply listens_once_fresh; [|done]. unfold targets. simpl.
      destruct (Nat.eqb_spec (length (promises s)) p); [lia|done].
    + rewrite ntargets_app, Hnt. unfold ntargets, targets. simpl.
      destruct (Nat.eqb_spec (length (promises s)) p); [lia|done].
    + by rewrite lookup_app_l.
  - unfold expected, arrived. simpl next_occurrence.
    destruct (String.eqb_spec e kind) as [->|Hne].
    + apply run_settled.
      * simpl. by rewrite dispatch_length.
      * simpl. unfold dispatch. rewrite foldl_invoke_listeners. simpl.
        by apply kept_same_event.
      * simpl. unfold dispatch. rewrite foldl_invoke_promise. simpl.
        rewrite called_same_event, Hnt, Hpr by done. done.
    + apply IH; simpl.
      * by rewrite dispatch_length.
      * unfold dispatch. rewrite foldl_invoke_listeners. simpl.
        by apply listens_once_filter.
      * unfold dispatch. rewrite foldl_invoke_listeners. simpl.
        by rewrite (kept_other_event p kind).
      * unfold dispatch. rewrite foldl_invoke_promise. simpl.
        rewrite (called_other_event p kind), Hpr by done. done.
Qed.

Lemma fresh_step s a : fresh s → fresh (step s a).
Proof.
  unfold fresh. intros Hs. destruct a as [e v|e h|e|e v]; simpl; try done.
  - apply Forall_app. split; [done|]. by constructor.
  - apply Forall_app. split.
    + eapply Forall_impl; [exact Hs|]. simpl. intros l Hl q Hq.
      rewrite length_app. specialize (Hl q Hq). lia.
    + constructor; [|constructor]. simpl. intros q [= <-].
      rewrite length_app. simpl. lia.
  - unfold dispatch. rewrite foldl_invoke_listeners, foldl_invoke_length. simpl.
    induction Hs as [|l ls Hl _ IH]; simpl; [constructor|].
    destruct (negb _); [by constructor|done].
Qed.

Lemma fresh_run tr : ∀ s, fresh s → fresh (run tr s).
Proof.
  induction tr as [|a tr IH]; intros s Hs; [done|].
  change (run (a :: tr) s) with (run tr (step s a)). by apply IH, fresh_step.
Qed.

Lemma fresh_ntargets s : fresh s → ntargets (length (promises s)) (listeners s) = 0.
Proof.
  unfold fresh, ntargets. induction 1 as [|l ls Hl _ IH]; simpl; [done|].
  unfold targets at 1. destruct (l_fn l) as [q|h] eqn:Hq; [|done].
  specialize (Hl q eq_refl).
  destruct (Nat.eqb_spec q (length (promises s))); [lia|done].
Qed.

Lemma fresh_listens_once s kind :
  fresh s → listens_once (length (promises s)) kind (listeners s).
Proof.
  unfold fresh, listens_once. intros Hs. eapply Forall_impl; [exact Hs|].
  simpl. intros l Hl. unfold targets. destruct (l_fn l) as [q|h]; [|done].
  specialize (Hl q eq_refl).
  destruct (Nat.eqb_spec q (length (promises s))); [lia|done].
Qed.

(** C1. In every state the channel can reach ([history] is any past of
    requests sent, handlers installed, other waits and arrivals), the future
    returned by [waitForEvent kind] is settled by the first later arrival of
    an event named [kind] and by nothing else: after any [future] its
    [resolve] ran exactly once, with that arrival's payload, whatever
    requests were sent before or after (a request is an [Emit]; nothing of
    it is compared with the arrival); while no such event has arrived the
    future is pending, its [resolve] never ran, it is not rejected, and its
    listener stays registered. *)
Theorem waitForEvent_first_arrival_wins (history future : list Action) (kind : string) :
  let '(p, s1) := waitForEvent kind (run history init) in
  let s2 := run future s1 in
  promises s2 !! p = Some (expected kind future)
  ∧ awaiting p s2 = negb (arrived kind future)
  ∧ (∀ reason, state (expected kind future) ≠ Rejected reason).
Proof.
  assert (Hs : fresh (run history init)) by (apply fresh_run; constructor).
  revert Hs. generalize (run history init). intros s Hs.
  pose (s1 := once kind (ResolvePromise (length (promises s))) (snd (new_promise s))).
  change (promises (run future s1) !! length (promises s) = Some (expected kind future)
          ∧ awaiting (length (promises s)) (run future s1) = negb (arrived kind future)
          ∧ (∀ reason, state (expected kind future) ≠ Rejected reason)).
  destruct (run_waiting future s1 (length (promises s)) kind) as [Hp Hn];
    subst s1.
  - simpl. rewrite length_app. simpl. lia.
  - simpl. apply Forall_app. split; [by apply fresh_listens_once|].
    constructor; [done|constructor].
  - simpl. rewrite ntargets_app, fresh_ntargets by done.
    unfold ntargets, targets. simpl. by rewrite Nat.eqb_refl.
  - simpl. rewrite lookup_app_r by done. by rewrite Nat.sub_diag.
  - split; [exact Hp|]. split.
    + rewrite awaiting_ntargets, Hn. by destruct (arrived kind future).
    + intros reason. unfold expected. by destruct (next_occurrence kind future).
Qed.

End SocketFacts.

(** ** Links of the graph *)

Section LinkFacts.
Context {num : Type} `{JsNumber num}.
Import board.

Lemma joins_sym (a b : Element num) (l : Link) : joins a b l = joins b a l.
Proof. unfold joins. apply orb_comm. Qed.

Lemma find_existsb {A} (f : A → bool) l :
  List.find f l = None ↔ existsb f l = false.
Proof.
  induction l as [|x l IH]; simpl; [done|].
  destruct (f x); simpl; [split; discriminate|exact IH].
Qed.

Lemma filter_nil_existsb {A} (f : A → bool) l :
  existsb f l = false → List.filter f l = [].
Proof.
  induction l as [|x l IH]; simpl; [done|].
  destruct (f x); simpl; [discriminate|exact IH].
Qed.

Lemma getLink_linked (g : Graph num) a b : linked g a b = true → getLink g a b = None.
Proof.
  unfold linked, getLink. intros Hl.
  destruct (List.find (joins a b) (links g)) eqn:Hf; [done|].
  apply find_existsb in Hf. congruence.
Qed.

Lemma linked_sym (g : Graph num) a b : linked g a b = linked g b a.
Proof.
  unfold linked. induction (links g) as [|l ls IH]; simpl; [done|].
  by rewrite IH, joins_sym.
Qed.

Lemma getLink_new (g : Graph num) a b l :
  getLink g a b = Some l →
  l = {| source := id a; target := id b |} ∧ List.filter (joins a b) (links g) = [].
Proof.
  unfold getLink. destruct (List.find (joins a b) (links g)) eqn:Hf; [done|].
  intros [= <-]. split; [done|]. by apply filter_nil_existsb, find_existsb.
Qed.

(** A pair joined by the new link of [a] and [b] is the pair [a], [b]. *)
Lemma joins_new_link (a b c d : Element num) l :
  joins c d {| source := id a; target := id b |} = true →
  joins c d l = joins a b l.
Proof.
  unfold joins. simpl. intros Hj.
  apply orb_true_iff in Hj as [Hj|Hj]; apply andb_true_iff in Hj as [H1 H2];
    apply String.eqb_eq in H1, H2; rewrite <- H1, <- H2; [done|apply orb_comm].
Qed.

Lemma single_links_addTo (g : Graph num) a b l :
  single_links g → getLink g a b = Some l → single_links (addTo l g).
Proof.
  intros Hg Hl c d. apply getLink_new in Hl as [-> Hnone]. simpl.
  rewrite List.filter_app, length_app. simpl.
  destruct (joins c d {| source := id a; target := id b |}) eqn:Hj; simpl.
  - rewrite (List.filter_ext _ _ (λ l, joins_new_link a b c d l Hj)), Hnone. done.
  - specialize (Hg c d). lia.
Qed.

Lemma filter_filter_length {A} (f k : A → bool) l :
  length (List.filter f (List.filter k l)) ≤ length (List.filter f l).
Proof.
  induction l as [|x l IH]; simpl; [done|].
  destruct (k x), (f x) eqn:Hf; simpl; rewrite ?Hf; simpl; lia.
Qed.

Lemma single_links_remove (g : Graph num) e : single_links g → single_links (remove e g).
Proof.
  intros Hg a b. simpl.
  pose proof (filter_filter_length (joins a b) (λ l, negb (attached (id e) l)) (links g)).
  specialize (Hg a b). lia.
Qed.

Lemma single_links_same_links (g g' : Graph num) :
  links g' = links g → single_links g → single_links g'.
Proof. intros Heq Hg a b. rewrite Heq. apply Hg. Qed.

Lemma single_links_link_create (g : Graph num) s t r :
  single_links g → single_links (link_create_response s t r g).1.
Proof.
  intros Hg. unfold link_create_response.
  destruct (message_is_success r) as [[]|]; simpl; try done.
  destruct (getLink g s t) eqn:Hl; simpl; [|done]. by eapply single_links_addTo.
Qed.

Lemma single_links_load_links ls : ∀ g : Graph num,
  single_links g → single_links (load_links g ls).
Proof.
  induction ls as [|l ls IH]; intros g Hg; [done|].
  apply IH. unfold load_link.
  destruct (by_customId (wl_source l) g) as [s|]; [|done].
  destruct (by_customId (wl_target l) g) as [t|]; [|done].
  destruct (getLink g s t) eqn:Hl; [|done]. by eapply single_links_addTo.
Qed.

Lemma links_foldl_reposition x y os : ∀ g : Graph num,
  links (foldl (reposition x y) g os) = links g.
Proof. induction os as [|o os IH]; intros g; simpl; [done|]. by rewrite IH. Qed.

Lemma links_pointermove i evt d (g : Graph num) : links (pointermove i evt d g) = links g.
Proof.
  unfold pointermove. destruct (element_by_id i g); [|done].
  destruct (isResizing d && resizable e).
  - by destruct (resizeStartPosition d), (resizeStartSize d), (resizeStartElementPosition d).
  - destruct (isDragging d); [|done]. destruct (dragStartPosition d); [|done].
    destruct (is_window e); [|done]. by rewrite links_foldl_reposition.
Qed.

Lemma links_eye_button w i (g : Graph num) : links (eye_button w i g).1 = links g.
Proof.
  unfold eye_button. destruct (element_by_id i g); [|done].
  destruct (interfaceVisible _); [|done]. by destruct (truthy_id _).
Qed.

Lemma links_node_content w html view nodeId data (g : Graph num) :
  links (node_content_render w html view nodeId data g).1.1 = links g.
Proof.
  unfold node_content_render. destruct (by_customId _ g); [|done].
  by destruct (renderNodeInterface _ _ _ _ _) as [[? ?] ?].
Qed.

Lemma links_node_save w n is_new r (g : Graph num) :
  links (node_save_response w n is_new r g).1 = links g.
Proof.
  unfold node_save_response. destruct (message_is_success r) as [[]|]; try done.
  destruct is_new; [|done]. by destruct (truthy_id w).
Qed.

Lemma single_links_step (b : Board num) ev :
  saved_layout ev → single_links (graph b) → single_links (graph (board_step b ev)).
Proof.
  intros Hev Hb. destruct ev; simpl; try done.
  - by apply single_links_link_create.
  - unfold delete_node_click. destruct (selected_node (menu b)); simpl; [|done].
    by apply single_links_remove.
  - unfold delete_shape_click.
    destruct (selectedElement (menu b)) as [[e|l]|]; simpl; try done.
    destruct (same_shape _ _); simpl; [|done]. by apply single_links_remove.
  - intros a c. simpl. lia.
  - eapply single_links_same_links; [|exact Hb]. apply links_node_save.
  - by apply single_links_load_links.
  - eapply single_links_same_links; [|exact Hb]. apply links_eye_button.
  - eapply single_links_same_links; [|exact Hb]. apply links_node_content.
  - eapply single_links_same_links; [|exact Hb]. apply links_pointermove.
Qed.

Lemma single_links_run evs : ∀ b : Board num,
  Forall saved_layout evs → single_links (graph b) →
  single_links (graph (board_run evs b)).
Proof.
  induction evs as [|ev evs IH]; intros b Hevs Hb; [done|].
  apply Forall_cons in Hevs as [Hev Hevs].
  change (board_run (ev :: evs) b) with (board_run evs (board_step b ev)).
  apply IH; [done|]. by apply single_links_step.
Qed.

(** C3. In a graph where a link joins [a] and [b], in either orientation,
    [getLink] returns [null] for [(a, b)] and for [(b, a)], and the callback
    of a link-create response leaves the graph as it is, whatever the
    response; and in every graph the canvas reaches from the empty one,
    the layouts loaded from the engine being as this client saved them, at
    most one link joins any two elements. *)
Theorem getLink_rejects_existing_pair (g : Graph num) (a b : Element num)
    (p : Paper num) (evs : list (BoardEvent num)) :
  linked g a b = true →
  Forall saved_layout evs →
  getLink g a b = None
  ∧ getLink g b a = None
  ∧ (∀ response, (link_create_response a b response g).1 = g)
  ∧ (∀ response, (link_create_response b a response g).1 = g)
  ∧ single_links (graph (board_run evs (board_init p))).
Proof.
  intros Hab Hevs.
  assert (Hba : linked g b a = true) by (by rewrite linked_sym).
  apply getLink_linked in Hab, Hba.
  split; [done|]. split; [done|].
  split; [|split].
  - intros r. unfold link_create_response. rewrite Hab.
    by destruct (message_is_success r) as [[]|].
  - intros r. unfold link_create_response. rewrite Hba.
    by destruct (message_is_success r) as [[]|].
  - apply single_links_run; [done|]. intros c d. simpl. lia.
Qed.

End LinkFacts.

(** ** The two-click link action *)

Section MenuFacts.
Context {num : Type} `{JsNumber num}.
Import board.





End MenuFacts.


(** ** Deleting a node *)

Section DeleteFacts.
Context {num : Type} `{JsNumber num}.
Import board.

Lemma find_filter_negb {A} (f : A → bool) l :
  List.find f (List.filter (λ x, negb (f x)) l) = None.
Proof.
  induction l as [|x l IH]; simpl; [done|].
  destruct (f x) eqn:Hf; simpl; [done|]. by rewrite Hf.
Qed.

Lemma element_by_id_remove (e : Element num) g : element_by_id (id e) (remove e g) = None.
Proof. unfold element_by_id, remove, same. simpl. apply find_filter_negb. Qed.

Lemma links_remove (e : Element num) g l :
  In l (links (remove e g)) → source l ≠ id e ∧ target l ≠ id e.
Proof.
  unfold remove, attached. simpl. intros [_ Hl]%filter_In.
  apply negb_true_iff, orb_false_iff in Hl as [Hs Ht].
  by apply String.eqb_neq in Hs, Ht.
Qed.

(** C7, as the code has it.  The delete action on a selected node that has
    a [customId] removes the node (and the links attached to it) from the
    graph, hides the menu, and, when a workflow is selected, sends exactly
    one request, [NODE_DELETE_REQUEST] with the workflow and that
    [customId]; when no workflow is selected it sends none. *)
Theorem delete_node_click_persisted (workflowId : option string) (m : Menu num)
    (g : Graph num) (e : Element num) (c : string) :
  selected_node m = Some e →
  customId e = Some c →
  let '(m', g', effects) := delete_node_click workflowId m g in
  element_by_id (id e) g' = None
  ∧ elements g' = List.filter (λ e', negb (same e' e)) (elements g)
  ∧ (∀ l, In l (links g') → source l ≠ id e ∧ target l ≠ id e)
  ∧ List.filter is_emit effects
    = match truthy_id workflowId with
      | Some w => [Emit (NODE_DELETE_REQUEST w (Some c))]
      | None => []
      end
  ∧ contextMenuShown m' = false.
Proof.
  intros Hsel Hc. unfold delete_node_click. rewrite Hsel, Hc.
  split; [apply element_by_id_remove|]. split; [done|].
  split; [apply links_remove|]. split; [|done].
  unfold deleteNode. by destruct (truthy_id workflowId).
Qed.

End DeleteFacts.

Lemma delete_node_click_persisted_witness :
  board.selected_node (sample.menu_on sample.n1) = Some sample.n1
  ∧ board.customId sample.n1 = Some "n1"
  ∧ let '(m', g', effects) :=
      board.delete_node_click (Some "w1") (sample.menu_on sample.n1) sample.g12 in
    board.element_by_id "cell-1" g' = None
    ∧ board.elements g' = [sample.n2]
    ∧ (∀ l, In l (board.links g') → board.source l ≠ "cell-1" ∧ board.target l ≠ "cell-1")
    ∧ List.filter board.is_emit effects
      = [board.Emit (board.NODE_DELETE_REQUEST "w1" (Some "n1"))]
    ∧ board.contextMenuShown m' = false.
Proof.
  split; [reflexivity|]. split; [reflexivity|].
  exact (delete_node_click_persisted (Some "w1") (sample.menu_on sample.n1)
           sample.g12 sample.n1 "n1" eq_refl eq_refl).
Defined.

(** C7 fails as stated, on both counts: with no workflow selected the
    delete action removes a persisted node and sends no request; and on a
    node without a [customId] it does send a request, keyed by
    [undefined]. *)
Lemma delete_node_click_counterexample :
  board.delete_node_click None (sample.menu_on sample.n1) sample.g12
  = (board.hide (sample.menu_on sample.n1),
     {| board.elements := [sample.n2]; board.links := [] |},
     [board.Toast board.warning "Please select a workflow to delete the node." None])
  ∧ board.delete_node_click (Some "w1") (sample.menu_on sample.unsaved) sample.g_unsaved
    = (board.hide (sample.menu_on sample.unsaved),
       {| board.elements := [sample.n1]; board.links := [] |},
       [board.Emit (board.NODE_DELETE_REQUEST "w1" None);
        board.Await "node_delete" board.KNodeDelete]).
Proof. split; reflexivity. Qed.

Example link_twice_adds_one_link :
  board.graph (board.board_run sample.link_twice (board.board_init sample.paper0))
  = sample.g12_linked.
Proof. reflexivity. Qed.

Lemma getLink_rejects_existing_pair_witness :
  board.linked sample.g12_linked sample.n1 sample.n2 = true
  ∧ Forall board.saved_layout sample.link_twice
  ∧ board.getLink sample.g12_linked sample.n1 sample.n2 = None
  ∧ board.getLink sample.g12_linked sample.n2 sample.n1 = None
  ∧ (∀ response,
       (board.link_create_response sample.n1 sample.n2 response sample.g12_linked).1
       = sample.g12_linked)
  ∧ (∀ response,
       (board.link_create_response sample.n2 sample.n1 response sample.g12_linked).1
       = sample.g12_linked)
  ∧ board.single_links
      (board.graph (board.board_run sample.link_twice (board.board_init sample.paper0))).
Proof.
  assert (Hevs : Forall board.saved_layout sample.link_twice)
    by (repeat constructor).
  split; [reflexivity|]. split; [exact Hevs|].
  exact (getLink_rejects_existing_pair sample.g12_linked sample.n1 sample.n2
           sample.paper0 sample.link_twice eq_refl Hevs).
Defined.

(** ** Saving the interface form of a node *)

Section InterfaceFacts.
Context {num : Type} `{JsNumber num}.
Import board.

Lemma newStaticInput_lookup (F : FormData) (P : gmap string JsVal)
    (S : gmap string FieldDef) (k : string) :
  newStaticInput F P S !! k = saved_value F P k <$> S !! k.
Proof.
  unfold newStaticInput.
  apply (map_fold_weak_ind
    (λ (r : gmap string JsVal) (m : gmap string FieldDef),
       r !! k = saved_value F P k <$> m !! k)).
  - by rewrite !lookup_empty.
  - intros i x m r Hi IH. destruct (decide (i = k)) as [->|Hne].
    + by rewrite !lookup_insert_eq.
    + by rewrite !lookup_insert_ne.
Qed.

(** C2. Saving the interface form of a node whose schema is [S], whose
    persisted input is [P] (none at all counts as empty) and whose form
    submits the entries [F] sends a [static_input] with exactly the keys of
    [S].  A checkbox field gets the boolean "the form has the key"; any
    other field gets the submitted string if the form has the key, else the
    previous value if [P] has the key, else the schema default if there is
    one, else [null].  With a workflow selected, that map is the
    [static_input] of the one [NODE_SAVE_REQUEST] sent for the node. *)
Theorem saveNodeInterface_keeps_every_key (F : FormData)
    (P : option (gmap string JsVal)) (S : gmap string FieldDef) :
  let saved := newStaticInput F (default ∅ P) S in
  dom saved = dom S
  ∧ (∀ k definition, S !! k = Some definition →
       saved !! k
       = Some (if String.eqb (ftype definition) "checkbox" then VBool (form_has k F)
               else match form_get k F with
                    | Some v => VStr v
                    | None =>
                        match default ∅ P !! k with
                        | Some previous => previous
                        | None =>
                            match fdefault definition with
                            | Some d => d
                            | None => VNull
                            end
                        end
                    end))
  ∧ (∀ (node : Element num) error name interface w,
       saveNodeInterface_Embedded (Some w) (FoundForm F) node
         {| nd_error := error; nd_name := name;
            nd_interface := interface; nd_static_input := P |} S
       = if String.eqb w "" then
           [Toast warning "Please select a workflow to save the node." None]
         else
           [Emit (NODE_SAVE_REQUEST
              {| ns_workflow_id := w; ns_name := name; ns_interface := None;
                 ns_node_type := None; ns_node_subtype := None; ns_handler := None;
                 ns_code := None; ns_static_input := Some saved;
                 ns_id := Some (customId node) |});
            Await "node_save" (KNodeSave node false)]).
Proof.
  intros saved. split; [|split].
  - apply set_eq. intros k. rewrite !elem_of_dom. subst saved.
    rewrite newStaticInput_lookup. by rewrite fmap_is_Some.
  - intros k definition Hk. subst saved. by rewrite newStaticInput_lookup, Hk.
  - intros node err name interface w. unfold saveNodeInterface_Embedded, saveNode. simpl.
    by destruct (String.eqb w "").
Qed.

(** C8. When the response to a dynamic-options request is a failure (its
    [message] is not ['success'] or its [options_source] is not the one
    asked for), or handling it throws (the response is [null], or its
    [options] cannot be iterated), the select ends with exactly one option,
    the placeholder "Error loading" with the empty value, whatever options
    it had; the same holds when the request cannot be made for lack of a
    workflow or node id. *)
Theorem dynamic_options_failure_leaves_error_placeholder (optionsSource : string)
    (staticInputData : gmap string JsVal) (response : JsVal) (sel : Select) :
  options_ok optionsSource response = Some false
  ∨ options_ok optionsSource response = None
  ∨ options_of response = None →
  sel_options (dynamic_options_response (num:=num) optionsSource staticInputData response sel).1
  = [error_option]
  ∧ error_option = {| opt_text := VStr "Error loading"; opt_value := VStr "" |}
  ∧ (∀ workflowId nodeId,
       truthy_id (sel_options_source sel) = Some optionsSource →
       truthy_id workflowId = None ∨ truthy_id nodeId = None →
       sel_options (initialize_select (num:=num) workflowId nodeId staticInputData sel).1
       = [error_option]).
Proof.
  intros Hfail. split; [|split; [done|]].
  - unfold dynamic_options_response, dynamic_options_then.
    destruct (options_ok optionsSource response) as [[]|]; try done.
    destruct Hfail as [?|[?|Hnone]]; try done. by rewrite Hnone.
  - intros workflowId nodeId Hsrc Hmissing. unfold initialize_select. rewrite Hsrc.
    destruct (truthy_id workflowId), (truthy_id nodeId); try done.
    by destruct Hmissing.
Qed.

End InterfaceFacts.

Example partial_form_keeps_c :
  board.newStaticInput sample.form_ab sample.persisted_c sample.schema_abc !! "a"
    = Some (VStr "hello")
  ∧ board.newStaticInput sample.form_ab sample.persisted_c sample.schema_abc !! "b"
    = Some (VStr "2")
  ∧ board.newStaticInput sample.form_ab sample.persisted_c sample.schema_abc !! "c"
    = Some (VStr "y")
  ∧ board.newStaticInput sample.form_ab ∅ sample.schema_abc !! "c" = Some (VStr "x").
Proof. rewrite !newStaticInput_lookup. repeat split. Qed.

Lemma dynamic_options_failure_leaves_error_placeholder_witness :
  board.options_ok "models" sample.failed_response = Some false
  ∧ board.sel_options
      (board.dynamic_options_response (num:=float) "models" ∅ sample.failed_response
         sample.select_model).1
    = [board.error_option].
Proof.
  split; [reflexivity|].
  exact (proj1 (dynamic_options_failure_leaves_error_placeholder (num:=float)
                  "models" ∅ sample.failed_response sample.select_model
                  (or_introl eq_refl))).
Defined.

(** ** Editing one variable of an agent *)

Section AgentFacts.
Import agents.

(** C9. Editing the variable [n] to the text [v] puts on the channel
    exactly what importing the one-entry map [{n: v}] puts there: with an
    agent chosen, one [AGENT_IMPORT_VARS_REQUEST] with the payload
    [{id, variables: {n: v}}] and one wait for [AGENT_IMPORT_VARS]; with
    none, nothing.  The two callbacks of the response differ only in the
    wording of the notification: on the channel they do the same. *)
Theorem editVariable_is_import_of_singleton (chosenAgentId : JsVal) (n v : string) :
  let singleton := VObj [(n, VStr v)] in
  sent (editVariable_callback chosenAgentId n v)
  = sent (importVariables_onload chosenAgentId (Some singleton))
  ∧ awaited (editVariable_callback chosenAgentId n v)
    = awaited (importVariables_onload chosenAgentId (Some singleton))
  ∧ sent (editVariable_callback chosenAgentId n v)
    = (if truthy chosenAgentId then
         [(AGENT_IMPORT_VARS_REQUEST,
           VObj [("id", chosenAgentId); ("variables", singleton)])]
       else [])
  ∧ awaited (editVariable_callback chosenAgentId n v)
    = (if truthy chosenAgentId then [AGENT_IMPORT_VARS] else [])
  ∧ (∀ response,
       sent (resume chosenAgentId KEdited response)
       = sent (resume chosenAgentId KImported response)
       ∧ awaited (resume chosenAgentId KEdited response)
         = awaited (resume chosenAgentId KImported response)).
Proof.
  unfold editVariable_callback, importVariables_onload.
  destruct (truthy chosenAgentId) eqn:Ht; simpl; repeat split; try done;
    intros; unfold resume;
    destruct (get_prop response "message") as [m|]; try done;
    destruct (strict_eq_str m "success"); done.
Qed.

End AgentFacts.

(** ** Zooming about the cursor *)

(** The literals [0.9] and [1.1] of the handler are the binary64 numbers
    that [tenths] computes. *)
Example tenths_literals :
  tenths (num:=float) 9 = 0.9%float ∧ tenths (num:=float) 11 = 1.1%float.
Proof. split; reflexivity. Qed.

Section ZoomFacts.
Import board.




End ZoomFacts.



(** ** Dragging a window *)

Section DragFacts.
Context {num : Type} `{JsNumber num}.
Import board.

Implicit Types (g : Graph num) (e w : Element num) (d : Drag num) (i j : string).



Lemma element_by_id_update_eq g i f :
  (∀ e, id (f e) = id e) →
  element_by_id i (update_element i f g) = f <$> element_by_id i g.
Proof.
  intros Hf. unfold element_by_id, update_element. simpl.
  induction (elements g) as [|a l IH]; simpl; [done|].
  destruct (String.eqb_spec (id a) i) as [Ha|Ha].
  - by rewrite Hf, <- Ha, String.eqb_refl.
  - apply String.eqb_neq in Ha. by rewrite Ha.
Qed.

Lemma element_by_id_update_ne g i j f :
  (∀ e, id (f e) = id e) → i ≠ j →
  element_by_id i (update_element j f g) = element_by_id i g.
Proof.
  intros Hf Hne. unfold element_by_id, update_element. simpl.
  induction (elements g) as [|a l IH]; simpl; [done|].
  destruct (String.eqb_spec (id a) j) as [Ha|Ha].
  - rewrite Hf, Ha. destruct (String.eqb_spec j i); [congruence|done].
  - by destruct (String.eqb (id a) i).
Qed.










Lemma captured_In g w e :
  In e (captured g w)
  ↔ In e (elements g) ∧ id e ≠ id w ∧ isNodeInsideWindow e w = true.
Proof.
  unfold captured. rewrite filter_In, andb_true_iff, negb_true_iff.
  unfold same. rewrite String.eqb_neq. tauto.
Qed.







End DragFacts.

(** The window grabbed at (60, 60) and dragged to (75, 40), then on to
    (160, 90): the window and the node inside it move by (100, 30), the
    node outside it stays, in binary64 as in exact arithmetic. *)
Example window_drag_binary64 :
  let d1 := board.pointerdown "win" (sample.at_point 60 60)%float
              sample.fg_win board.drag_idle in
  let g' := board.pointermoves "win" d1 sample.fg_win
              [sample.at_point 75 40; sample.at_point 160 90]%float in
  board.nodesInsideWindow d1 = ["in"]
  ∧ board.position_of "win" g' = Some {| board.px := 150; board.py := 80 |}%float
  ∧ board.position_of "in" g' = Some {| board.px := 160; board.py := 85 |}%float
  ∧ board.position_of "out" g' = Some {| board.px := 47; board.py := 58 |}%float.
Proof. repeat split. Qed.


(** ** Opening and closing the interface of a node *)

Section ToggleFacts.
Context {num : Type} `{JsNumber num}.
Import board.

Lemma rendered_frame (n : Element num) r :
  originalSize (rendered n r) = originalSize n
  ∧ interfaceVisible (rendered n r) = interfaceVisible n
  ∧ size (rendered n r)
    = {| width := width (expandedSize n); height := (r.2 + of_Z 20 + of_Z 20)%js |}
  ∧ expandedSize (rendered n r) = size (rendered n r).
Proof. done. Qed.

Lemma renders_frame rs : ∀ n : Element num,
  originalSize (foldl rendered n rs) = originalSize n
  ∧ interfaceVisible (foldl rendered n rs) = interfaceVisible n.
Proof.
  induction rs as [|r rs IH]; intros n; [done|]. simpl.
  destruct (IH (rendered n r)) as [-> ->]. done.
Qed.

(** C6, as the code has it.  Opening the interface of a closed node
    resizes the node to its stored [expandedSize]; a successful render of
    the fetched record resizes it to the expanded width by the measured
    content height plus the header height 20 plus the padding 20, and stores
    that size as [expandedSize]; closing resizes the node to its stored
    [originalSize], whatever was rendered while it was open.  So opening and
    closing restores the size the node had if that size was its
    [originalSize], as it is for every node [getNode] creates; and opening
    again gives the size of the last render. *)
Theorem toggle_restores_original_size (node : Element num)
    (renders : list (string * num)) :
  interfaceVisible node = false →
  let opened := toggleNodeInterface node in
  let shown := foldl rendered opened renders in
  let closed := toggleNodeInterface shown in
  size opened = expandedSize node
  ∧ interfaceVisible opened = true
  ∧ (∀ selector html h selects (n : Element num) d,
       truthy (nd_error d) = false →
       (renderNodeInterface selector html (ViewContent h selects) n (Some d)).1.1
       = rendered n (html, h)
       ∧ size (rendered n (html, h))
         = {| width := width (expandedSize n); height := (h + of_Z 20 + of_Z 20)%js |}
       ∧ expandedSize (rendered n (html, h)) = size (rendered n (html, h)))
  ∧ size closed = originalSize node
  ∧ interfaceVisible closed = false
  ∧ (size node = originalSize node → size closed = size node)
  ∧ size (toggleNodeInterface closed) = size shown
  ∧ (∀ i paperWidth paperHeight (paper : Paper num),
       size (getNode i paperWidth paperHeight paper)
       = originalSize (getNode i paperWidth paperHeight paper)).
Proof.
  intros Hclosed opened shown closed.
  assert (Hopened : interfaceVisible opened = true ∧ originalSize opened = originalSize node
                    ∧ size opened = expandedSize node ∧ expandedSize opened = size opened).
  { subst opened. unfold toggleNodeInterface. by rewrite Hclosed. }
  destruct Hopened as (Hv & Ho & Hsz & He).
  destruct (renders_frame renders opened) as [Hos Hvs]. fold shown in Hos, Hvs.
  assert (Hes : expandedSize shown = size shown).
  { subst shown. clear Hos Hvs closed.
    induction renders as [|r rs IH] using rev_ind; [done|].
    rewrite foldl_app. simpl. apply rendered_frame. }
  assert (Hc : size closed = originalSize node ∧ interfaceVisible closed = false
               ∧ expandedSize closed = expandedSize shown).
  { subst closed. unfold toggleNodeInterface. rewrite Hvs, Hv. simpl.
    by rewrite Hos, Ho. }
  destruct Hc as (Hcs & Hcv & Hce).
  split; [done|]. split; [done|]. split.
  { intros selector html h selects n d Hd. split; [|split; apply rendered_frame].
    unfold renderNodeInterface. rewrite Hd.
    by destruct (initializeNodeInterfaceSelects_Embedded _ _ _ _). }
  split; [done|]. split; [done|]. split; [congruence|]. split; [|done].
  unfold toggleNodeInterface at 1. rewrite Hcv. simpl. congruence.
Qed.

End ToggleFacts.

Lemma toggle_restores_original_size_witness :
  board.interfaceVisible sample.n1 = false
  ∧ board.size sample.n1 = board.originalSize sample.n1
  ∧ board.size
      (board.toggleNodeInterface
         (foldl board.rendered (board.toggleNodeInterface sample.n1)
            [("<form></form>", 180%float)]))
    = board.size sample.n1.
Proof.
  split; [reflexivity|]. split; [reflexivity|].
  exact (proj1 (proj2 (proj2 (proj2 (proj2 (proj2
    (toggle_restores_original_size sample.n1 [("<form></form>", 180%float)]
       eq_refl)))))) eq_refl).
Defined.

(** C6 fails as stated: the node n1 of [sample.late_render] is closed and,
    resized by the late render, 300 x 40; opened and closed it is 150 x 70,
    its [originalSize], not the size it had before. *)
Lemma toggle_twice_counterexample :
  board.element_by_id "cell-1"
    (board.graph (board.board_run sample.late_render (board.board_init sample.paper0)))
  = Some sample.n1_late
  ∧ board.interfaceVisible sample.n1_late = false
  ∧ board.size sample.n1_late = {| board.width := 300; board.height := 40 |}%float
  ∧ board.size (board.toggleNodeInterface (board.toggleNodeInterface sample.n1_late))
    = {| board.width := 150; board.height := 70 |}%float
  ∧ PrimFloat.eqb
      (board.width (board.size
         (board.toggleNodeInterface (board.toggleNodeInterface sample.n1_late))))
      (board.width (board.size sample.n1_late)) = false.
Proof. vm_compute. repeat split. Qed.

(* ================================================================== *)
(** * Further properties of the scripts *)

(** ** The event channel: several waits for one event *)

Section SocketSharing.
Import socket.

Lemma next_occurrence_app kind tr1 tr2 :
  arrived kind tr1 = false →
  next_occurrence kind (tr1 ++ tr2) = next_occurrence kind tr2.
Proof.
  unfold arrived. induction tr1 as [|a tr1 IH]; simpl; [done|].
  destruct a as [e v|e h|e|e v]; try done.
  destruct (String.eqb e kind); [done|]. apply IH.
Qed.

Lemma run_app tr1 tr2 s : run (tr1 ++ tr2) s = run tr2 (run tr1 s).
Proof. apply foldl_app. Qed.

(** The promise of a wait started in a state the channel can reach holds,
    after any trace, what the first arrival in the trace gives it. *)
Lemma wait_then_run s kind tr :
  fresh s →
  promises (run tr (waitForEvent kind s).2) !! (waitForEvent kind s).1
  = Some (expected kind tr).
Proof.
  intros Hs.
  apply (run_waiting tr (waitForEvent kind s).2 (length (promises s)) kind).
  - simpl. rewrite length_app. simpl. lia.
  - simpl. apply Forall_app. split; [by apply fresh_listens_once|].
    constructor; [done|constructor].
  - simpl. rewrite ntargets_app, fresh_ntargets by done.
    unfold ntargets, targets. simpl. by rewrite Nat.eqb_refl.
  - simpl. rewrite lookup_app_r by done. by rewrite Nat.sub_diag.
Qed.

(** X1. Two handlers wait for the same event, the second after anything
    that is not an arrival of that event.  The two futures are distinct,
    and after any [future] both hold the same thing: the payload of the
    first arrival of the event, each resolved exactly once; one response
    answers both waits, whichever request it was sent for. *)
Theorem waits_for_one_event_share_its_first_arrival
    (history between future : list Action) (kind : string) :
  arrived kind between = false →
  let '(p1, s1) := waitForEvent kind (run history init) in
  let '(p2, s2) := waitForEvent kind (run between s1) in
  p1 ≠ p2
  ∧ promises (run future s2) !! p1 = Some (expected kind future)
  ∧ promises (run future s2) !! p2 = Some (expected kind future)
  ∧ (∀ v rest, future = Incoming kind v :: rest →
       promises (run future s2) !! p1
         = Some {| state := Fulfilled v; resolve_calls := 1 |}
       ∧ promises (run future s2) !! p2
         = Some {| state := Fulfilled v; resolve_calls := 1 |}).
Proof.
  intros Hnone.
  assert (Hs : fresh (run history init)) by (apply fresh_run; constructor).
  revert Hs. generalize (run history init). intros s Hs.
  destruct (waitForEvent kind s) as [p1 s1] eqn:Hw1.
  assert (Hp1 : p1 = (waitForEvent kind s).1) by (by rewrite Hw1).
  assert (Hs1 : s1 = (waitForEvent kind s).2) by (by rewrite Hw1).
  assert (Hf1 : fresh s1).
  { rewrite Hs1. apply (fresh_step s (Wait kind) Hs). }
  assert (Hf2 : fresh (run between s1)) by (by apply fresh_run).
  destruct (waitForEvent kind (run between s1)) as [p2 s2] eqn:Hw2.
  assert (Hp2 : p2 = (waitForEvent kind (run between s1)).1) by (by rewrite Hw2).
  assert (Hs2 : s2 = (waitForEvent kind (run between s1)).2) by (by rewrite Hw2).
  assert (H1 : promises (run future s2) !! p1 = Some (expected kind future)).
  { replace (run future s2) with (run (between ++ Wait kind :: future) s1).
    - rewrite Hp1, Hs1, wait_then_run by done.
      unfold expected. rewrite next_occurrence_app by done. done.
    - rewrite run_app. simpl. by rewrite Hs2. }
  assert (H2 : promises (run future s2) !! p2 = Some (expected kind future)).
  { rewrite Hp2, Hs2. by apply wait_then_run. }
  split; [|split; [done|split; [done|]]].
  - rewrite Hp1, Hp2. simpl.
    assert (Hlen : length (promises s1) = S (length (promises s))).
    { rewrite Hs1. simpl. rewrite length_app. simpl. lia. }
    assert (Hmono : ∀ tr s', length (promises s') ≤ length (promises (run tr s'))).
    { induction tr as [|a tr IH]; intros s'; [done|].
      change (run (a :: tr) s') with (run tr (step s' a)).
      pose proof (step_length_mono s' a). specialize (IH (step s' a)). lia. }
    specialize (Hmono between s1). lia.
  - intros v rest ->. rewrite H1, H2. unfold expected. simpl.
    by rewrite String.eqb_refl.
Qed.

End SocketSharing.

(** The response to the first of two [agent_request]s settles both
    waits. *)
Lemma waits_for_one_event_share_its_first_arrival_witness :
  socket.arrived "agent" [socket.Emit "agent_request" (VObj [("id", VStr "b")])] = false
  ∧ (let '(p1, s1) :=
       socket.waitForEvent "agent"
         (socket.run [socket.Emit "agent_request" (VObj [("id", VStr "a")])] socket.init) in
     let '(p2, s2) :=
       socket.waitForEvent "agent"
         (socket.run [socket.Emit "agent_request" (VObj [("id", VStr "b")])] s1) in
     p1 ≠ p2
     ∧ socket.promises (socket.run [socket.Incoming "agent" (VStr "about a")] s2) !! p1
       = Some (socket.expected "agent" [socket.Incoming "agent" (VStr "about a")])
     ∧ socket.promises (socket.run [socket.Incoming "agent" (VStr "about a")] s2) !! p2
       = Some (socket.expected "agent" [socket.Incoming "agent" (VStr "about a")])).
Proof.
  split; [reflexivity|].
  pose proof (waits_for_one_event_share_its_first_arrival
                [socket.Emit "agent_request" (VObj [("id", VStr "a")])]
                [socket.Emit "agent_request" (VObj [("id", VStr "b")])]
                [socket.Incoming "agent" (VStr "about a")] "agent" eq_refl) as Hw.
  simpl in Hw. simpl.
  exact (conj (proj1 Hw) (conj (proj1 (proj2 Hw)) (proj1 (proj2 (proj2 Hw))))).
Defined.

(** ** Requests and the responses waited for *)

Section PairingFacts.
Context {num : Type} `{JsNumber num}.
Import board canvas.

Lemma paired_app_aux (b : list (Effect num)) : paired b = true →
  ∀ a, (paired a = true → paired (a ++ b) = true)
     ∧ (∀ x, paired (x :: a) = true → paired (x :: a ++ b) = true).
Proof.
  intros Hb. induction a as [|y a [IH1 IH2]].
  - split; [done|]. intros [r|ev k|l t d]; simpl; done.
  - split; [apply IH2|].
    intros [r|ev k|l t d] Hx; [| |].
    + destruct y as [r'|ev k|l' t' d']; try done.
      simpl in Hx |- *. apply andb_true_iff in Hx as [-> Ha]. simpl. by apply IH1.
    + done.
    + by apply IH2.
Qed.

Lemma paired_app (a b : list (Effect num)) :
  paired a = true → paired b = true → paired (a ++ b) = true.
Proof. intros Ha Hb. by apply (paired_app_aux b Hb a). Qed.

Lemma paired_concat (ls : list (list (Effect num))) :
  Forall (λ l, paired l = true) ls → paired (concat ls) = true.
Proof.
  induction 1 as [|l ls Hl _ IH]; [done|]. simpl. by apply paired_app.
Qed.

Lemma paired_saveNode selector (a : SaveNode num) : paired (saveNode selector a) = true.
Proof. unfold saveNode. by destruct (truthy_id _). Qed.

Lemma paired_fetchNodeData selector nodeId callback :
  paired (fetchNodeData (num:=num) selector nodeId callback) = true.
Proof. unfold fetchNodeData. by destruct (truthy_id _). Qed.

Lemma paired_initialize_select w n input sel :
  paired (initialize_select (num:=num) w n input sel).2 = true.
Proof.
  unfold initialize_select.
  destruct (truthy_id (sel_options_source sel)); [|by destruct (sel_select2 sel)].
  by destruct (truthy_id w), (truthy_id n).
Qed.

Lemma paired_initialize_selects w n input sels :
  paired (initializeNodeInterfaceSelects_Embedded (num:=num) w n input sels).2 = true.
Proof.
  unfold initializeNodeInterfaceSelects_Embedded. simpl.
  apply paired_concat, Forall_map, Forall_forall. intros sel _.
  apply paired_initialize_select.
Qed.

Lemma paired_renderNodeInterface selector html view (node : Element num) data :
  paired (renderNodeInterface selector html view node data).2 = true.
Proof.
  unfold renderNodeInterface. destruct data as [d|]; [|done].
  destruct (truthy (nd_error d)); [done|].
  destruct view as [| |h sels]; try done.
  pose proof (paired_initialize_selects selector (Some (display_id node))
                (default ∅ (nd_static_input d)) sels) as Hp.
  by destruct (initializeNodeInterfaceSelects_Embedded _ _ _ _).
Qed.

(** X2. Whatever a handler of the canvas is called with, each request it
    sends is followed at once by the wait for the event that answers that
    request (the event named as the request without its [_request]), and
    it waits for nothing it has not asked for: creating a link, deleting
    and saving a node, fetching its record, saving and showing its
    interface, filling its selects, and the callbacks of the responses. *)
Theorem canvas_handlers_wait_for_what_they_request :
  (∀ w (m : Menu num), paired (create_link_click w m).2 = true)
  ∧ (∀ w n, paired (deleteNode (num:=num) w n) = true)
  ∧ (∀ w (m : Menu num) g, paired (delete_node_click w m g).2 = true)
  ∧ (∀ selector (a : SaveNode num), paired (saveNode selector a) = true)
  ∧ (∀ selector nodeId callback,
       paired (fetchNodeData (num:=num) selector nodeId callback) = true)
  ∧ (∀ selector nodeId (g : Graph num),
       paired (handleSaveEmbeddedInterface selector nodeId g) = true)
  ∧ (∀ selector form (node : Element num) data,
       paired (save_callback selector form node data) = true)
  ∧ (∀ w n input sels,
       paired (initializeNodeInterfaceSelects_Embedded (num:=num) w n input sels).2 = true)
  ∧ (∀ selector html view nodeId data (g : Graph num),
       paired (node_content_render selector html view nodeId data g).2 = true)
  ∧ (∀ selector i (g : Graph num), paired (eye_button selector i g).2 = true)
  ∧ (∀ selector (node : Element num) is_new response g,
       paired (node_save_response selector node is_new response g).2 = true)
  ∧ (∀ (s t : Element num) response g, paired (link_create_response s t response g).2 = true)
  ∧ (∀ response, paired (node_delete_response (num:=num) response) = true)
  ∧ (∀ selector (node : Element num) name type subtype,
       paired (add_node_callback selector node name type subtype) = true)
  ∧ (∀ selector label content (ed : CodeEditor num),
       paired (code_save_click selector label content ed) = true).
Proof.
  repeat split.
  - intros w m. unfold create_link_click.
    destruct (selected_node m) as [e|]; [|done].
    destruct (includes _ _); [done|].
    destruct (selectedElements m ++ [e]) as [|a [|b [|c l]]]; try done.
    simpl. by destruct (truthy_id w).
  - intros w n. unfold deleteNode. by destruct (truthy_id w).
  - intros w m g. unfold delete_node_click.
    destruct (selected_node m); [|done]. simpl. unfold deleteNode.
    by destruct (truthy_id w).
  - apply paired_saveNode.
  - apply paired_fetchNodeData.
  - intros selector nodeId g. unfold handleSaveEmbeddedInterface.
    destruct (by_customId _ _); [apply paired_fetchNodeData|done].
  - intros selector form node data. unfold save_callback.
    destruct data as [d|]; [|done]. destruct (truthy (nd_error d)); [done|].
    unfold saveNodeInterface_Embedded.
    destruct (nd_interface d), form; try done; apply paired_saveNode.
  - apply paired_initialize_selects.
  - intros selector html view nodeId data g. unfold node_content_render.
    destruct (by_customId _ _) as [node|]; [|done].
    pose proof (paired_renderNodeInterface selector html view node data) as Hp.
    by destruct (renderNodeInterface _ _ _ _ _) as [[node' sels] es].
  - intros selector i g. unfold eye_button.
    destruct (element_by_id i g) as [node|]; [|done].
    destruct (interfaceVisible (toggleNodeInterface node)); [|done].
    destruct (truthy_id (customId node)); [apply paired_fetchNodeData|done].
  - intros selector node is_new response g. unfold node_save_response.
    destruct (message_is_success response) as [[|]|]; try done.
    destruct is_new; [|done]. simpl. by destruct (truthy_id selector).
  - intros s t response g. unfold link_create_response.
    destruct (message_is_success response) as [[|]|]; try done.
    by destruct (getLink g s t).
  - intros response. unfold node_delete_response.
    by destruct (message_is_success response) as [[|]|].
  - intros selector node name type subtype. unfold add_node_callback.
    destruct (truthy_id name), (truthy_id type); try done. apply paired_saveNode.
  - intros selector label content ed. unfold code_save_click.
    apply paired_concat, Forall_forall. intros l Hl.
    apply elem_of_replicate in Hl as [-> _].
    unfold code_save_handler. destruct (currentEditingNode ed); [|done].
    apply paired_saveNode.
Qed.

End PairingFacts.

(** ** Panning *)

Section PanFacts.
Context {num : Type} `{JsNumber num}.
Import board canvas.

Lemma mousemoves_panning (p : Pan num) o (paper : Paper num) moves last :
  isPanning p = true → paperOrigin p = Some o →
  mousemoves p paper (moves ++ [last])
  = {| sx := sx (mousemoves p paper moves); sy := sy (mousemoves p paper moves);
       tx := (px o + (last.1 - px (startPoint p)))%js;
       ty := (py o + (last.2 - py (startPoint p)))%js |}.
Proof.
  intros Hp Ho. unfold mousemoves. rewrite foldl_app. simpl.
  unfold mousemove at 1. by rewrite Hp, Ho.
Qed.

Lemma mousemoves_scale (p : Pan num) (paper : Paper num) moves :
  sx (mousemoves p paper moves) = sx paper ∧ sy (mousemoves p paper moves) = sy paper.
Proof.
  revert paper. induction moves as [|m moves IH]; intros paper; [done|].
  change (mousemoves p paper (m :: moves))
    with (mousemoves p (mousemove m.1 m.2 p paper) moves).
  destruct (IH (mousemove m.1 m.2 p paper)) as [-> ->].
  unfold mousemove. destruct (isPanning p); [|done]. by destruct (paperOrigin p).
Qed.

(** X3. A press on the blank canvas starts a pan.  After any pointer
    moves, the last of them at page point [last], the paper is translated
    by its translation at the press plus [last - press], whatever path the
    pointer took, and its scale is what it was.  Once the button is
    released the moves do nothing; a press on a cell starts no pan. *)
Theorem pan_follows_the_pointer (pageX pageY : num) (paper : Paper num) (p : Pan num)
    (moves : list (num * num)) (last : num * num) :
  let p1 := mousedown true pageX pageY paper p in
  mousemoves p1 paper (moves ++ [last])
  = {| sx := sx paper; sy := sy paper;
       tx := (tx paper + (last.1 - pageX))%js;
       ty := (ty paper + (last.2 - pageY))%js |}
  ∧ (∀ paper' ms, mousemoves (mouseup p1) paper' ms = paper')
  ∧ (∀ paper' ms, isPanning p = false →
       mousemoves (mousedown false pageX pageY paper p) paper' ms = paper').
Proof.
  intros p1. split; [|split].
  - rewrite (mousemoves_panning p1 {| px := tx paper; py := ty paper |}) by done.
    by destruct (mousemoves_scale p1 paper moves) as [-> ->].
  - intros paper' ms. induction ms as [|m ms IH]; [done|]. exact IH.
  - intros paper' ms Hp. simpl.
    induction ms as [|m ms IH]; [done|].
    change (mousemoves p paper' (m :: ms))
      with (mousemoves p (mousemove m.1 m.2 p paper') ms).
    unfold mousemove at 1. by rewrite Hp.
Qed.

End PanFacts.

(** ** The context menu *)

Section ContextMenuFacts.
Context {num : Type} `{JsNumber num}.
Import board canvas.

(** X4. Which entries the context menu shows depends only on what was
    clicked, not on what it showed before.  Every entry it shows passes
    the test its click handler makes on the selected element, and an entry
    whose handler makes such a test is shown exactly when the test
    passes: on a node, on a link, on a window, on a note and on the blank
    canvas alike. *)
Theorem context_menu_shows_what_its_handlers_accept (c : Cell num) (m : Menu num)
    (v v' : Items) (i : Item) :
  cell_items c v i = cell_items c v' i
  ∧ blank_items v i = blank_items v' i
  ∧ (cell_items c v i = true → item_enabled i (cell_contextmenu c m) = true)
  ∧ (guarded i = true → cell_items c v i = item_enabled i (cell_contextmenu c m))
  ∧ blank_items v i = item_enabled i (blank_contextmenu m)
  ∧ blank_items v i = negb (guarded i).
Proof.
  destruct c as [e|l]; [destruct e as [ie se ce pe sze ose ese ive fde fwe fhe fme];
                        destruct se|];
    destruct i; repeat split; try done.
Qed.

End ContextMenuFacts.

(** ** New and loaded nodes: the pencil button *)

Section PencilFacts.
Import canvas.

Lemma eqb_cases (t : string) :
  t = "trigger" ∨ t = "resource" ∨ t = "action" ∨ t = "generator" ∨ t = "custom"
  ∨ (String.eqb t "trigger" = false ∧ String.eqb t "resource" = false
     ∧ String.eqb t "action" = false ∧ String.eqb t "generator" = false
     ∧ String.eqb t "custom" = false).
Proof.
  destruct (String.eqb_spec t "trigger"); [tauto|].
  destruct (String.eqb_spec t "resource"); [tauto|].
  destruct (String.eqb_spec t "action"); [tauto|].
  destruct (String.eqb_spec t "generator"); [tauto|].
  destruct (String.eqb_spec t "custom"); tauto.
Qed.

(** X5. The pencil button of a node survives a reload of the workflow
    exactly for the five types the dialog knows: for [trigger], [resource],
    [action], [generator] and [custom] the button is displayed after
    [fetchWorkflowData] as it was when the node was added (on [custom] and
    [trigger] nodes only); a node of any other type is added without the
    button, gets the fill of a custom node, and shows the button after a
    reload. *)
Theorem pencil_button_after_reload (type : string) :
  (pencil_when_loaded (fillColor type) = pencil_when_added type ↔ In type node_types)
  ∧ (¬ In type node_types →
       fillColor type = "lightgray"
       ∧ pencil_when_added type = false
       ∧ pencil_when_loaded (fillColor type) = true)
  ∧ (pencil_when_added type = true ↔ type = "custom" ∨ type = "trigger").
Proof.
  unfold node_types, pencil_when_added, pencil_when_loaded, fillColor.
  destruct (eqb_cases type) as [->|[->|[->|[->|[->|(H1 & H2 & H3 & H4 & H5)]]]]].
  1-5: split; [split; [intros _; simpl; naive_solver|reflexivity]|];
       (split; [intros Hn; exfalso; apply Hn; simpl; naive_solver|]);
       simpl; (split; [first [by left | by right | done]|]);
       first [reflexivity | by intros [?|?]].
  rewrite H1, H2, H3, H4, H5. simpl.
  assert (Hn : ¬ In type ["trigger"; "resource"; "action"; "generator"; "custom"]).
  { intros [<-|[<-|[<-|[<-|[<-|[]]]]]]; done. }
  split; [split; [done|intros Hi; destruct (Hn Hi)]|]. split; [done|].
  split; [done|]. intros [->| ->]; done.
Qed.

End PencilFacts.

(** ** The code editor *)

Section EditorFacts.
Context {num : Type} `{JsNumber num}.
Import board canvas.

Lemma opened_snoc selector (nodes : list (Element num)) node :
  opened selector (nodes ++ [node])
  = {| save_handlers := S (save_handlers (opened selector nodes));
       currentEditingNode := Some node |}.
Proof. unfold opened. by rewrite foldl_app. Qed.

Lemma opened_handlers selector (nodes : list (Element num)) :
  save_handlers (opened selector nodes) = length nodes.
Proof.
  induction nodes as [|node nodes IH] using rev_ind; [done|].
  rewrite opened_snoc, length_app. simpl. rewrite IH. lia.
Qed.

Lemma emits_concat_replicate n (es : list (Effect num)) :
  List.filter is_emit (concat (replicate n es)) = concat (replicate n (List.filter is_emit es)).
Proof.
  induction n as [|n IH]; [done|]. simpl. by rewrite List.filter_app, IH.
Qed.

(** X6. Every opening of the code editor registers one more click handler
    on its save button and none is ever removed.  After the pencil buttons
    of [nodes] and then of [node] were clicked, one click on the save
    button sends as many [NODE_SAVE_REQUEST]s as the editor was opened, all
    of them for [node], the node opened last, with its [customId] and the
    text of the editor; an empty text sends no [code] field.  With no
    workflow selected it sends none. *)
Theorem code_save_sends_one_request_per_opening (selector : option string)
    (nodes : list (Element num)) (node : Element num) (label content : string) :
  let ed := opened selector (nodes ++ [node]) in
  save_handlers ed = S (length nodes)
  ∧ currentEditingNode ed = Some node
  ∧ List.filter is_emit (code_save_click selector label content ed)
    = match truthy_id selector with
      | Some w =>
          replicate (S (length nodes))
            (Emit (NODE_SAVE_REQUEST
               {| ns_workflow_id := w; ns_name := VStr label; ns_interface := None;
                  ns_node_type := None; ns_node_subtype := None; ns_handler := None;
                  ns_code := if String.eqb content "" then None else Some content;
                  ns_static_input := None;
                  ns_id := Some (customId node) |}))
      | None => []
      end.
Proof.
  intros ed. subst ed. rewrite opened_snoc.
  split; [simpl; by rewrite opened_handlers|]. split; [done|].
  unfold code_save_click. cbn [save_handlers]. rewrite opened_handlers.
  rewrite emits_concat_replicate.
  generalize (S (length nodes)). intros n.
  unfold code_save_handler, saveNode. cbn [currentEditingNode sn_workflow_id].
  destruct (truthy_id selector) as [w|] eqn:Hsel.
  - simpl. rewrite Hsel. simpl. induction n as [|n IH]; [done|]. simpl. by rewrite IH.
  - simpl. rewrite Hsel. simpl. induction n as [|n IH]; [done|]. simpl. exact IH.
Qed.

End EditorFacts.

(** ** The workflow selector *)

Section WorkflowFacts.
Import workflows.

Lemma listed_In i ws : listed i ws = true → In i (map wf_id ws).
Proof.
  unfold listed. intros (wf & Hin & Heq)%existsb_exists.
  apply String.eqb_eq in Heq as <-. by apply in_map.
Qed.

Lemma listed_head wf ws : listed (wf_id wf) (wf :: ws) = true.
Proof. unfold listed. simpl. by rewrite String.eqb_refl. Qed.

Lemma options_updateWorkflowSelector ws sel : options (updateWorkflowSelector ws sel) = ws.
Proof.
  unfold updateWorkflowSelector. destruct (truthy_id (selected sel)) as [c|]; [|done].
  by destruct (listed c ws).
Qed.

(** X7. When the list of workflows arrives and is not empty, the selector
    is refilled with exactly the listed workflows and ends on one of them:
    the workflow that was selected when the list was asked for if it is
    still listed, the first of the list otherwise; the record of that one
    is then requested, and of no other.  When the list is empty the
    selector is left as it is and a workflow named Default is created,
    after which the list is asked for again. *)
Theorem workflow_list_selects_a_listed_workflow (currentWorkflowId : option string)
    (ws : list Workflow) (sel : Selector) :
  let '(sel', effects) := list_response currentWorkflowId ws sel in
  match ws with
  | [] =>
      sel' = sel
      ∧ sent effects = [WORKFLOW_SAVE_REQUEST "Default"]
      ∧ (∀ response, board.message_is_success response = Some true →
           sent (saved_empty_response response sel') = [WORKFLOW_LIST_REQUEST])
  | first :: _ =>
      let chosen :=
        match truthy_id currentWorkflowId with
        | Some c => if listed c ws then c else wf_id first
        | None => wf_id first
        end in
      options sel' = ws
      ∧ selected sel' = Some chosen
      ∧ In chosen (map wf_id ws)
      ∧ sent effects = (if String.eqb chosen "" then [] else [WORKFLOW_REQUEST chosen])
  end.
Proof.
  destruct ws as [|first rest]; simpl.
  - split; [done|]. split; [done|]. intros response Hr.
    unfold saved_empty_response. by rewrite Hr.
  - set (ws := first :: rest).
    set (chosen := match truthy_id currentWorkflowId with
                   | Some c =>
                       if String.eqb (wf_id first) c || listed c rest then c else wf_id first
                   | None => wf_id first
                   end).
    assert (Hl : listed chosen ws = true).
    { subst chosen. destruct (truthy_id currentWorkflowId) as [c|]; [|apply listed_head].
      change (String.eqb (wf_id first) c || listed c rest) with (listed c ws).
      destruct (listed c ws) eqn:Hc; [done|apply listed_head]. }
    unfold val_set. rewrite options_updateWorkflowSelector, Hl.
    split; [done|]. split; [done|].
    split; [exact (listed_In chosen ws Hl)|].
    unfold change, truthy_id. simpl. by destruct (String.eqb chosen "").
Qed.

(** X8. After a workflow was added, the selector does not end on it.  The
    callback of the save response asks for the list with the old selection
    in hand, then selects the new id, which the selector does not list
    yet: nothing is selected and no record is requested.  When the list
    arrives with the old workflow still in it, the selector goes back to
    the old workflow and requests its record. *)
Theorem added_workflow_is_not_selected (response : JsVal) (sel : Selector)
    (old new : string) (ws : list Workflow) :
  board.message_is_success response = Some true →
  get_prop response "id" = Some (VStr new) →
  selected sel = Some old →
  old ≠ "" →
  listed new (options sel) = false →
  listed old ws = true →
  let '(sel1, effects1) := added_response response sel in
  selected sel1 = None
  ∧ sent effects1 = [WORKFLOW_LIST_REQUEST]
  ∧ In (Await "workflow_list" (KList (Some old))) effects1
  ∧ (let '(sel2, effects2) := list_response (Some old) ws sel1 in
     selected sel2 = Some old
     ∧ options sel2 = ws
     ∧ sent effects2 = [WORKFLOW_REQUEST old]).
Proof.
  intros Hr Hid Hsel Hold Hnew Hws.
  unfold added_response. rewrite Hr. unfold response_id. rewrite Hid.
  unfold val_set at 1 2. rewrite Hnew. simpl.
  split; [done|]. split; [done|]. split; [right; left; by rewrite Hsel|].
  destruct ws as [|first rest]; [done|].
  unfold list_response.
  assert (Ht : truthy_id (Some old) = Some old).
  { simpl. destruct (String.eqb_spec old ""); done. }
  rewrite Ht, Hws. unfold val_set. rewrite options_updateWorkflowSelector, Hws.
  simpl. split; [done|]. split; [done|].
  unfold change. simpl. destruct (String.eqb_spec old ""); done.
Qed.

End WorkflowFacts.

Lemma added_workflow_is_not_selected_witness :
  board.message_is_success (VObj [("message", VStr "success"); ("id", VStr "w2")])
  = Some true
  ∧ (let '(sel1, effects1) :=
       workflows.added_response (VObj [("message", VStr "success"); ("id", VStr "w2")])
         {| workflows.options := [{| workflows.wf_id := "w1"; workflows.wf_name := "one" |}];
            workflows.selected := Some "w1" |} in
     workflows.selected sel1 = None
     ∧ workflows.sent effects1 = [workflows.WORKFLOW_LIST_REQUEST]
     ∧ In (workflows.Await "workflow_list" (workflows.KList (Some "w1"))) effects1
     ∧ (let '(sel2, effects2) :=
          workflows.list_response (Some "w1")
            [{| workflows.wf_id := "w1"; workflows.wf_name := "one" |};
             {| workflows.wf_id := "w2"; workflows.wf_name := "two" |}] sel1 in
        workflows.selected sel2 = Some "w1"
        ∧ workflows.options sel2
          = [{| workflows.wf_id := "w1"; workflows.wf_name := "one" |};
             {| workflows.wf_id := "w2"; workflows.wf_name := "two" |}]
        ∧ workflows.sent effects2 = [workflows.WORKFLOW_REQUEST "w1"])).
Proof.
  split; [reflexivity|].
  refine (added_workflow_is_not_selected
            (VObj [("message", VStr "success"); ("id", VStr "w2")])
            {| workflows.options := [{| workflows.wf_id := "w1"; workflows.wf_name := "one" |}];
               workflows.selected := Some "w1" |}
            "w1" "w2"
            [{| workflows.wf_id := "w1"; workflows.wf_name := "one" |};
             {| workflows.wf_id := "w2"; workflows.wf_name := "two" |}]
            eq_refl eq_refl eq_refl _ eq_refl eq_refl).
  discriminate.
Defined.

(** ** The side panels *)

Section PanelFacts.
Import panels.

Lemma hidden_others (m : string) (ms : list string) : ∀ shown : Shown,
  foldl (λ acc menu, if String.eqb menu m then acc else addClass_hidden menu acc) shown ms
  = shown ∖ (list_to_set ms ∖ {[ m ]}).
Proof.
  induction ms as [|x ms IH]; intros shown; simpl.
  - set_solver.
  - rewrite IH. unfold addClass_hidden.
    destruct (String.eqb_spec x m) as [->|Hne]; set_solver.
Qed.

Lemma hidden_all (ms : list string) : ∀ shown : Shown,
  foldl (λ acc menu, addClass_hidden menu acc) shown ms = shown ∖ list_to_set ms.
Proof.
  induction ms as [|x ms IH]; intros shown; simpl.
  - set_solver.
  - rewrite IH. unfold addClass_hidden. set_solver.
Qed.

Lemma elem_of_toggleMenu (x m : string) (shown : Shown) :
  x ∈ toggleMenu m shown ↔ (x = m ∧ m ∉ shown) ∨ (x ≠ m ∧ x ∈ shown ∧ ¬ In x menus).
Proof.
  unfold toggleMenu. rewrite hidden_others. unfold toggleClass_hidden.
  generalize menus. intros ms.
  assert (Hms : In x ms ↔ x ∈ (list_to_set ms : gset string)).
  { by rewrite elem_of_list_to_set, list_elem_of_In. }
  rewrite Hms. destruct (decide (x = m)) as [->|Hne]; case_decide; set_solver.
Qed.

(** X9. After [toggleMenu m] no panel of the list other than [m] is open,
    whatever was open before, and [m] is open exactly if it was closed: at
    most one panel is open at any time, a second click on the same button
    puts its panel back as it was, and [hideMenus] closes them all.
    Elements that are not panels are left alone. *)
Theorem toggleMenu_leaves_at_most_one_panel_open (m : string) (shown : Shown) :
  (∀ x, x ∈ toggleMenu m shown → In x menus → x = m)
  ∧ (m ∈ toggleMenu m shown ↔ m ∉ shown)
  ∧ (∀ x, x ≠ m → ¬ In x menus → (x ∈ toggleMenu m shown ↔ x ∈ shown))
  ∧ (m ∈ toggleMenu m (toggleMenu m shown) ↔ m ∈ shown)
  ∧ (∀ x, In x menus → x ∉ hideMenus shown).
Proof.
  assert (Hin : ∀ x s, x ∈ toggleMenu m s ↔ (x = m ∧ m ∉ s) ∨ (x ≠ m ∧ x ∈ s ∧ ¬ In x menus)).
  { intros x s. apply elem_of_toggleMenu. }
  split; [|split; [|split; [|split]]].
  - intros x Hx Hm. apply Hin in Hx. tauto.
  - rewrite Hin. naive_solver.
  - intros x Hne Hm. rewrite Hin. tauto.
  - rewrite !Hin. destruct (decide (m ∈ shown)); naive_solver.
  - intros x Hm. unfold hideMenus. rewrite hidden_all.
    rewrite elem_of_difference, elem_of_list_to_set, list_elem_of_In. tauto.
Qed.


End PanelFacts.

(** ** The list of agents *)

Section RosterFacts.
Import agents roster.

Lemma exclusive_step (it : AgentItem) (o : Outcome) (b : bool) :
  button_on it = b → button_off it = negb b →
  button_on (item_step it o)
  = match o with
    | StartResponse r => if reports_success r then true else b
    | StopResponse r => if reports_success r then false else b
    end
  ∧ button_off (item_step it o) = negb (button_on (item_step it o))
  ∧ agent_id (item_step it o) = agent_id it.
Proof.
  intros Hon Hoff. unfold item_step, start_response, stop_response, reports_success,
    board.message_is_success.
  destruct o as [r|r]; destruct (get_prop r "message") as [m|]; simpl;
    try destruct (strict_eq_str m "success"); simpl; rewrite ?Hon, ?Hoff; done.
Qed.

(** X11. An agent is put on the list with exactly one of its two icons
    displayed, the on-icon if the engine reports it started.  Through any
    sequence of start and stop responses the item receives, exactly one
    icon stays displayed, and it is the on-icon exactly when the last
    response that reported success was a start (or, if none did, when the
    agent was started to begin with): a response that reports a failure,
    or is no object at all, changes nothing. *)
Theorem agent_item_shows_one_icon (i name : string) (response : JsVal) (is_started : JsVal)
    (items : list AgentItem) (os : list Outcome) :
  get_prop response "is_started" = Some is_started →
  ∃ it,
    add_response i name response items = items ++ [it]
    ∧ agent_id it = i
    ∧ button_on it = truthy is_started
    ∧ button_off it = negb (truthy is_started)
    ∧ button_on (foldl item_step it os) = running (truthy is_started) os
    ∧ button_off (foldl item_step it os) = negb (running (truthy is_started) os)
    ∧ agent_id (foldl item_step it os) = i.
Proof.
  intros Hs. unfold add_response. rewrite Hs.
  eexists. split; [reflexivity|].
  set (it := if truthy is_started then _ else _).
  assert (H0 : agent_id it = i ∧ button_on it = truthy is_started
               ∧ button_off it = negb (truthy is_started)).
  { subst it. by destruct (truthy is_started). }
  destruct H0 as (Hid & Hon & Hoff).
  split; [done|]. split; [done|]. split; [done|].
  clearbody it. revert it Hid Hon Hoff. generalize (truthy is_started) as b.
  induction os as [|o os IH]; intros b it Hid Hon Hoff; [done|].
  simpl. destruct (exclusive_step it o b Hon Hoff) as (Hon' & Hoff' & Hid').
  unfold running. simpl.
  apply IH; [congruence|exact Hon'|].
  rewrite Hoff'. by rewrite Hon'.
Qed.

(** X12. With no agent chosen in the editor, fetching, importing,
    editing, deleting and exporting variables send nothing and warn.
    Adding a variable makes no such test: given a name and a type it sends
    its request with the chosen agent as it is, [null] included. *)
Theorem variable_actions_without_an_agent (chosenAgentId : JsVal)
    (parsed : JsVal) (n v t : string) :
  truthy chosenAgentId = false →
  n ≠ "" → t ≠ "" →
  agents.sent (fetchAgentVariables chosenAgentId) = []
  ∧ agents.sent (importVariables_onload chosenAgentId (Some parsed)) = []
  ∧ agents.sent (editVariable_callback chosenAgentId n v) = []
  ∧ agents.sent (deleteVariable chosenAgentId n) = []
  ∧ sent (exportVariables chosenAgentId) = []
  ∧ sent (edit_click chosenAgentId n) = []
  ∧ toasts (exportVariables chosenAgentId) = [warning]
  ∧ toasts (edit_click chosenAgentId n) = [warning]
  ∧ sent (addNewVariable_callback chosenAgentId (Some n) (Some t))
    = [(AGENT_NEW_VAR_REQUEST,
        VObj [("id", chosenAgentId); ("var_name", VStr n); ("var_type", VStr t)])]
  ∧ toasts (addNewVariable_callback chosenAgentId (Some n) (Some t)) = [].
Proof.
  intros Hc Hn Ht.
  unfold fetchAgentVariables, importVariables_onload, editVariable_callback,
    deleteVariable, exportVariables, edit_click, addNewVariable_callback.
  rewrite Hc. simpl.
  destruct (String.eqb_spec n ""); [done|]. destruct (String.eqb_spec t ""); [done|].
  repeat split.
Qed.

End RosterFacts.

Lemma agent_item_shows_one_icon_witness :
  get_prop (VObj [("is_started", VBool false)]) "is_started" = Some (VBool false)
  ∧ ∃ it,
      roster.add_response "a1" "helper" (VObj [("is_started", VBool false)]) [] = [it]
      ∧ roster.button_on
          (foldl roster.item_step it
             [roster.StartResponse (VObj [("message", VStr "success")]);
              roster.StopResponse (VObj [("message", VStr "error")])])
        = true
      ∧ roster.button_off
          (foldl roster.item_step it
             [roster.StartResponse (VObj [("message", VStr "success")]);
              roster.StopResponse (VObj [("message", VStr "error")])])
        = false.
Proof.
  split; [reflexivity|].
  destruct (agent_item_shows_one_icon "a1" "helper" (VObj [("is_started", VBool false)])
              (VBool false) []
              [roster.StartResponse (VObj [("message", VStr "success")]);
               roster.StopResponse (VObj [("message", VStr "error")])] eq_refl)
    as (it & Hadd & _ & _ & _ & Hon & Hoff & _).
  exists it. split; [exact Hadd|]. split; [exact Hon|exact Hoff].
Defined.

Lemma variable_actions_without_an_agent_witness :
  truthy VNull = false
  ∧ roster.sent (roster.addNewVariable_callback VNull (Some "mood") (Some "str"))
    = [(agents.AGENT_NEW_VAR_REQUEST,
        VObj [("id", VNull); ("var_name", VStr "mood"); ("var_type", VStr "str")])]
  ∧ agents.sent (agents.deleteVariable VNull "mood") = [].
Proof.
  split; [reflexivity|].
  pose proof (variable_actions_without_an_agent VNull (VObj []) "mood" "" "str" eq_refl
                ltac:(discriminate) ltac:(discriminate)) as Hw.
  split; [exact (proj1 (proj2 (proj2 (proj2 (proj2 (proj2 (proj2 (proj2 (proj2 Hw)))))))))|].
  exact (proj1 (proj2 (proj2 (proj2 Hw)))).
Defined.

(** ** Resizing and dragging single elements *)

Section GestureFacts.
Context {num : Type} `{JsNumber num}.
Import board canvas.

Implicit Types (g : Graph num) (e w : Element num) (d : Drag num) (i j : string).

(** One pointer-move of a resize: the element gets the new size and the
    position it had at pointer-down; nothing else changes. *)
Lemma pointermove_resizing g e ek (evt : Pointer num) d p0 s0 :
  element_by_id (id e) g = Some ek →
  (∀ a b, resize a b ek = resize a b e) →
  resizable e = true →
  isResizing d = true →
  resizeStartPosition d = Some p0 → resizeStartSize d = Some s0 →
  resizeStartElementPosition d = Some (position e) →
  let a := nmax (of_Z 50) (width s0 + (clientX evt - px p0))%js in
  let b := nmax (of_Z 50) (height s0 + (clientY evt - py p0))%js in
  element_by_id (id e) (pointermove (id e) evt d g) = Some (resize a b e)
  ∧ (∀ i, i ≠ id e →
       element_by_id i (pointermove (id e) evt d g) = element_by_id i g)
  ∧ links (pointermove (id e) evt d g) = links g.
Proof.
  intros Hek Hsame Hres Hr Hp0 Hs0 He0 a b.
  assert (Hshape : resizable ek = true).
  { pose proof (f_equal shape (Hsame (of_Z 0) (of_Z 0))) as Hs. simpl in Hs.
    unfold resizable in *. by rewrite Hs. }
  unfold pointermove. rewrite Hek, Hr, Hshape, Hp0, Hs0, He0. simpl.
  fold a b. split; [|split; [|done]].
  - rewrite !element_by_id_update_eq by done. rewrite Hek. simpl.
    by rewrite Hsame.
  - intros i Hi. by rewrite !element_by_id_update_ne.
Qed.

(** X13. A pointer-down on the resize handle of a window or a note starts
    a resize.  After any pointer-moves, the last of them at client point
    [last], the element is what it was but for its size, which is the size
    at pointer-down plus [last - down], each side at least [Math.max(50,
    ...)]: its top-left corner has not moved, whatever path the pointer
    took.  No other element and no link changes.  Where [50 <= max 50 x],
    as for every number that is not NaN, neither side is below 50. *)
Theorem resize_keeps_the_corner g e (down : Pointer num) d0
    (moves : list (Pointer num)) (last : Pointer num) :
  element_by_id (id e) g = Some e →
  resizable e = true →
  on_resize_handle (localX down) (localY down) e = true →
  let d1 := pointerdown (id e) down g d0 in
  let g' := pointermoves (id e) d1 g (moves ++ [last]) in
  let a := nmax (of_Z 50) (width (size e) + (clientX last - clientX down))%js in
  let b := nmax (of_Z 50) (height (size e) + (clientY last - clientY down))%js in
  element_by_id (id e) g' = Some (resize a b e)
  ∧ position_of (id e) g' = Some (position e)
  ∧ (∀ i, i ≠ id e → element_by_id i g' = element_by_id i g)
  ∧ links g' = links g
  ∧ ((∀ x : num, (of_Z 50 <=? nmax (of_Z 50) x)%js = true) →
       ∃ e', element_by_id (id e) g' = Some e'
         ∧ (of_Z 50 <=? width (size e'))%js = true
         ∧ (of_Z 50 <=? height (size e'))%js = true).
Proof.
  intros He Hres Hh d1 g' a b.
  assert (Hd1 : isResizing d1 = true
                ∧ resizeStartPosition d1 = Some {| px := clientX down; py := clientY down |}
                ∧ resizeStartSize d1 = Some {| width := width (size e); height := height (size e) |}
                ∧ resizeStartElementPosition d1 = Some (position e)).
  { subst d1. unfold pointerdown. rewrite He, Hres, Hh. simpl.
    repeat split. by destruct (position e). }
  destruct Hd1 as (Hr & Hp0 & Hs0 & He0).
  assert (Hinv : ∃ ek, element_by_id (id e) (pointermoves (id e) d1 g moves) = Some ek
                   ∧ (∀ x y, resize x y ek = resize x y e)
                   ∧ (∀ i, i ≠ id e →
                        element_by_id i (pointermoves (id e) d1 g moves) = element_by_id i g)
                   ∧ links (pointermoves (id e) d1 g moves) = links g).
  { clear g' a b. induction moves as [|evt moves IH] using rev_ind.
    - exists e. by repeat split.
    - destruct IH as (ek & Hek & Hsame & Hother & Hlinks).
      unfold pointermoves in *. rewrite foldl_app. simpl.
      destruct (pointermove_resizing _ e ek evt d1 _ _ Hek Hsame Hres Hr Hp0 Hs0 He0)
        as (Hnew & Hoth & Hl).
      eexists. split; [exact Hnew|]. split; [done|]. split.
      + intros i Hi. by rewrite Hoth, Hother.
      + by rewrite Hl. }
  destruct Hinv as (ek & Hek & Hsame & Hother & Hlinks).
  assert (Hg' : g' = pointermove (id e) last d1 (pointermoves (id e) d1 g moves)).
  { subst g'. unfold pointermoves. by rewrite foldl_app. }
  destruct (pointermove_resizing _ e ek last d1 _ _ Hek Hsame Hres Hr Hp0 Hs0 He0)
    as (Hnew & Hoth & Hl).
  simpl in Hnew. fold a b in Hnew. rewrite <- Hg' in Hnew, Hoth, Hl.
  split; [exact Hnew|]. split; [unfold position_of; by rewrite Hnew|].
  split; [intros i Hi; by rewrite Hoth, Hother|]. split; [by rewrite Hl|].
  intros Hmax. exists (resize a b e). split; [exact Hnew|]. split; apply Hmax.
Qed.

(** One pointer-move of the drag of an element that is no window. *)
Lemma pointermove_dragging g e ek (evt : Pointer num) d start :
  element_by_id (id e) g = Some ek →
  (∀ p, set_position p ek = set_position p e) →
  is_window e = false →
  isResizing d = false → isDragging d = true → dragStartPosition d = Some start →
  let p := {| px := (localX evt - px start)%js; py := (localY evt - py start)%js |} in
  element_by_id (id e) (pointermove (id e) evt d g) = Some (set_position p e)
  ∧ (∀ i, i ≠ id e →
       element_by_id i (pointermove (id e) evt d g) = element_by_id i g)
  ∧ links (pointermove (id e) evt d g) = links g.
Proof.
  intros Hek Hsame Hw Hr Hd Hstart p.
  assert (Hshape : is_window ek = false).
  { pose proof (f_equal shape (Hsame {| px := of_Z 0; py := of_Z 0 |})) as Hs.
    simpl in Hs. unfold is_window in *. by rewrite Hs. }
  unfold pointermove. rewrite Hek, Hr, Hd, Hstart, Hshape. simpl. fold p.
  split; [|split; [|done]].
  - rewrite element_by_id_update_eq by done. rewrite Hek. simpl. by rewrite Hsame.
  - intros i Hi. by rewrite element_by_id_update_ne.
Qed.

(** X14. A pointer-down on a node, or on a note away from its resize
    handle, starts a drag of that element alone.  After any pointer-moves,
    the last of them at [last], the element is what it was but for its
    position, which is [last] minus the point at which it was grabbed,
    whatever path the pointer took; no other element and no link changes,
    and the list of nodes cached for a window drag is not touched. *)
Theorem node_drag_moves_that_node_only g e (down : Pointer num) d0
    (moves : list (Pointer num)) (last : Pointer num) :
  element_by_id (id e) g = Some e →
  is_window e = false →
  resizable e && on_resize_handle (localX down) (localY down) e = false →
  isResizing d0 = false →
  let d1 := pointerdown (id e) down g d0 in
  let g' := pointermoves (id e) d1 g (moves ++ [last]) in
  let p := {| px := (localX last - (localX down - px (position e)))%js;
              py := (localY last - (localY down - py (position e)))%js |} in
  element_by_id (id e) g' = Some (set_position p e)
  ∧ (∀ i, i ≠ id e → element_by_id i g' = element_by_id i g)
  ∧ links g' = links g
  ∧ initialNodePositions d1 = initialNodePositions d0
  ∧ nodesInsideWindow d1 = nodesInsideWindow d0.
Proof.
  intros He Hw Hh Hr d1 g' p.
  assert (Hd1 : isResizing d1 = false ∧ isDragging d1 = true
                ∧ dragStartPosition d1
                  = Some {| px := (localX down - px (position e))%js;
                            py := (localY down - py (position e))%js |}
                ∧ initialNodePositions d1 = initialNodePositions d0
                ∧ nodesInsideWindow d1 = nodesInsideWindow d0).
  { subst d1. unfold pointerdown. rewrite He. simpl.
    destruct (resizable e); simpl in Hh; [rewrite Hh, Hw|]; done. }
  destruct Hd1 as (Hr1 & Hd & Hstart & Hpos & Hins).
  assert (Hinv : ∃ ek, element_by_id (id e) (pointermoves (id e) d1 g moves) = Some ek
                   ∧ (∀ q, set_position q ek = set_position q e)
                   ∧ (∀ i, i ≠ id e →
                        element_by_id i (pointermoves (id e) d1 g moves) = element_by_id i g)
                   ∧ links (pointermoves (id e) d1 g moves) = links g).
  { clear g' p. induction moves as [|evt moves IH] using rev_ind.
    - exists e. by repeat split.
    - destruct IH as (ek & Hek & Hsame & Hother & Hlinks).
      unfold pointermoves in *. rewrite foldl_app. simpl.
      destruct (pointermove_dragging _ e ek evt d1 _ Hek Hsame Hw Hr1 Hd Hstart)
        as (Hnew & Hoth & Hl).
      eexists. split; [exact Hnew|]. split; [done|]. split.
      + intros i Hi. by rewrite Hoth, Hother.
      + by rewrite Hl. }
  destruct Hinv as (ek & Hek & Hsame & Hother & Hlinks).
  assert (Hg' : g' = pointermove (id e) last d1 (pointermoves (id e) d1 g moves)).
  { subst g'. unfold pointermoves. by rewrite foldl_app. }
  destruct (pointermove_dragging _ e ek last d1 _ Hek Hsame Hw Hr1 Hd Hstart)
    as (Hnew & Hoth & Hl).
  simpl in Hnew. fold p in Hnew. rewrite <- Hg' in Hnew, Hoth, Hl.
  split; [exact Hnew|].
  split; [intros i Hi; by rewrite Hoth, Hother|]. split; [by rewrite Hl|]. done.
Qed.

End GestureFacts.

(** ** A dragged window keeps what it took along *)

Section ContainmentFacts.
Context {num : Type} `{JsNumber num}.
Import board canvas.

Implicit Types (g : Graph num) (e w : Element num) (d : Drag num) (i j : string).








End ContainmentFacts.

(** ** Loading the links of a workflow *)

Section LoadFacts.
Context {num : Type} `{JsNumber num}.
Import board canvas.

Implicit Types (g : Graph num) (l : WireLink).










End LoadFacts.

(** ** Saving the interface form again *)

Section FormFacts.
Import board.

(** X17. Saving the form of a node is idempotent: if the inputs just
    saved are the persisted ones at the next save and the form submits
    the same entries, the same inputs are saved again.  What is persisted
    matters only for the fields the form does not submit. *)
Theorem saving_the_form_again_changes_nothing (F : FormData) (P : gmap string JsVal)
    (S : gmap string FieldDef) :
  newStaticInput F (newStaticInput F P S) S = newStaticInput F P S
  ∧ (∀ P' : gmap string JsVal,
       (∀ k, form_has k F = false → P' !! k = P !! k) →
       newStaticInput F P' S = newStaticInput F P S).
Proof.
  split.
  - apply map_eq. intros k. rewrite !newStaticInput_lookup.
    destruct (S !! k) as [d|] eqn:Hd; [|done]. simpl. f_equal.
    unfold saved_value.
    destruct (String.eqb (ftype d) "checkbox") eqn:Hc; [done|].
    destruct (form_get k F) as [v|] eqn:Hf; [done|].
    rewrite newStaticInput_lookup, Hd. simpl.
    unfold saved_value. by rewrite Hc, Hf.
  - intros P' Hsame. apply map_eq. intros k. rewrite !newStaticInput_lookup.
    destruct (S !! k) as [d|]; [|done]. simpl. f_equal.
    unfold saved_value. destruct (String.eqb (ftype d) "checkbox"); [done|].
    destruct (form_get k F) as [v|] eqn:Hf; [done|].
    rewrite Hsame; [done|]. unfold form_has. by rewrite Hf.
Qed.

End FormFacts.

(** ** Zooming step after step *)

Section ZoomSequenceFacts.
Import board.


End ZoomSequenceFacts.

(** ** The eye button and the selects of the form *)

Section EyeFacts.
Context {num : Type} `{JsNumber num}.
Import board.

Lemma id_toggleNodeInterface (e : Element num) : id (toggleNodeInterface e) = id e.
Proof. unfold toggleNodeInterface. by destruct (interfaceVisible e). Qed.

(** X19. A click on the eye button of a node flips the visibility of its
    interface and gives the node its original size when it closes, its
    expanded size when it opens; no other element changes.  The record of
    the node is requested only by a click that opens the interface, of a
    node that has a [customId], with a workflow selected; a click that
    closes the interface sends nothing. *)
Theorem eye_button_fetches_only_to_open (selector : option string) (i : string)
    (g : Graph num) (node : Element num) :
  element_by_id i g = Some node →
  let '(g', effects) := eye_button selector i g in
  (∃ node', element_by_id i g' = Some node'
     ∧ interfaceVisible node' = negb (interfaceVisible node)
     ∧ size node' = (if interfaceVisible node then originalSize node else expandedSize node)
     ∧ position node' = position node)
  ∧ (∀ j, j ≠ i → element_by_id j g' = element_by_id j g)
  ∧ links g' = links g
  ∧ List.filter is_emit effects
    = (if interfaceVisible node then []
       else match truthy_id (customId node), truthy_id selector with
            | Some c, Some w => [Emit (NODE_CONTENT_REQUEST w c)]
            | _, _ => []
            end).
Proof.
  intros Hn. unfold eye_button. rewrite Hn.
  assert (Ht : element_by_id i (update_element i toggleNodeInterface g)
               = Some (toggleNodeInterface node)).
  { rewrite element_by_id_update_eq by apply id_toggleNodeInterface. by rewrite Hn. }
  assert (Ho : ∀ j, j ≠ i →
            element_by_id j (update_element i toggleNodeInterface g) = element_by_id j g).
  { intros j Hj. apply element_by_id_update_ne; [apply id_toggleNodeInterface|done]. }
  unfold toggleNodeInterface at 1. destruct (interfaceVisible node) eqn:Hv; simpl.
  - split; [|by repeat split].
    eexists. split; [exact Ht|]. unfold toggleNodeInterface. by rewrite Hv.
  - destruct (truthy_id (customId node)) as [c|]; simpl.
    + split; [|split; [done|split; [done|]]].
      * eexists. split; [exact Ht|]. unfold toggleNodeInterface. by rewrite Hv.
      * unfold fetchNodeData. by destruct (truthy_id selector).
    + split; [|split; [|done]].
      * rewrite element_by_id_update_eq by done. rewrite Ht. simpl.
        eexists. split; [reflexivity|]. unfold toggleNodeInterface. by rewrite Hv.
      * intros j Hj. rewrite element_by_id_update_ne by done. by apply Ho.
Qed.


End EyeFacts.

(** ** The gestures on the sample scene, in exact arithmetic *)




(** The window of the sample scene is grabbed by its corner at (245, 195)
    and the pointer taken to (80, 120): its top-left corner stays at
    (50, 50). *)
Lemma resize_keeps_the_corner_witness :
  board.element_by_id "win" sample.g_win = Some sample.win
  ∧ board.resizable sample.win = true
  ∧ board.on_resize_handle 245%Q 195%Q sample.win = true
  ∧ board.position_of "win"
      (board.pointermoves "win"
         (board.pointerdown "win" (sample.at_point 245 195)%Q sample.g_win board.drag_idle)
         sample.g_win ([sample.at_point 300 300] ++ [sample.at_point 80 120])%Q)
    = Some (board.position sample.win).
Proof.
  split; [reflexivity|]. split; [reflexivity|]. split; [reflexivity|].
  exact (proj1 (proj2
    (resize_keeps_the_corner sample.g_win sample.win (sample.at_point 245 195)%Q
       board.drag_idle [sample.at_point 300 300]%Q (sample.at_point 80 120)%Q
       eq_refl eq_refl eq_refl))).
Defined.

(** The node inside the window is grabbed at (70, 60) and taken to
    (100, 100). *)
Lemma node_drag_moves_that_node_only_witness :
  board.element_by_id "in" sample.g_win = Some sample.inside
  ∧ board.is_window sample.inside = false
  ∧ board.resizable sample.inside
    && board.on_resize_handle 70%Q 60%Q sample.inside = false
  ∧ board.isResizing (board.drag_idle (num:=Q)) = false
  ∧ board.element_by_id "in"
      (board.pointermoves "in"
         (board.pointerdown "in" (sample.at_point 70 60)%Q sample.g_win board.drag_idle)
         sample.g_win ([sample.at_point 90 20] ++ [sample.at_point 100 100])%Q)
    = Some (board.set_position
              {| board.px := (100 - (70 - 60))%Q; board.py := (100 - (60 - 55))%Q |}
              sample.inside).
Proof.
  split; [reflexivity|]. split; [reflexivity|]. split; [reflexivity|].
  split; [reflexivity|].
  exact (proj1
    (node_drag_moves_that_node_only sample.g_win sample.inside (sample.at_point 70 60)%Q
       board.drag_idle [sample.at_point 90 20]%Q (sample.at_point 100 100)%Q
       eq_refl eq_refl eq_refl eq_refl)).
Defined.



(** The eye button of the saved node n1, its interface closed. *)
Lemma eye_button_fetches_only_to_open_witness :
  board.element_by_id "cell-1" sample.g12 = Some sample.n1
  ∧ List.filter board.is_emit (board.eye_button (Some "w1") "cell-1" sample.g12).2
    = [board.Emit (board.NODE_CONTENT_REQUEST "w1" "n1")].
Proof.
  split; [reflexivity|].
  pose proof (eye_button_fetches_only_to_open (Some "w1") "cell-1" sample.g12 sample.n1
                eq_refl) as Hw.
  destruct (board.eye_button (Some "w1") "cell-1" sample.g12) as [g' effects].
  exact (proj2 (proj2 (proj2 Hw))).
Defined.


(** ** Connections of the socket *)

Section ConnectFacts.
Import socket page.

Lemma connect_listeners s :
  listeners (connect s) = listeners s ++ map listener_on message_events
  ∧ handled (connect s) = handled s
  ∧ promises (connect s) = promises s.
Proof. unfold connect, addMessagesHandlers. simpl. by rewrite <- !app_assoc. Qed.

Lemma concat_replicate_comm {A} n (l : list A) :
  concat (replicate n l) ++ l = concat (replicate (S n) l).
Proof.
  induction n as [|n IH]; [simpl; by rewrite app_nil_r|].
  change (concat (replicate (S n) l)) with (l ++ concat (replicate n l)).
  rewrite <- app_assoc, IH. done.
Qed.

Lemma connected_listeners n :
  listeners (connected n)
  = map listener_on interface_events ++ concat (replicate n (map listener_on message_events))
  ∧ handled (connected n) = [].
Proof.
  induction n as [|n [IHl IHh]]; [done|].
  change (connected (S n)) with (connect (connected n)).
  destruct (connect_listeners (connected n)) as (Hl & Hh & _).
  rewrite Hl, Hh, IHl, IHh. split; [|done].
  rewrite <- app_assoc. f_equal. apply concat_replicate_comm.
Qed.

Lemma handled_invoke v cs : ∀ s,
  handled (foldl (invoke v) s cs)
  = handled s ++ omap (λ l, match l_fn l with
                             | Handler h => Some (h, v)
                             | ResolvePromise _ => None
                             end) cs.
Proof.
  induction cs as [|l cs IH]; intros s; simpl; [by rewrite app_nil_r|].
  rewrite IH. unfold invoke. destruct (l_fn l); simpl; [done|].
  by rewrite <- app_assoc.
Qed.

Lemma filter_concat_replicate {A} (f : A → bool) n (l : list A) :
  List.filter f (concat (replicate n l)) = concat (replicate n (List.filter f l)).
Proof. induction n as [|n IH]; [done|]. simpl. by rewrite List.filter_app, IH. Qed.

Lemma length_concat_replicate {A} n (l : list A) :
  length (concat (replicate n l)) = n * length l.
Proof. induction n as [|n IH]; [done|]. simpl. rewrite length_app, IH. lia. Qed.

Lemma omap_concat_replicate {A B} (f : A → option B) n (a : A) (b : B) :
  f a = Some b → omap f (concat (replicate n [a])) = replicate n b.
Proof.
  intros Hf. induction n as [|n IH]; [done|]. cbn. rewrite Hf. cbn. f_equal. exact IH.
Qed.

Lemma clicks_succ n sel shown :
  preset_button_clicks (S n) sel shown
  = (panels.toggleMenu "#preset-menu-container" (preset_button_clicks n sel shown).1,
     (preset_button_clicks n sel shown).2
     ++ (panels.preset_button_click sel (preset_button_clicks n sel shown).1).2).
Proof. done. Qed.

(** X21. The main script registers the handlers of the page in the
    function it gives to the socket's [connect] event, so every connection
    registers them once more and none is ever removed.  Once the socket
    has connected [n] times, an arriving chat or message event calls its
    handler [n] times with the same payload, while the two handlers of the
    interface script, installed when it is loaded, are called once.  A
    click on the workflows button toggles its panel [n] times: the panel
    changes only when [n] is odd. *)
Theorem every_connection_registers_the_handlers_again (n : nat) (event : string)
    (v : JsVal) (sel : workflows.Selector) (shown : panels.Shown) :
  (In event message_events →
     handled (dispatch event v (connected n)) = replicate n (event, v))
  ∧ (In event interface_events → handled (dispatch event v (connected n)) = [(event, v)])
  ∧ length (listeners (connected n)) = 2 + 7 * n
  ∧ ("#preset-menu-container" ∈ (preset_button_clicks n sel shown).1
     ↔ if Nat.odd n then "#preset-menu-container" ∉ shown
       else "#preset-menu-container" ∈ shown).
Proof.
  destruct (connected_listeners n) as [Hl Hh].
  assert (Hd : handled (dispatch event v (connected n))
               = omap (λ l, match l_fn l with
                            | Handler h => Some (h, v)
                            | ResolvePromise _ => None
                            end)
                   (List.filter (λ l, String.eqb (l_event l) event)
                      (map listener_on interface_events)
                    ++ concat (replicate n
                         (List.filter (λ l, String.eqb (l_event l) event)
                            (map listener_on message_events))))).
  { unfold dispatch. rewrite handled_invoke. simpl handled. rewrite Hh, Hl.
    by rewrite List.filter_app, filter_concat_replicate. }
  split; [|split; [|split]].
  - intros Hin. rewrite Hd.
    assert (Hcases : List.filter (λ l, String.eqb (l_event l) event)
                       (map listener_on interface_events) = []
                     ∧ List.filter (λ l, String.eqb (l_event l) event)
                         (map listener_on message_events) = [listener_on event]).
    { simpl in Hin. destruct Hin as [<-|[<-|[<-|[<-|[<-|[<-|[<-|[]]]]]]]]; done. }
    destruct Hcases as [-> ->]. simpl. by apply omap_concat_replicate.
  - intros Hin. rewrite Hd.
    assert (Hcases : List.filter (λ l, String.eqb (l_event l) event)
                       (map listener_on interface_events) = [listener_on event]
                     ∧ List.filter (λ l, String.eqb (l_event l) event)
                         (map listener_on message_events) = []).
    { simpl in Hin. destruct Hin as [<-|[<-|[]]]; done. }
    destruct Hcases as [-> ->]. simpl.
    replace (concat (replicate n [])) with (@nil Listener); [done|].
    clear. induction n as [|n IH]; [done|]. simpl. exact IH.
  - rewrite Hl, length_app, length_concat_replicate. simpl. lia.
  - clear. induction n as [|n IH]; [done|].
    rewrite clicks_succ. cbn [fst]. rewrite Nat.odd_succ, <- Nat.negb_odd.
    assert (Ht : ∀ s : panels.Shown,
              "#preset-menu-container" ∈ panels.toggleMenu "#preset-menu-container" s
              ↔ "#preset-menu-container" ∉ s).
    { intros s. rewrite elem_of_toggleMenu. split; [|tauto].
      intros [[_ Hs]|[Hs _]]; done. }
    rewrite Ht, IH.
    destruct (Nat.odd n), (decide ("#preset-menu-container" ∈ shown)); simpl; tauto.
Qed.

End ConnectFacts.

(** ** A new node *)

Section NewNodeFacts.
Context {num : Type} `{JsNumber num}.
Import board canvas.

Lemma truthy_id_Some (o : option string) (s : string) :
  truthy_id o = Some s → truthy_id (Some s) = Some s.
Proof.
  destruct o as [s'|]; [|done]. simpl. destruct (String.eqb s' "") eqn:Hs; [done|].
  intros [= <-]. by rewrite Hs.
Qed.

(** X22. The add-node dialog does not put the node on the canvas: given a
    name, a type and a selected workflow it sends one [NODE_SAVE_REQUEST]
    that carries no id, the type, the subtype, and the subtype again as
    handler unless it is [custom] or [trigger]; without a name or a type
    it only warns.  The node enters the graph in the callback of the
    response, last among the elements and under the id of the response,
    and only if the response reports success: otherwise the graph is left
    as it is.  No link changes either way. *)
Theorem new_node_enters_the_graph_when_saved (selector : option string)
    (node : Element num) (name type subtype : option string) (n t w : string)
    (response : JsVal) (g : Graph num) :
  truthy_id name = Some n →
  truthy_id type = Some t →
  truthy_id selector = Some w →
  add_node_callback selector node name type subtype
  = [Emit (NODE_SAVE_REQUEST
       {| ns_workflow_id := w; ns_name := VStr n; ns_interface := None;
          ns_node_type := Some t;
          ns_node_subtype := truthy_id subtype;
          ns_handler :=
            match truthy_id subtype with
            | Some s =>
                if String.eqb s "custom" || String.eqb s "trigger" then None else Some s
            | None => None
            end;
          ns_code := None; ns_static_input := None; ns_id := None |});
     Await "node_save" (KNodeSave node true)]
  ∧ elements (node_save_response selector node true response g).1
    = elements g
      ++ match message_is_success response with
         | Some true =>
             [set_customId match get_prop response "id" with
                           | Some (VStr c) => Some c
                           | _ => None
                           end node]
         | _ => []
         end
  ∧ links (node_save_response selector node true response g).1 = links g
  ∧ (∀ name' type', truthy_id name' = None ∨ truthy_id type' = None →
       List.filter is_emit (add_node_callback selector node name' type' subtype) = []).
Proof.
  intros Hn Ht Hw. split; [|split; [|split]].
  - unfold add_node_callback, saveNode. rewrite Hn, Ht. simpl.
    pose proof (truthy_id_Some _ _ Ht) as Ht'. simpl in Ht'. rewrite Hw, Ht'.
    do 3 f_equal.
    destruct subtype as [s|]; [|done]. simpl.
    destruct (String.eqb_spec s "") as [->|Hne]; [done|].
    destruct (String.eqb_spec s "custom") as [->|Hc]; [done|].
    destruct (String.eqb_spec s "trigger") as [->|Htr]; [done|]. simpl.
    by destruct (String.eqb_spec s "").
  - unfold node_save_response.
    destruct (message_is_success response) as [[|]|]; simpl; by rewrite ?app_nil_r.
  - unfold node_save_response.
    by destruct (message_is_success response) as [[|]|].
  - intros name' type' [Hx|Hx]; unfold add_node_callback; rewrite Hx; [done|].
    by destruct (truthy_id name').
Qed.

End NewNodeFacts.

Lemma new_node_enters_the_graph_when_saved_witness :
  truthy_id (Some "fetch") = Some "fetch"
  ∧ board.elements
      (board.node_save_response (Some "w1") sample.unsaved true
         (VObj [("message", VStr "success"); ("id", VStr "n3")]) sample.g12).1
    = board.elements sample.g12
      ++ match board.message_is_success
                 (VObj [("message", VStr "success"); ("id", VStr "n3")]) with
         | Some true =>
             [board.set_customId
                match get_prop (VObj [("message", VStr "success"); ("id", VStr "n3")]) "id" with
                | Some (VStr c) => Some c
                | _ => None
                end sample.unsaved]
         | _ => []
         end.
Proof.
  split; [reflexivity|].
  exact (proj1 (proj2
    (new_node_enters_the_graph_when_saved (Some "w1") sample.unsaved
       (Some "fetch") (Some "action") (Some "http") "fetch" "action" "w1"
       (VObj [("message", VStr "success"); ("id", VStr "n3")]) sample.g12
       eq_refl eq_refl eq_refl))).
Defined.

(** ** Adding an agent to the list *)

Section AddAgentFacts.
Import agents roster.

Lemma agent_id_added i name response items it :
  add_response i name response items = items ++ [it] → agent_id it = i.
Proof.
  unfold add_response. destruct (get_prop response "is_started") as [s|].
  - intros Heq%app_inv_head. injection Heq as <-. by destruct (truthy s).
  - intros Heq. apply (f_equal length) in Heq. rewrite length_app in Heq. simpl in Heq. lia.
Qed.

(** X23. [addAgent] looks for the agent in the list when the button is
    clicked, and the item is appended when the response arrives.  If every
    response arrives before the next click, no agent is ever listed twice.
    Two clicks made before the first response arrives both find the agent
    missing and both send the request; the two responses then append two
    items for the same agent. *)
Theorem agent_listed_twice_only_by_clicks_in_a_row (i name : string)
    (r1 r2 : JsVal) (s1 s2 : JsVal) (items : list AgentItem) :
  i ≠ "" → name ≠ "" →
  NoDup (map agent_id items) →
  get_prop r1 "is_started" = Some s1 →
  get_prop r2 "is_started" = Some s2 →
  (let items' :=
     match addAgent (Some i) (Some name) items with
     | [] => items
     | _ => add_response i name r1 items
     end in
   NoDup (map agent_id items')
   ∧ addAgent (Some i) (Some name) (add_response i name r1 items) = [])
  ∧ (absent i items = true →
       sent (addAgent (Some i) (Some name) items)
       = [(AGENT_REQUEST, VObj [("id", VStr i)])]
       ∧ map agent_id (add_response i name r2 (add_response i name r1 items))
         = map agent_id items ++ [i; i]).
Proof.
  intros Hi Hn Hnd H1 H2.
  assert (Hti : truthy_id (Some i) = Some i).
  { simpl. by destruct (String.eqb_spec i ""). }
  assert (Htn : truthy_id (Some name) = Some name).
  { simpl. by destruct (String.eqb_spec name ""). }
  assert (Hadd : ∀ r s l, get_prop r "is_started" = Some s →
            map agent_id (add_response i name r l) = map agent_id l ++ [i]).
  { intros r s l Hr. unfold add_response. rewrite Hr, map_app. simpl.
    by destruct (truthy s). }
  assert (Habs : ∀ l, absent i l = true ↔ ¬ In i (map agent_id l)).
  { intros l. unfold absent. rewrite negb_true_iff.
    induction l as [|it l IH]; simpl; [tauto|].
    rewrite orb_false_iff, IH. destruct (String.eqb_spec (agent_id it) i); naive_solver. }
  split; [split|].
  - unfold addAgent. rewrite Hti, Htn.
    destruct (absent i items) eqn:Ha; [|done]. simpl.
    rewrite (Hadd r1 s1 items H1). apply NoDup_app. split; [done|]. split.
    + intros x Hx [->|[]]%list_elem_of_In. apply Habs in Ha. apply Ha.
      by apply list_elem_of_In.
    + apply NoDup_singleton.
  - unfold addAgent. rewrite Hti, Htn.
    destruct (absent i (add_response i name r1 items)) eqn:Ha; [|done].
    apply Habs in Ha. exfalso. apply Ha.
    rewrite (Hadd r1 s1 items H1). apply in_or_app. right. by left.
  - intros Ha. split.
    + unfold addAgent. by rewrite Hti, Htn, Ha.
    + rewrite (Hadd r2 s2 _ H2), (Hadd r1 s1 _ H1). by rewrite <- app_assoc.
Qed.

End AddAgentFacts.

Lemma agent_listed_twice_only_by_clicks_in_a_row_witness :
  NoDup (map roster.agent_id [])
  ∧ roster.absent "a1" [] = true
  ∧ map roster.agent_id
      (roster.add_response "a1" "helper" (VObj [("is_started", VBool true)])
         (roster.add_response "a1" "helper" (VObj [("is_started", VBool false)]) []))
    = map roster.agent_id [] ++ ["a1"; "a1"].
Proof.
  assert (Hnd : NoDup (map roster.agent_id [])) by apply NoDup_nil_2.
  split; [exact Hnd|]. split; [reflexivity|].
  exact (proj2 (proj2
    (agent_listed_twice_only_by_clicks_in_a_row "a1" "helper"
       (VObj [("is_started", VBool false)]) (VObj [("is_started", VBool true)])
       (VBool false) (VBool true) []
       ltac:(discriminate) ltac:(discriminate) Hnd eq_refl eq_refl) eq_refl)).
Defined.

(** ** New shapes *)

Section NewShapeFacts.
Import board canvas.

(** X24. In exact arithmetic, [getNode], [getWindow] and [getNote] put
    the new shape where its centre shows at the centre of the paper
    container, whatever the zoom and the pan of the paper: with the
    paper's scale and translation applied, the middle of the shape is the
    middle of the container.  The node is 150 by 70, the window 200 by
    150, the note 150 by 100. *)
Theorem new_shapes_are_centred_in_the_view (i : string) (paperWidth paperHeight : Q)
    (paper : Paper Q) (make : string → Q → Q → Paper Q → Element Q) :
  ¬ (sx paper == 0)%Q →
  make = getNode ∨ make = getWindow ∨ make = getNote →
  let e := make i paperWidth paperHeight paper in
  ((px (position e) + width (size e) / 2) * sx paper + tx paper == paperWidth / 2)%Q
  ∧ ((py (position e) + height (size e) / 2) * sx paper + ty paper == paperHeight / 2)%Q
  ∧ size e
    = (if same_shape (shape e) NodeWithButton then {| width := 150; height := 70 |}
       else if same_shape (shape e) Window then {| width := 200; height := 150 |}
       else {| width := 150; height := 100 |})%Q
  ∧ customId e = None
  ∧ interfaceVisible e = false.
Proof.
  intros Hs [->|[->| ->]]; simpl; (split; [field; exact Hs|]);
    (split; [field; exact Hs|]); done.
Qed.

End NewShapeFacts.

Lemma new_shapes_are_centred_in_the_view_witness :
  ¬ (board.sx sample.paper0_exact == 0)%Q
  ∧ (let e := canvas.getWindow "win-2" 800%Q 600%Q sample.paper0_exact in
     ((board.px (board.position e) + board.width (board.size e) / 2)
        * board.sx sample.paper0_exact + board.tx sample.paper0_exact == 800 / 2)%Q).
Proof.
  assert (Hs0 : ¬ (board.sx sample.paper0_exact == 0)%Q) by done.
  split; [exact Hs0|].
  exact (proj1
    (new_shapes_are_centred_in_the_view "win-2" 800%Q 600%Q sample.paper0_exact
       canvas.getWindow Hs0 (or_intror (or_introl eq_refl)))).
Defined.

(** ** Deleting a link *)

Section LinkDeleteFacts.
Context {num : Type} `{JsNumber num}.
Import board canvas.

(** X25. The delete-link action asks the engine to delete the link
    between the records of the two elements the selected link joins.  The
    callback of the response does not remove that link: it removes what is
    selected when the response arrives.  If nothing else was clicked in
    between, that is the link; if another cell was right-clicked, that
    cell is removed from the canvas and the link stays on it; if the blank
    canvas was right-clicked, nothing is removed. *)
Theorem link_delete_removes_what_is_selected_at_the_response (workflowId : option string)
    (w : string) (m : Menu num) (g : Graph num) (l : Link) (s t : Element num)
    (response : JsVal) :
  truthy_id workflowId = Some w →
  element_by_id (source l) g = Some s →
  element_by_id (target l) g = Some t →
  message_is_success response = Some true →
  let '(m1, effects) := delete_link_click workflowId (cell_contextmenu (CellLink l) m) g in
  effects = [LINK_DELETE_REQUEST w (customId s) (customId t)]
  ∧ contextMenuShown m1 = false
  ∧ (link_delete_response response m1 g).1 = remove_link l g
  ∧ (∀ x, In x (links (remove_link l g)) ↔ In x (links g) ∧ link_eqb x l = false)
  ∧ (∀ c, (link_delete_response response (cell_contextmenu c m1) g).1 = remove_cell c g)
  ∧ (∀ e, attached (id e) l = false → In l (links g) →
       In l (links (link_delete_response response
                      (cell_contextmenu (CellElement e) m1) g).1)
       ∧ element_by_id (id e)
           (link_delete_response response (cell_contextmenu (CellElement e) m1) g).1
         = None)
  ∧ (link_delete_response response (blank_contextmenu m1) g).1 = g
  ∧ (∀ failure, message_is_success failure ≠ Some true →
       (link_delete_response failure m1 g).1 = g).
Proof.
  intros Hw Hs Ht Hr. unfold delete_link_click. simpl. rewrite Hw, Hs, Ht.
  split; [done|]. split; [done|].
  unfold link_delete_response. rewrite Hr. simpl.
  split; [done|]. split.
  { intros x. unfold remove_link. simpl. rewrite filter_In, negb_true_iff. done. }
  split; [done|]. split.
  { intros e Ha Hl. split.
    - unfold remove. simpl. apply filter_In. split; [done|]. by rewrite Ha.
    - apply element_by_id_remove. }
  split; [done|].
  intros failure Hf. destruct (message_is_success failure) as [[|]|]; done.
Qed.

End LinkDeleteFacts.

Lemma link_delete_removes_what_is_selected_at_the_response_witness :
  truthy_id (Some "w1") = Some "w1"
  ∧ board.element_by_id "cell-1" sample.g12_linked = Some sample.n1
  ∧ board.message_is_success sample.ok_response = Some true
  ∧ (let '(m1, effects) :=
       canvas.delete_link_click (Some "w1")
         (board.cell_contextmenu
            (board.CellLink {| board.source := "cell-1"; board.target := "cell-2" |})
            board.menu_init)
         sample.g12_linked in
     effects = [canvas.LINK_DELETE_REQUEST "w1" (Some "n1") (Some "n2")]).
Proof.
  split; [reflexivity|]. split; [reflexivity|]. split; [reflexivity|].
  pose proof (link_delete_removes_what_is_selected_at_the_response (Some "w1") "w1"
                board.menu_init sample.g12_linked
                {| board.source := "cell-1"; board.target := "cell-2" |}
                sample.n1 sample.n2 sample.ok_response
                eq_refl eq_refl eq_refl eq_refl) as Hw.
  exact (proj1 Hw).
Defined.

(** ** Deleting a window or a note *)

Section DeleteShapeFacts.
Context {num : Type} `{JsNumber num}.
Import board canvas.

Lemma element_by_id_remove_ne (g : Graph num) (w : Element num) (i : string) :
  i ≠ id w → element_by_id i (remove w g) = element_by_id i g.
Proof.
  intros Hne. unfold element_by_id, remove, same. simpl.
  induction (elements g) as [|e l IH]; [done|]. simpl.
  destruct (String.eqb_spec (id e) (id w)) as [He|He]; simpl.
  - rewrite IH. destruct (String.eqb_spec (id e) i); [congruence|done].
  - by rewrite IH.
Qed.

(** X26. Deleting a window takes the window off the canvas, with the
    links attached to it, and nothing else: every other element, the ones
    lying inside the window included, stays as it is, and so does every
    link not attached to the window.  With a window selected, the
    delete-note and delete-node actions remove nothing and the delete-node
    action sends nothing.  Each of them closes the context menu. *)
Theorem deleting_a_window_keeps_its_contents (m : Menu num) (g : Graph num)
    (w : Element num) (workflowId : option string) :
  selectedElement m = Some (CellElement w) →
  shape w = Window →
  let '(m', g') := delete_shape_click Window m g in
  element_by_id (id w) g' = None
  ∧ (∀ i, i ≠ id w → element_by_id i g' = element_by_id i g)
  ∧ (∀ e, In e (captured g w) → In e (elements g') ∧ In e (captured g' w))
  ∧ (∀ l, In l (links g') ↔ In l (links g) ∧ attached (id w) l = false)
  ∧ contextMenuShown m' = false
  ∧ delete_shape_click Note m g = (hide m, g)
  ∧ delete_node_click workflowId m g = (hide m, g, []).
Proof.
  intros Hsel Hs. unfold delete_shape_click, delete_node_click, selected_node.
  rewrite Hsel, Hs. simpl.
  split; [apply element_by_id_remove|].
  split; [intros i Hi; by apply element_by_id_remove_ne|].
  split; [|split; [|done]].
  - intros e (Hin & Hne & Hinside)%captured_In.
    assert (He : In e (elements (remove w g))).
    { unfold remove. simpl. apply filter_In. split; [done|].
      unfold same. by destruct (String.eqb_spec (id e) (id w)). }
    split; [done|]. apply captured_In. done.
  - intros l. unfold remove. simpl. rewrite filter_In, negb_true_iff. done.
Qed.

End DeleteShapeFacts.

Lemma deleting_a_window_keeps_its_contents_witness :
  board.shape sample.win = board.Window
  ∧ (let '(m', g') :=
       board.delete_shape_click board.Window
         (board.cell_contextmenu (board.CellElement sample.win) board.menu_init)
         sample.g_win in
     board.element_by_id "win" g' = None).
Proof.
  split; [reflexivity|].
  pose proof (deleting_a_window_keeps_its_contents
                (board.cell_contextmenu (board.CellElement sample.win) board.menu_init)
                sample.g_win sample.win None eq_refl eq_refl) as Hw.
  exact (proj1 Hw).
Defined.

(** ** The save button of the embedded form *)

Section EmbeddedSaveFacts.
Context {num : Type} `{JsNumber num}.
Import board canvas.



End EmbeddedSaveFacts.

(** ** Zooming back *)

Section ZoomDriftFacts.
Import board.




End ZoomDriftFacts.

